(** * loopback-latency: a shallow embedding of the measurement tool

    The development follows the C++ sources of the tool: the fixed-width
    integer arithmetic is written out on [Z] with explicit wrap-around, the
    frame objects shared between producer and consumer live in a store
    addressed by pointers, and console or file output is a list of lines. *)

From Stdlib Require Import ZArith List String Ascii Bool Lia DecimalString DecimalPos
  Permutation.
From stdpp Require Import base option list gmap.

Local Open Scope string_scope.
Local Open Scope list_scope.
Local Open Scope Z_scope.

(** String concatenation, kept apart from the concatenation of lists. *)
Infix "+++" := String.append (right associativity, at level 60).

(* ===================================================================== *)
(** ** Machine integers *)
(* ===================================================================== *)

Module Machine.

(** Conversion to an unsigned integer of [w] bits. *)
Definition wrapu (w : Z) (x : Z) : Z := x mod 2 ^ w.

(** Conversion to a two's complement integer of [w] bits. *)
Definition wraps (w : Z) (x : Z) : Z :=
  (x + 2 ^ (w - 1)) mod 2 ^ w - 2 ^ (w - 1).

Definition u8 : Z -> Z := wrapu 8.
Definition u32 : Z -> Z := wrapu 32.
Definition u64 : Z -> Z := wrapu 64.   (* size_t, uint64_t *)
Definition s32 : Z -> Z := wraps 32.   (* int *)
Definition s64 : Z -> Z := wraps 64.   (* long, the rep of Microseconds *)

Definition LONG_MAX : Z := 2 ^ 63 - 1.
Definition LONG_MIN : Z := - 2 ^ 63.

End Machine.
Import Machine.

(* ===================================================================== *)
(** ** Text helpers: operator<< on integers, std::setw, std::endl *)
(* ===================================================================== *)

Module Text.

Definition endl : string := String (ascii_of_nat 10) EmptyString.

(** [operator<<] on an integer prints its decimal digits, with a leading
    minus sign for a negative value. *)
Definition show (z : Z) : string := NilZero.string_of_int (Z.to_int z).

Fixpoint spaces (n : nat) : string :=
  match n with
  | O => EmptyString
  | S k => String " "%char (spaces k)
  end.

(** [std::setw(w)] before a field: right-adjusted, padded with spaces up
    to [w] characters, never truncated. *)
Definition setw (w : nat) (s : string) : string :=
  spaces (w - String.length s) +++ s.

(** Fields joined by commas, as a CSV row is written. *)
Fixpoint join_commas (l : list string) : string :=
  match l with
  | nil => EmptyString
  | s :: nil => s
  | s :: r => s +++ "," +++ join_commas r
  end.

End Text.
Import Text.

(* ===================================================================== *)
(** ** DurationList.h / DurationList.cpp *)
(* ===================================================================== *)

Module Chrono.

(** Modelled from the spec: DurationList.h, which declares [Clock],
    [TimePoint] and [Microseconds], is absent.  A [Microseconds] is the
    standard microsecond duration, a signed 64-bit count.  Overflow of the
    signed arithmetic of durations is undefined in C++: sums and differences
    of durations are exact on [Z], and only the conversions that the
    sources make to unsigned types wrap around. *)
Definition Microseconds : Type := Z.

(** Modelled from the spec: a [TimePoint] of the absent DurationList.h is
    a count of clock ticks since the epoch of the clock. *)
Definition TimePoint : Type := Z.

(** Modelled from the spec: the clock of the absent DurationList.h ticks
    in nanoseconds, so that a difference of time points is truncated to
    microsecond resolution. *)
Definition ticks_per_microsecond : Z := 1000.

(** [std::chrono::duration_cast<Microseconds>]: integer division of the
    tick count, truncating toward zero. *)
Definition duration_cast (ticks : Z) : Microseconds :=
  Z.quot ticks ticks_per_microsecond.

(** The default-constructed time point is the epoch. *)
Definition epoch : TimePoint := 0.

End Chrono.
Import Chrono.

Module DurationList.

(** [m_values]: the samples in the order they were appended. *)
Definition t : Type := list Microseconds.

Definition empty : t := nil.

Definition Append (l : t) (d : Microseconds) : t := l ++ d :: nil.

(** [Append(const TimePoint& a, const TimePoint& b)]. *)
Definition AppendSpan (l : t) (a b : TimePoint) : t :=
  l ++ duration_cast (b - a) :: nil.

Definition Size (l : t) : Z := u64 (Z.of_nat (List.length l)).

(** [std::min_element]: the first of the smallest elements; the end
    iterator, which must not be dereferenced, on an empty range. *)
Definition min_element (l : list Z) : option Z :=
  match l with
  | nil => None
  | x :: r =>
      Some (fold_left (fun smallest v => if v <? smallest then v else smallest) r x)
  end.

Definition max_element (l : list Z) : option Z :=
  match l with
  | nil => None
  | x :: r =>
      Some (fold_left (fun largest v => if largest <? v then v else largest) r x)
  end.

Definition Min (l : t) : option Microseconds := min_element l.
Definition Max (l : t) : option Microseconds := max_element l.

(** The accumulator is a [uint64_t]: every signed count is converted to
    it before the addition, the quotient is unsigned, and the result is
    converted back to the signed count of a [Microseconds]. *)
Definition Avg (l : t) : Microseconds :=
  if (Z.of_nat (List.length l) =? 0) then 0
  else
    let total := fold_left (fun total value => u64 (total + u64 value)) l 0 in
    s64 (total / Z.of_nat (List.length l)).

Definition Summary (l : t) : option string :=
  match Min l, Max l with
  | Some mn, Some mx =>
      Some ("avg = " +++ setw 6 (show (Avg l)) +++ ", "
            +++ "min = " +++ setw 6 (show mn) +++ ", "
            +++ "max = " +++ setw 6 (show mx))
  | _, _ => None
  end.

End DurationList.

(* ===================================================================== *)
(** ** Frame.h *)
(* ===================================================================== *)

Record Frame : Type := mkFrame {
  m_number : Z;                 (* uint32_t *)
  m_r : Z;                      (* uint8_t *)
  m_g : Z;
  m_b : Z;
  m_processingStart : TimePoint;
  m_renderStart : TimePoint;
  m_renderEnd : TimePoint;
  m_copiedFromGPU : TimePoint;
  m_writeEnd : TimePoint;
  m_scanoutStart : TimePoint;
  m_frameReceived : TimePoint;
  m_readEnd : TimePoint;
  m_copiedToGPU : TimePoint;
  m_duplicateReceives : Z       (* size_t *)
}.

Module FrameOps.

(** [Frame::Frame(uint32_t number)].  The channel expressions are
    evaluated in 32-bit unsigned arithmetic and stored into [uint8_t]
    members. *)
Definition make (number : Z) : Frame :=
  {| m_number := number;
     m_r := u8 (u32 (Z.shiftr (Z.land number 0xF00) 8 * 16 + 8));
     m_g := u8 (u32 (Z.shiftr (Z.land number 0xF0) 4 * 16 + 8));
     m_b := u8 (u32 (Z.land number 0xF * 16 + 8));
     m_processingStart := epoch;
     m_renderStart := epoch;
     m_renderEnd := epoch;
     m_copiedFromGPU := epoch;
     m_writeEnd := epoch;
     m_scanoutStart := epoch;
     m_frameReceived := epoch;
     m_readEnd := epoch;
     m_copiedToGPU := epoch;
     m_duplicateReceives := 0 |}.

Definition Number (f : Frame) : Z := m_number f.
Definition R (f : Frame) : Z := m_r f.
Definition G (f : Frame) : Z := m_g f.
Definition B (f : Frame) : Z := m_b f.
Definition DuplicateReceives (f : Frame) : Z := m_duplicateReceives f.

Definition RecordDuplicateReceive (f : Frame) : Frame :=
  mkFrame (m_number f) (m_r f) (m_g f) (m_b f)
          (m_processingStart f) (m_renderStart f) (m_renderEnd f)
          (m_copiedFromGPU f) (m_writeEnd f) (m_scanoutStart f)
          (m_frameReceived f) (m_readEnd f) (m_copiedToGPU f)
          (u64 (m_duplicateReceives f + 1)).

(** The consumer-side checkpoints, set from an explicit instant. *)
Definition RecordFrameReceived (f : Frame) (time : TimePoint) : Frame :=
  mkFrame (m_number f) (m_r f) (m_g f) (m_b f)
          (m_processingStart f) (m_renderStart f) (m_renderEnd f)
          (m_copiedFromGPU f) (m_writeEnd f) (m_scanoutStart f)
          time (m_readEnd f) (m_copiedToGPU f)
          (m_duplicateReceives f).

Definition RecordReadEnd (f : Frame) (time : TimePoint) : Frame :=
  mkFrame (m_number f) (m_r f) (m_g f) (m_b f)
          (m_processingStart f) (m_renderStart f) (m_renderEnd f)
          (m_copiedFromGPU f) (m_writeEnd f) (m_scanoutStart f)
          (m_frameReceived f) time (m_copiedToGPU f)
          (m_duplicateReceives f).

Definition RecordCopiedToGPU (f : Frame) (time : TimePoint) : Frame :=
  mkFrame (m_number f) (m_r f) (m_g f) (m_b f)
          (m_processingStart f) (m_renderStart f) (m_renderEnd f)
          (m_copiedFromGPU f) (m_writeEnd f) (m_scanoutStart f)
          (m_frameReceived f) (m_readEnd f) time
          (m_duplicateReceives f).

End FrameOps.

(** Frames are shared between the producer's retained list and the
    consumer's received list through [std::shared_ptr]: a pointer is an
    address in a store of frame objects, and a mutation through one owner
    is seen by the other. *)

(* ===================================================================== *)
(** ** TestFormat.h *)
(* ===================================================================== *)

Inductive PixelFormat : Type := PIXEL_FORMAT_UNKNOWN | PIXEL_FORMAT_RGBA.

Record TestFormat : Type := mkTestFormat {
  width : Z;
  height : Z;
  pixelFormat : PixelFormat;
  bytesPerPixel : Z;
  totalBytes : Z;
  frameRate : Z                 (* uint32_t *)
}.

Module Formats.

Definition GetBytesPerPixel (pf : PixelFormat) : Z :=
  match pf with
  | PIXEL_FORMAT_RGBA => 4
  | _ => 0
  end.

Definition make (_width _height : Z) (_pixelFormat : PixelFormat) (_frameRate : Z) : TestFormat :=
  {| width := _width;
     height := _height;
     pixelFormat := _pixelFormat;
     bytesPerPixel := GetBytesPerPixel _pixelFormat;
     totalBytes := u64 (u64 (_width * _height) * GetBytesPerPixel _pixelFormat);
     frameRate := _frameRate |}.

Definition FORMAT_UNKNOWN := make 0 0 PIXEL_FORMAT_UNKNOWN 0.
Definition FORMAT_720_RGBA_60 := make 1280 720 PIXEL_FORMAT_RGBA 60.
Definition FORMAT_1080_RGBA_60 := make 1920 1080 PIXEL_FORMAT_RGBA 60.
Definition FORMAT_UHD_RGBA_24 := make 3840 2160 PIXEL_FORMAT_RGBA 24.
Definition FORMAT_UHD_RGBA_60 := make 3840 2160 PIXEL_FORMAT_RGBA 60.
Definition FORMAT_4K_RGBA_24 := make 4096 2160 PIXEL_FORMAT_RGBA 24.
Definition FORMAT_4K_RGBA_60 := make 4096 2160 PIXEL_FORMAT_RGBA 60.

(** The formats that the [-f] option or the default can select. *)
Definition selectable : list TestFormat :=
  FORMAT_720_RGBA_60 :: FORMAT_1080_RGBA_60 :: FORMAT_UHD_RGBA_24
  :: FORMAT_UHD_RGBA_60 :: FORMAT_4K_RGBA_24 :: FORMAT_4K_RGBA_60 :: nil.

End Formats.

(* ===================================================================== *)
(** ** Producer.h: the retained frame list and the frame lookup *)
(* ===================================================================== *)

Module Producer.

(** [m_currentFrame] and [m_frames]; the list is kept oldest first, new
    frames are pushed at the back. *)
Record State : Type := mkState {
  m_currentFrame : Z;         (* uint32_t *)
  m_frames : list nat
}.

(** Modelled from the spec: Producer.cpp is absent, only the declaration
    of [FuzzyMatch] in Producer.h is there.  A frame matches when each
    channel of its colour is within [threshold] units of the observed
    channel. *)
Definition FuzzyMatch (f : Frame) (r g b threshold : Z) : bool :=
  (Z.abs (FrameOps.R f - r) <=? threshold)
  && (Z.abs (FrameOps.G f - g) <=? threshold)
  && (Z.abs (FrameOps.B f - b) <=? threshold).

(** Modelled from the spec: the scan of the retained list from the newest
    frame to the oldest.  On an oldest-first list the newest match is the
    one no later element matches; the result is the match together with
    the part of the list that starts at it. *)
Fixpoint scan (store : gmap nat Frame) (frames : list nat) (r g b : Z)
  : option (nat * list nat) :=
  match frames with
  | nil => None
  | p :: newer =>
      match scan store newer r g b with
      | Some found => Some found
      | None =>
          match store !! p with
          | Some f => if FuzzyMatch f r g b 8 then Some (p, p :: newer) else None
          | None => None
          end
      end
  end.

(** Modelled from the spec: Producer.cpp, which defines [GetFrame], is
    absent.  The first pixel's red, green and blue channels are the first
    three bytes of the buffer; on a match every retained frame older than
    the match is evicted and the match is returned, otherwise the result
    is empty. *)
Definition GetFrame (store : gmap nat Frame) (st : State) (pixels : list Z)
  : option nat * State :=
  match pixels with
  | r :: g :: b :: _ =>
      match scan store (m_frames st) r g b with
      | Some (p, kept) => (Some p, mkState (m_currentFrame st) kept)
      | None => (None, st)
      end
  | _ => (None, st)
  end.

End Producer.

(* ===================================================================== *)
(** ** Consumer.h and the three capture back ends *)
(* ===================================================================== *)

Module Consumer.

(** [m_frames] of the consumer, in the order of reception, and the store
    of the frame objects it shares with the producer. *)
Record State : Type := mkState {
  store : gmap nat Frame;
  m_frames : list nat
}.

(** What became of one capture. *)
Inductive Disposition : Type :=
| Discarded                    (* a warm-up capture, not measured *)
| Appended (p : nat)           (* pushed at the back of [m_frames] *)
| Duplicate (p : nat).         (* counted on the frame, not appended *)

(** The block that the three back ends share word for word: with [frame]
    the result of [Producer::GetFrame],

    if (m_frames.size() && m_frames.back()->Number() == frame->Number())
        frame->RecordDuplicateReceive();
    else { frame->RecordFrameReceived(receiveTime); ... m_frames.push_back(frame); } *)
Definition Receive (st : State) (p : nat) (receiveTime readEnd copiedToGPU : TimePoint)
  : option (State * Disposition) :=
  match store st !! p with
  | None => None
  | Some frame =>
      let same_as_back :=
        match last (m_frames st) with
        | None => false
        | Some q =>
            match store st !! q with
            | Some back => FrameOps.Number back =? FrameOps.Number frame
            | None => false
            end
        end in
      if same_as_back
      then Some (mkState (<[p := FrameOps.RecordDuplicateReceive frame]> (store st)) (m_frames st),
                 Duplicate p)
      else
        let recorded :=
          FrameOps.RecordCopiedToGPU
            (FrameOps.RecordReadEnd
               (FrameOps.RecordFrameReceived frame receiveTime) readEnd) copiedToGPU in
        Some (mkState (<[p := recorded]> (store st)) (m_frames st ++ p :: nil),
              Appended p)
  end.

(** The outcome of a [CaptureFrames] call that returned: its result, the
    consumer afterwards, and what became of each capture, in order. *)
Record Outcome : Type := mkOutcome {
  result : bool;
  final : State;
  captures : list Disposition
}.

End Consumer.

(** The frame bookkeeping, the control flow and the device calls of the
    capture loops are modelled; their console output is left out.  What the
    hardware, the driver or the pipeline delivers at each step is an input
    of the model, one element of the environment per step; a call that
    waits for a step the environment never delivers does not return. *)

Module AJAConsumer.

(** What one iteration of the capture loop observes: the three instants
    it reads from the clock and the result of [Producer::GetFrame] on the
    buffer that was read. *)
Record Capture : Type := mkCapture {
  receiveTime : TimePoint;
  readEnd : TimePoint;
  copiedToGPU : TimePoint;
  frame : option nat
}.

Inductive DeviceCall : Type :=
| SetInputFrame (hwFrame : Z)
| WaitForInputVerticalInterrupt (repeatCount : Z)
| DMAReadFrame (hwFrame : Z).

Fixpoint loop (numFrames maxFrameTime : Z) (env : list Capture)
         (frameNumber currentHwFrame : Z)
         (st : Consumer.State) (log : list Consumer.Disposition)
         (calls : list DeviceCall)
  : option (Consumer.Outcome * list DeviceCall) :=
  if u64 frameNumber <? numFrames
  then
    match env with
    | nil => None
    | c :: env' =>
        let nextHwFrame := Z.lxor currentHwFrame 1 in
        let calls := calls ++ SetInputFrame nextHwFrame
                           :: WaitForInputVerticalInterrupt 1
                           :: DMAReadFrame currentHwFrame :: nil in
        let readTime := duration_cast (copiedToGPU c - receiveTime c) in
        let calls :=
          if maxFrameTime <? readTime
          then calls ++ WaitForInputVerticalInterrupt 1 :: nil
          else calls in
        match frame c with
        | None => Some (Consumer.mkOutcome false st log, calls)
        | Some p =>
            match Consumer.Receive st p (receiveTime c) (readEnd c) (copiedToGPU c) with
            | None => None
            | Some (st', d) =>
                loop numFrames maxFrameTime env' (s32 (frameNumber + 1)) nextHwFrame
                     st' (log ++ d :: nil) calls
            end
        end
    end
  else Some (Consumer.mkOutcome true st log, calls).

(** [AJAConsumer::CaptureFrames]. *)
Definition CaptureFrames (format : TestFormat) (numFrames warmupFrames : Z)
           (env : list Capture) (st : Consumer.State)
  : option (Consumer.Outcome * list DeviceCall) :=
  let currentHwFrame := 2 in
  let calls := SetInputFrame currentHwFrame
               :: WaitForInputVerticalInterrupt warmupFrames :: nil in
  let frameHeadroom := 2000 in
  let frameInterval := u32 (1000000 / frameRate format) in
  let maxFrameTime := s64 (frameInterval - frameHeadroom) in
  loop numFrames maxFrameTime env 0 currentHwFrame st nil calls.

End AJAConsumer.

Module V4L2Consumer.

(** One pass of the retry loop: the result of [select] and, when a buffer
    is ready, of the dequeue, of the frame lookup and of the queueing
    back. *)
Inductive Step : Type :=
| SelectFailure                (* select returned a negative value *)
| SelectTimeout                (* select returned 0 *)
| DequeueAgain                 (* VIDIOC_DQBUF failed with EAGAIN *)
| DequeueError                 (* VIDIOC_DQBUF failed otherwise *)
| Dequeued (receiveTime readEnd copiedToGPU : TimePoint)
           (frame : option nat) (queued : bool).

(** [V4L2Consumer::ReadFrame] after a successful dequeue; the result is
    the returned flag with the new state. *)
Definition ReadFrame (st : Consumer.State) (warmupFrame : bool)
           (receiveTime readEnd copiedToGPU : TimePoint)
           (frame : option nat) (queued : bool)
  : option (bool * Consumer.State * list Consumer.Disposition) :=
  if warmupFrame
  then Some (queued, st, Consumer.Discarded :: nil)
  else
    match frame with
    | None => Some (false, st, nil)
    | Some p =>
        match Consumer.Receive st p receiveTime readEnd copiedToGPU with
        | None => None
        | Some (st', d) => Some (queued, st', d :: nil)
        end
    end.

Fixpoint loop (numFrames warmupFrames : Z) (env : list Step) (frame : Z)
         (st : Consumer.State) (log : list Consumer.Disposition)
  : option Consumer.Outcome :=
  if u64 frame <? u64 (numFrames + warmupFrames)
  then
    match env with
    | nil => None
    | SelectFailure :: _ => Some (Consumer.mkOutcome false st log)
    | SelectTimeout :: _ => Some (Consumer.mkOutcome false st log)
    | DequeueAgain :: env' => loop numFrames warmupFrames env' frame st log
    | DequeueError :: _ => Some (Consumer.mkOutcome false st log)
    | Dequeued receiveTime readEnd copiedToGPU found queued :: env' =>
        match ReadFrame st (u64 frame <? warmupFrames)
                        receiveTime readEnd copiedToGPU found queued with
        | None => None
        | Some (true, st', ds) =>
            loop numFrames warmupFrames env' (s32 (frame + 1)) st' (log ++ ds)
        | Some (false, st', ds) =>
            Some (Consumer.mkOutcome false st' (log ++ ds))
        end
    end
  else Some (Consumer.mkOutcome true st log).

(** [V4L2Consumer::CaptureFrames]. *)
Definition CaptureFrames (numFrames warmupFrames : Z) (env : list Step)
           (st : Consumer.State) : option Consumer.Outcome :=
  loop numFrames warmupFrames env 0 st nil.

End V4L2Consumer.

Module GStreamerConsumer.

(** The countdown state that the capture call and the buffer callback
    share under [m_frameCountMutex]. *)
Record Counters : Type := mkCounters {
  m_numFrames : Z;
  m_warmupFramesRemaining : Z;
  m_framesRemaining : Z
}.

(** The two values of [GstFlowReturn] that the callback returns. *)
Inductive GstFlowReturn : Type := GST_FLOW_OK | GST_FLOW_ERROR.

(** The type of a bus message, as far as [BusCallbackStatic] tells them
    apart. *)
Inductive MessageType : Type :=
| GST_MESSAGE_EOS
| GST_MESSAGE_ERROR
| GST_MESSAGE_OTHER.

(** What the pipeline does between two instructions of the capture call:
    it delivers a buffer to the callback, or the capture call runs one
    iteration of the main context, which hands the pending bus messages
    to [BusCallbackStatic], and then reads [m_eos]. *)
Inductive Step : Type :=
| Buffer (sample_ok buffer_ok map_ok : bool)
         (receiveTime readEnd copiedToGPU : TimePoint) (frame : option nat)
| Poll (messages : list MessageType).

(** [GStreamerConsumer::BusCallbackStatic]: the new value of [m_eos]. *)
Definition BusCallbackStatic (m_eos : bool) (msg : MessageType) : bool :=
  match msg with
  | GST_MESSAGE_EOS => true
  | GST_MESSAGE_ERROR => true
  | GST_MESSAGE_OTHER => m_eos
  end.

(** [GStreamerConsumer::BufferCallback]: the value it returns to the
    pipeline, the countdowns, the consumer and what became of the
    capture. *)
Definition BufferCallback (cnt : Counters) (st : Consumer.State)
           (sample_ok buffer_ok map_ok : bool)
           (receiveTime readEnd copiedToGPU : TimePoint) (frame : option nat)
  : option (GstFlowReturn * Counters * Consumer.State * list Consumer.Disposition) :=
  if negb sample_ok then Some (GST_FLOW_ERROR, cnt, st, nil)
  else if negb buffer_ok then Some (GST_FLOW_ERROR, cnt, st, nil)
  else if negb (m_warmupFramesRemaining cnt =? 0)
  then Some (GST_FLOW_OK,
             mkCounters (m_numFrames cnt)
                        (u64 (m_warmupFramesRemaining cnt - 1))
                        (m_framesRemaining cnt),
             st, Consumer.Discarded :: nil)
  else if negb (m_framesRemaining cnt =? 0)
  then
    if negb map_ok then Some (GST_FLOW_ERROR, cnt, st, nil)
    else
      match frame with
      | None => Some (GST_FLOW_ERROR, cnt, st, nil)
      | Some p =>
          match Consumer.Receive st p receiveTime readEnd copiedToGPU with
          | None => None
          | Some (st', d) =>
              Some (GST_FLOW_OK,
                    mkCounters (m_numFrames cnt)
                               (m_warmupFramesRemaining cnt)
                               (u64 (m_framesRemaining cnt - 1)),
                    st', d :: nil)
          end
      end
  else Some (GST_FLOW_OK, cnt, st, nil).

(** The loop of [CaptureFrames].  The value that the callback returns
    goes to the pipeline; what the pipeline makes of it, such as an error
    message on the bus, is part of what the environment delivers.
    [m_eos] is false when an iteration of the main context starts: the
    call sets it so at its start and returns as soon as it reads true. *)
Fixpoint loop (env : list Step) (cnt : Counters) (st : Consumer.State)
         (log : list Consumer.Disposition) : option Consumer.Outcome :=
  match env with
  | nil => None
  | Buffer sample_ok buffer_ok map_ok receiveTime readEnd copiedToGPU found :: env' =>
      match BufferCallback cnt st sample_ok buffer_ok map_ok
                           receiveTime readEnd copiedToGPU found with
      | None => None
      | Some (_, cnt', st', ds) => loop env' cnt' st' (log ++ ds)
      end
  | Poll messages :: env' =>
      let m_eos := fold_left BusCallbackStatic messages false in
      if m_eos then Some (Consumer.mkOutcome false st log)
      else if (m_framesRemaining cnt =? 0) && (m_warmupFramesRemaining cnt =? 0)
           then Some (Consumer.mkOutcome true st log)
           else loop env' cnt st log
  end.

(** [GStreamerConsumer::CaptureFrames]. *)
Definition CaptureFrames (numFrames warmupFrames : Z) (env : list Step)
           (st : Consumer.State) : option Consumer.Outcome :=
  loop env (mkCounters numFrames warmupFrames numFrames) st nil.

End GStreamerConsumer.

(* ===================================================================== *)
(** ** Console.h *)
(* ===================================================================== *)

Module Console.

Definition ESC : string := String (ascii_of_nat 27) EmptyString.

Definition Red : string := ESC +++ "[0;31m".
Definition Green : string := ESC +++ "[0;32m".
Definition Yellow : string := ESC +++ "[0;33m".
Definition Cyan : string := ESC +++ "[0;36m".
Definition Magenta : string := ESC +++ "[0;35m".
Definition Reset : string := ESC +++ "[0m".

Definition WarningColor (x : string) : string := Yellow +++ x +++ Reset.
Definition SuccessColor (x : string) : string := Green +++ x +++ Reset.
Definition ProducerColor (x : string) : string := Cyan +++ x +++ Reset.
Definition ConsumerColor (x : string) : string := Magenta +++ x +++ Reset.

(** One use of a logging macro, with the text [x] it was given:
    [Log(x)] writes [x] and a line end to the standard output,
    [Warning(x)] and [Error(x)] write it, prefixed and coloured, to the
    standard error.  [LogUsage] is the call of [Usage()], whose banner
    text is not reproduced. *)
Inductive Output : Type :=
| Log (x : string)
| Warning (x : string)
| Error (x : string)
| LogUsage.

End Console.
Import Console.

(* ===================================================================== *)
(** ** main.cpp: options and argument parsing *)
(* ===================================================================== *)

Inductive ProducerType : Type :=
  PRODUCER_UNKNOWN | PRODUCER_GL | PRODUCER_AJA | PRODUCER_GSTREAMER.

Inductive ConsumerType : Type :=
  CONSUMER_UNKNOWN | CONSUMER_V4L2 | CONSUMER_AJA | CONSUMER_GSTREAMER | CONSUMER_NONE.

Record ProgramOptions : Type := mkOptions {
  producerType : ProducerType;
  consumerType : ConsumerType;
  format : TestFormat;
  numFrames : Z;                (* size_t *)
  warmupFrames : Z;
  simulatedProcessing : Z;
  outputFilename : string;
  producerDevice : string;
  producerChannel : string;
  producerRDMA : bool;
  producerTime : Z;
  consumerDevice : string;
  consumerChannel : string;
  consumerRDMA : bool
}.

Module Options.

Definition DEFAULT_FORMAT := Formats.FORMAT_1080_RGBA_60.
Definition DEFAULT_NUM_FRAMES : Z := 600.
Definition DEFAULT_WARMUP_FRAMES : Z := 60.
Definition DEFAULT_PRODUCER_TIME : Z := 10.
Definition DEFAULT_SIMULATED_PROCESSING : Z := 0.
Definition DEFAULT_USE_RDMA : Z := 1.

(** [ProgramOptions::ProgramOptions()]. *)
Definition defaults : ProgramOptions :=
  {| producerType := PRODUCER_UNKNOWN;
     consumerType := CONSUMER_UNKNOWN;
     format := DEFAULT_FORMAT;
     numFrames := DEFAULT_NUM_FRAMES;
     warmupFrames := DEFAULT_WARMUP_FRAMES;
     simulatedProcessing := DEFAULT_SIMULATED_PROCESSING;
     outputFilename := "";
     producerDevice := "";
     producerChannel := "";
     producerRDMA := negb (DEFAULT_USE_RDMA =? 0);
     producerTime := DEFAULT_PRODUCER_TIME;
     consumerDevice := "";
     consumerChannel := "";
     consumerRDMA := negb (DEFAULT_USE_RDMA =? 0) |}.

Definition with_producerType (o : ProgramOptions) v :=
  mkOptions v (consumerType o) (format o) (numFrames o) (warmupFrames o)
    (simulatedProcessing o) (outputFilename o) (producerDevice o) (producerChannel o)
    (producerRDMA o) (producerTime o) (consumerDevice o) (consumerChannel o) (consumerRDMA o).
Definition with_consumerType (o : ProgramOptions) v :=
  mkOptions (producerType o) v (format o) (numFrames o) (warmupFrames o)
    (simulatedProcessing o) (outputFilename o) (producerDevice o) (producerChannel o)
    (producerRDMA o) (producerTime o) (consumerDevice o) (consumerChannel o) (consumerRDMA o).
Definition with_format (o : ProgramOptions) v :=
  mkOptions (producerType o) (consumerType o) v (numFrames o) (warmupFrames o)
    (simulatedProcessing o) (outputFilename o) (producerDevice o) (producerChannel o)
    (producerRDMA o) (producerTime o) (consumerDevice o) (consumerChannel o) (consumerRDMA o).
Definition with_numFrames (o : ProgramOptions) v :=
  mkOptions (producerType o) (consumerType o) (format o) v (warmupFrames o)
    (simulatedProcessing o) (outputFilename o) (producerDevice o) (producerChannel o)
    (producerRDMA o) (producerTime o) (consumerDevice o) (consumerChannel o) (consumerRDMA o).
Definition with_warmupFrames (o : ProgramOptions) v :=
  mkOptions (producerType o) (consumerType o) (format o) (numFrames o) v
    (simulatedProcessing o) (outputFilename o) (producerDevice o) (producerChannel o)
    (producerRDMA o) (producerTime o) (consumerDevice o) (consumerChannel o) (consumerRDMA o).
Definition with_simulatedProcessing (o : ProgramOptions) v :=
  mkOptions (producerType o) (consumerType o) (format o) (numFrames o) (warmupFrames o)
    v (outputFilename o) (producerDevice o) (producerChannel o)
    (producerRDMA o) (producerTime o) (consumerDevice o) (consumerChannel o) (consumerRDMA o).
Definition with_outputFilename (o : ProgramOptions) v :=
  mkOptions (producerType o) (consumerType o) (format o) (numFrames o) (warmupFrames o)
    (simulatedProcessing o) v (producerDevice o) (producerChannel o)
    (producerRDMA o) (producerTime o) (consumerDevice o) (consumerChannel o) (consumerRDMA o).
Definition with_producerDevice (o : ProgramOptions) v :=
  mkOptions (producerType o) (consumerType o) (format o) (numFrames o) (warmupFrames o)
    (simulatedProcessing o) (outputFilename o) v (producerChannel o)
    (producerRDMA o) (producerTime o) (consumerDevice o) (consumerChannel o) (consumerRDMA o).
Definition with_producerChannel (o : ProgramOptions) v :=
  mkOptions (producerType o) (consumerType o) (format o) (numFrames o) (warmupFrames o)
    (simulatedProcessing o) (outputFilename o) (producerDevice o) v
    (producerRDMA o) (producerTime o) (consumerDevice o) (consumerChannel o) (consumerRDMA o).
Definition with_producerRDMA (o : ProgramOptions) v :=
  mkOptions (producerType o) (consumerType o) (format o) (numFrames o) (warmupFrames o)
    (simulatedProcessing o) (outputFilename o) (producerDevice o) (producerChannel o)
    v (producerTime o) (consumerDevice o) (consumerChannel o) (consumerRDMA o).
Definition with_producerTime (o : ProgramOptions) v :=
  mkOptions (producerType o) (consumerType o) (format o) (numFrames o) (warmupFrames o)
    (simulatedProcessing o) (outputFilename o) (producerDevice o) (producerChannel o)
    (producerRDMA o) v (consumerDevice o) (consumerChannel o) (consumerRDMA o).
Definition with_consumerDevice (o : ProgramOptions) v :=
  mkOptions (producerType o) (consumerType o) (format o) (numFrames o) (warmupFrames o)
    (simulatedProcessing o) (outputFilename o) (producerDevice o) (producerChannel o)
    (producerRDMA o) (producerTime o) v (consumerChannel o) (consumerRDMA o).
Definition with_consumerChannel (o : ProgramOptions) v :=
  mkOptions (producerType o) (consumerType o) (format o) (numFrames o) (warmupFrames o)
    (simulatedProcessing o) (outputFilename o) (producerDevice o) (producerChannel o)
    (producerRDMA o) (producerTime o) (consumerDevice o) v (consumerRDMA o).
Definition with_consumerRDMA (o : ProgramOptions) v :=
  mkOptions (producerType o) (consumerType o) (format o) (numFrames o) (warmupFrames o)
    (simulatedProcessing o) (outputFilename o) (producerDevice o) (producerChannel o)
    (producerRDMA o) (producerTime o) (consumerDevice o) (consumerChannel o) v.

End Options.

Module Libc.

(** The white space that [strtol] skips in the C locale. *)
Definition isspace (c : ascii) : bool :=
  let n := nat_of_ascii c in
  (Nat.eqb n 32) || ((Nat.leb 9 n) && (Nat.leb n 13)).

Definition digit_of (c : ascii) : option Z :=
  let n := nat_of_ascii c in
  if (Nat.leb 48 n) && (Nat.leb n 57) then Some (Z.of_nat n - 48) else None.

Fixpoint skip_spaces (s : string) : string :=
  match s with
  | String c r => if isspace c then skip_spaces r else s
  | EmptyString => s
  end.

(** The value of the longest prefix of decimal digits, after [acc]. *)
Fixpoint digits (s : string) (acc : Z) : Z :=
  match s with
  | String c r =>
      match digit_of c with
      | Some d => digits r (acc * 10 + d)
      | None => acc
      end
  | EmptyString => acc
  end.

(** [strtol(s, nullptr, 10)]: leading white space, an optional sign, the
    decimal digits that follow; 0 when there is no digit; the value is
    clamped to the range of [long]. *)
Definition strtol (s : string) : Z :=
  let s := skip_spaces s in
  let (negative, s) :=
    match s with
    | String "-"%char r => (true, r)
    | String "+"%char r => (false, r)
    | _ => (false, s)
    end in
  let v := digits s 0 in
  let v := if negative then - v else v in
  Z.max LONG_MIN (Z.min LONG_MAX v).

End Libc.

Module Args.

(** What [ParseArguments] does to the process: it returns with the
    options filled in, or it calls [exit] after some console output. *)
Inductive Parse : Type :=
| Parsed (opts : ProgramOptions)
| Exited (status : Z) (console : list Output).

(** The macro [USAGE_ERROR(x)]: [Error(x); exit(1);]. *)
Definition USAGE_ERROR (x : string) : Parse := Exited 1 (Error x :: nil).

Section WithBuildOptions.

(** The build option behind [#ifdef ENABLE_AJA]. *)
Variable ENABLE_AJA : bool.

(** The loop of [ParseArguments] from index [i], on the arguments
    [argv[i]], [argv[i+1]], ...: a flag that takes a value advances the
    index once more and fails when it reaches [argc]. *)
Fixpoint parse (args : list string) (opts : ProgramOptions) : Parse :=
  match args with
  | nil => Parsed opts
  | a :: rest =>
      if (a =? "-h")%string || (a =? "--help")%string then
        Exited 0 (LogUsage :: nil)
      else if (a =? "-p")%string || (a =? "--producer")%string then
        match rest with
        | nil => USAGE_ERROR "Missing value for -p (producer) option."
        | v :: rest' =>
            if (v =? "gl")%string || (v =? "opengl")%string then
              parse rest' (Options.with_producerType opts PRODUCER_GL)
            else if (v =? "aja")%string then
              if ENABLE_AJA
              then parse rest' (Options.with_producerType opts PRODUCER_AJA)
              else USAGE_ERROR "AJA producer not supported (requires NTV2_SDK build option)."
            else if (v =? "gst")%string || (v =? "gstreamer")%string then
              parse rest' (Options.with_producerType opts PRODUCER_GSTREAMER)
            else USAGE_ERROR ("Invalid value for -p (producer) option: " +++ v)
        end
      else if (a =? "-c")%string || (a =? "--consumer")%string then
        match rest with
        | nil => USAGE_ERROR "Missing value for -c (consumer) option."
        | v :: rest' =>
            if (v =? "v4l2")%string then
              parse rest' (Options.with_consumerType opts CONSUMER_V4L2)
            else if (v =? "aja")%string then
              if ENABLE_AJA
              then parse rest' (Options.with_consumerType opts CONSUMER_AJA)
              else USAGE_ERROR "AJA consumer not supported (requires NTV2_SDK build option)."
            else if (v =? "gst")%string || (v =? "gstreamer")%string then
              parse rest' (Options.with_consumerType opts CONSUMER_GSTREAMER)
            else if (v =? "none")%string then
              parse rest' (Options.with_consumerType opts CONSUMER_NONE)
            else USAGE_ERROR ("Invalid value for -c (consumer) option: " +++ v)
        end
      else if (a =? "-f")%string || (a =? "--format")%string then
        match rest with
        | nil => USAGE_ERROR "Missing value for -f (format) option."
        | v :: rest' =>
            if (v =? "720")%string then
              parse rest' (Options.with_format opts Formats.FORMAT_720_RGBA_60)
            else if (v =? "1080")%string then
              parse rest' (Options.with_format opts Formats.FORMAT_1080_RGBA_60)
            else if (v =? "uhd-24")%string then
              parse rest' (Options.with_format opts Formats.FORMAT_UHD_RGBA_24)
            else if (v =? "uhd")%string then
              parse rest' (Options.with_format opts Formats.FORMAT_UHD_RGBA_60)
            else if (v =? "4k-24")%string then
              parse rest' (Options.with_format opts Formats.FORMAT_4K_RGBA_24)
            else if (v =? "4k")%string then
              parse rest' (Options.with_format opts Formats.FORMAT_4K_RGBA_60)
            else USAGE_ERROR ("Invalid value for -f (format) option: " +++ v)
        end
      else if (a =? "-n")%string then
        match rest with
        | nil => USAGE_ERROR "Missing value for -n (num frames) option."
        | v :: rest' => parse rest' (Options.with_numFrames opts (u64 (Libc.strtol v)))
        end
      else if (a =? "-w")%string then
        match rest with
        | nil => USAGE_ERROR "Missing value for -w (warmup frames) option."
        | v :: rest' => parse rest' (Options.with_warmupFrames opts (u64 (Libc.strtol v)))
        end
      else if (a =? "-s")%string then
        match rest with
        | nil => USAGE_ERROR "Missing value for -s (simulated CUDA workload) option."
        | v :: rest' =>
            parse rest' (Options.with_simulatedProcessing opts (u64 (Libc.strtol v)))
        end
      else if (a =? "-o")%string then
        match rest with
        | nil => USAGE_ERROR "Missing value for -o (output CSV file) option."
        | v :: rest' => parse rest' (Options.with_outputFilename opts v)
        end
      else if (a =? "-p.device")%string then
        match rest with
        | nil => USAGE_ERROR "Missing value for -p.device (producer device) option."
        | v :: rest' => parse rest' (Options.with_producerDevice opts v)
        end
      else if (a =? "-p.channel")%string then
        match rest with
        | nil => USAGE_ERROR "Missing value for -p.channel (producer channel) option."
        | v :: rest' => parse rest' (Options.with_producerChannel opts v)
        end
      else if (a =? "-p.rdma")%string then
        match rest with
        | nil => USAGE_ERROR "Missing value for -p.rdma (producer RDMA) option."
        | v :: rest' =>
            parse rest' (Options.with_producerRDMA opts (negb (Libc.strtol v =? 0)))
        end
      else if (a =? "-p.time")%string then
        match rest with
        | nil => USAGE_ERROR "Missing value for -p.time (producer runtime) option."
        | v :: rest' => parse rest' (Options.with_producerTime opts (u64 (Libc.strtol v)))
        end
      else if (a =? "-c.device")%string then
        match rest with
        | nil => USAGE_ERROR "Missing value for -c.device (consumer device) option."
        | v :: rest' => parse rest' (Options.with_consumerDevice opts v)
        end
      else if (a =? "-c.channel")%string then
        match rest with
        | nil => USAGE_ERROR "Missing value for -c.channel (consumer channel) option."
        | v :: rest' => parse rest' (Options.with_consumerChannel opts v)
        end
      else if (a =? "-c.rdma")%string then
        match rest with
        | nil => USAGE_ERROR "Missing value for -c.rdma (consumer RDMA) option."
        | v :: rest' =>
            parse rest' (Options.with_consumerRDMA opts (negb (Libc.strtol v =? 0)))
        end
      else parse rest opts
  end.

(** [ParseArguments(argc, argv, opts)]: the loop starts at index 1,
    after the program name. *)
Definition ParseArguments (argv : list string) (opts : ProgramOptions) : Parse :=
  parse (tl argv) opts.

End WithBuildOptions.

End Args.

(* ===================================================================== *)
(** ** main.cpp: the latency report and the CSV export *)
(* ===================================================================== *)

Module Report.

Definition rule : string :=
  "=========================================================".

(** The running values of [PrintLatencyResults]' loop over the frames. *)
Record Tally : Type := mkTally {
  expectedFrame : Z;          (* uint32_t *)
  skippedFrames : Z;          (* size_t *)
  duplicateReceives : Z;      (* size_t *)
  processingTimes : DurationList.t;
  renderTimes : DurationList.t;
  fromGpuTimes : DurationList.t;
  writeTimes : DurationList.t;
  vsyncTimes : DurationList.t;
  wireTimes : DurationList.t;
  readTimes : DurationList.t;
  toGpuTimes : DurationList.t;
  producerTimes : DurationList.t;
  consumerTimes : DurationList.t;
  totalTimes : DurationList.t;
  estimatedAppTimes : DurationList.t
}.

Definition start (first : Frame) : Tally :=
  mkTally (FrameOps.Number first) 0 0
          DurationList.empty DurationList.empty DurationList.empty
          DurationList.empty DurationList.empty DurationList.empty
          DurationList.empty DurationList.empty DurationList.empty
          DurationList.empty DurationList.empty DurationList.empty.

(** The body of the loop [for (const auto& f : frames)]. *)
Definition step (t : Tally) (f : Frame) : Tally :=
  let consumerTime := duration_cast (m_copiedToGPU f - m_frameReceived f) in
  let producerTime := duration_cast (m_writeEnd f - m_processingStart f) in
  mkTally
    (u32 (FrameOps.Number f + 1))
    (u64 (skippedFrames t + u32 (FrameOps.Number f - expectedFrame t)))
    (u64 (duplicateReceives t + FrameOps.DuplicateReceives f))
    (DurationList.AppendSpan (processingTimes t) (m_processingStart f) (m_renderStart f))
    (DurationList.AppendSpan (renderTimes t) (m_renderStart f) (m_renderEnd f))
    (DurationList.AppendSpan (fromGpuTimes t) (m_renderEnd f) (m_copiedFromGPU f))
    (DurationList.AppendSpan (writeTimes t) (m_copiedFromGPU f) (m_writeEnd f))
    (DurationList.AppendSpan (vsyncTimes t) (m_writeEnd f) (m_scanoutStart f))
    (DurationList.AppendSpan (wireTimes t) (m_scanoutStart f) (m_frameReceived f))
    (DurationList.AppendSpan (readTimes t) (m_frameReceived f) (m_readEnd f))
    (DurationList.AppendSpan (toGpuTimes t) (m_readEnd f) (m_copiedToGPU f))
    (DurationList.AppendSpan (producerTimes t) (m_processingStart f) (m_writeEnd f))
    (DurationList.AppendSpan (consumerTimes t) (m_frameReceived f) (m_copiedToGPU f))
    (DurationList.AppendSpan (totalTimes t) (m_processingStart f) (m_copiedToGPU f))
    (DurationList.Append (estimatedAppTimes t) (consumerTime + producerTime)).

Definition tally (first : Frame) (frames : list Frame) : Tally :=
  fold_left step frames (start first).

(** [(d + frameInterval).count() / frameInterval.count()] stored into a
    [size_t]: a signed division that truncates toward zero, then the
    conversion to unsigned. *)
Definition frames_rounded_up (d frameInterval : Microseconds) : Z :=
  u64 (Z.quot (d + frameInterval) frameInterval).

Section WithFloatFormatting.

(** Floating point is not modelled.  The three places where the report
    computes in [float] are parameters: the text of
    [(float)count / interval] at precision 3, the comparison
    [avg > frameInterval * 1.5f], and the text of [1000000.0f / avg]. *)
Variable show_ratio : Z -> Z -> string.
Variable exceeds_one_and_a_half : Z -> Z -> bool.
Variable show_rate : Z -> string.

(** [DurationList::SummaryInFrameIntervals]. *)
Definition SummaryInFrameIntervals (l : DurationList.t) (frameInterval : Microseconds)
  : option string :=
  mn ← DurationList.Min l;
  mx ← DurationList.Max l;
  Some ("avg = " +++ setw 6 (show_ratio (DurationList.Avg l) frameInterval) +++ ", "
        +++ "min = " +++ setw 6 (show_ratio mn frameInterval) +++ ", "
        +++ "max = " +++ setw 6 (show_ratio mx frameInterval)).

(** The parts of [PrintLatencyResults], in the order of the source.  A
    part is undefined when it would read the minimum or the maximum of
    an empty list. *)

(** [if (skippedFrames || duplicateReceives)]. *)
Definition flagged (t : Tally) : bool :=
  negb (skippedFrames t =? 0) || negb (duplicateReceives t =? 0).

Definition skipped_warning (t : Tally) (received : Z) : list Output :=
  if flagged t
  then Warning ("Frames were skipped or repeated!" +++ endl
                +++ "Frames received: " +++ show received +++ endl
                +++ "Frames skipped:  " +++ show (skippedFrames t) +++ endl
                +++ "Frames repeated: " +++ show (duplicateReceives t) +++ endl)
       :: nil
  else nil.

(** The per-stage summaries and the grand total. *)
Definition stage_lines (t : Tally) : option (list Output) :=
  processing ← DurationList.Summary (processingTimes t);
  render ← DurationList.Summary (renderTimes t);
  fromGpu ← DurationList.Summary (fromGpuTimes t);
  write ← DurationList.Summary (writeTimes t);
  vsync ← DurationList.Summary (vsyncTimes t);
  wire ← DurationList.Summary (wireTimes t);
  read ← DurationList.Summary (readTimes t);
  toGpu ← DurationList.Summary (toGpuTimes t);
  total ← DurationList.Summary (totalTimes t);
  Some (Log (ProducerColor ("CUDA Processing: " +++ processing))
        :: Log (ProducerColor ("Render on GPU:   " +++ render))
        :: Log (ProducerColor ("Copy To Host:    " +++ fromGpu))
        :: Log (ProducerColor ("Write To HW:     " +++ write))
        :: Log ("Vsync Wait:      " +++ vsync)
        :: Log ("Wire Time:       " +++ wire)
        :: Log (ConsumerColor ("Read From HW:    " +++ read))
        :: Log (ConsumerColor ("Copy To GPU:     " +++ toGpu))
        :: Log rule
        :: Log ("Total:           " +++ total +++ endl +++ endl)
        :: nil).

(** The producer, consumer and estimated application totals. *)
Definition total_lines (t : Tally) (frameInterval : Microseconds) : option (list Output) :=
  producer ← DurationList.Summary (producerTimes t);
  producerF ← SummaryInFrameIntervals (producerTimes t) frameInterval;
  consumer ← DurationList.Summary (consumerTimes t);
  consumerF ← SummaryInFrameIntervals (consumerTimes t) frameInterval;
  estimated ← DurationList.Summary (estimatedAppTimes t);
  estimatedF ← SummaryInFrameIntervals (estimatedAppTimes t) frameInterval;
  Some (Log (ProducerColor ("Producer (Process and Write to HW)" +++ endl
                            +++ rule +++ endl
                            +++ "   Microseconds: " +++ producer +++ endl
                            +++ "         Frames: " +++ producerF +++ endl))
        :: Log (ConsumerColor ("Consumer (Read from HW and Copy to GPU)" +++ endl
                               +++ rule +++ endl
                               +++ "   Microseconds: " +++ consumer +++ endl
                               +++ "         Frames: " +++ consumerF +++ endl))
        :: Log ("Estimated Application Times (Read + Process + Write)" +++ endl
                +++ rule +++ endl
                +++ "   Microseconds: " +++ estimated +++ endl
                +++ "         Frames: " +++ estimatedF +++ endl)
        :: nil).

(** [avgFrames], [minFrames] and [maxFrames]. *)
Definition frame_counts (kind : ProducerType) (t : Tally) (frameInterval : Microseconds)
  : option (Z * Z * Z) :=
  estMin ← DurationList.Min (estimatedAppTimes t);
  estMax ← DurationList.Max (estimatedAppTimes t);
  let avgFrames := frames_rounded_up (DurationList.Avg (estimatedAppTimes t)) frameInterval in
  let minFrames := frames_rounded_up estMin frameInterval in
  let maxFrames := frames_rounded_up estMax frameInterval in
  match kind with
  | PRODUCER_GSTREAMER =>
      wireMin ← DurationList.Min (wireTimes t);
      wireMax ← DurationList.Max (wireTimes t);
      Some (u64 (avgFrames + frames_rounded_up (DurationList.Avg (wireTimes t)) frameInterval),
            u64 (minFrames + frames_rounded_up wireMin frameInterval),
            u64 (maxFrames + frames_rounded_up wireMax frameInterval))
  | _ =>
      Some (u64 (avgFrames + 1), u64 (minFrames + 1), u64 (maxFrames + 1))
  end.

(** The text built in [ss]. *)
Definition final_text (avgFrames minFrames maxFrames : Z) (frameInterval : Microseconds)
  : string :=
  "Final Estimated Latencies (Processing + Vsync + Wire)" +++ endl
  +++ rule +++ endl
  +++ "   Microseconds: "
  +++ "avg = " +++ setw 6 (show (u64 (avgFrames * frameInterval))) +++ ", "
  +++ "min = " +++ setw 6 (show (u64 (minFrames * frameInterval))) +++ ", "
  +++ "max = " +++ setw 6 (show (u64 (maxFrames * frameInterval))) +++ endl
  +++ "         Frames: "
  +++ "avg = " +++ setw 6 (show avgFrames) +++ ", "
  +++ "min = " +++ setw 6 (show minFrames) +++ ", "
  +++ "max = " +++ setw 6 (show maxFrames) +++ endl.

Definition final_lines (t : Tally) (ss : string) : list Output :=
  if flagged t
  then Log (WarningColor ss)
       :: Warning ("Frames were skipped or repeated. These times only" +++ endl
                   +++ "include frames that were actually received, and the times" +++ endl
                   +++ "include only the first instance each frame was received." +++ endl)
       :: nil
  else Log (SuccessColor ss) :: nil.

Definition vsync_lines (t : Tally) (frameInterval : Microseconds) : list Output :=
  let vsyncAvg := DurationList.Avg (vsyncTimes t) in
  if exceeds_one_and_a_half vsyncAvg frameInterval
  then Warning ("The average vsync interval (" +++ show vsyncAvg +++ ") exceeded the" +++ endl
                +++ "the expected vsync interval (" +++ show frameInterval +++ ") by a large amount." +++ endl
                +++ "This could be due to the producer locking to a lower" +++ endl
                +++ "framerate that can't be controlled by the producer API." +++ endl
                +++ "Please check the actual vsync interval that was used and" +++ endl
                +++ "consider running the test using another format that uses" +++ endl
                +++ "the actual frame interval that was used (" +++ show_rate vsyncAvg +++ ").")
       :: nil
  else nil.

(** [PrintLatencyResults]: the console output. *)
Definition PrintLatencyResults (opts : ProgramOptions) (frames : list Frame)
  : option (list Output) :=
  match frames with
  | nil => Some nil
  | first :: _ =>
      let t := tally first frames in
      stages ← stage_lines t;
      let frameInterval := u32 (1000000 / frameRate (format opts)) in
      totals ← total_lines t frameInterval;
      counts ← frame_counts (producerType opts) t frameInterval;
      let '(avgFrames, minFrames, maxFrames) := counts in
      Some (skipped_warning t (u64 (Z.of_nat (List.length frames)))
            ++ stages ++ totals
            ++ final_lines t (final_text avgFrames minFrames maxFrames frameInterval)
            ++ vsync_lines t frameInterval)
  end.

End WithFloatFormatting.

Definition csv_header : string :=
  "Frame,Count,Frame Start Timestamp,Frame Interval,Process,Render,Copy To SYS,"
  +++ "Write to HW,VSync,Wire,Read from HW,Copy to GPU".

(** One data row, with [firstFrame] and the running [previousStartTime]. *)
Definition csv_row (firstFrame : Z) (previousStartTime : Z) (f : Frame) : string :=
  join_commas
    (show (u32 (FrameOps.Number f - firstFrame))
     :: show (u64 (FrameOps.DuplicateReceives f + 1))
     :: show (duration_cast (m_processingStart f))
     :: show (duration_cast (m_processingStart f - previousStartTime))
     :: show (duration_cast (m_renderStart f - m_processingStart f))
     :: show (duration_cast (m_renderEnd f - m_renderStart f))
     :: show (duration_cast (m_copiedFromGPU f - m_renderEnd f))
     :: show (duration_cast (m_writeEnd f - m_copiedFromGPU f))
     :: show (duration_cast (m_scanoutStart f - m_writeEnd f))
     :: show (duration_cast (m_frameReceived f - m_scanoutStart f))
     :: show (duration_cast (m_readEnd f - m_frameReceived f))
     :: show (duration_cast (m_copiedToGPU f - m_readEnd f))
     :: nil).

(** The loop of [WriteLatencyResults]: the rows written for [frames],
    after [previousStartTime]. *)
Fixpoint csv_rows (firstFrame : Z) (previousStartTime : Z) (frames : list Frame)
  : list string :=
  match frames with
  | nil => nil
  | f :: rest =>
      csv_row firstFrame previousStartTime f
      :: csv_rows firstFrame (m_processingStart f) rest
  end.

(** [WriteLatencyResults(file, frames)]: the lines written to the file,
    each ended by [std::endl]. *)
Definition WriteLatencyResults (file_is_open : bool) (frames : list Frame) : list string :=
  match frames with
  | nil => nil
  | first :: _ =>
      if negb file_is_open then nil
      else csv_header
           :: csv_rows (FrameOps.Number first) (m_processingStart first) frames
  end.

End Report.

(* ===================================================================== *)
(** ** main.cpp: the entry point *)
(* ===================================================================== *)

Module Main.

(** The producer and consumer objects that [main] constructs. *)
Inductive Component : Type :=
| ProducerObject (kind : ProducerType)
| ConsumerObject (kind : ConsumerType).

(** What the devices, the file system and the clock do during one run of
    the program.  The store holds the frame objects of the producer with
    the checkpoints that the producer thread records; the consumer adds
    its own checkpoints and the duplicate counts to it. *)
Record World : Type := mkWorld {
  output_opens : bool;
  cuda_allocates : bool;
  simulated_clock : nat -> TimePoint * TimePoint;
  producer_dump : string;
  consumer_dump : string;
  producer_initializes : bool;
  producer_starts : bool;
  consumer_initializes : bool;
  consumer_starts : bool;
  frame_store : gmap nat Frame;
  aja_captures : list AJAConsumer.Capture;
  v4l2_steps : list V4L2Consumer.Step;
  gst_steps : list GStreamerConsumer.Step
}.

(** A finished run: the exit status, the console output, the objects
    constructed, and the lines of the output file when one was opened. *)
Record Run : Type := mkRun {
  status : Z;
  console : list Output;
  constructed : list Component;
  csv : option (list string)
}.

(** [operator<<] on a [TestFormat]. *)
Definition show_format (f : TestFormat) : string :=
  show (width f) +++ "x" +++ show (height f) +++ " "
  +++ match pixelFormat f with
      | PIXEL_FORMAT_RGBA => "RGBA"
      | _ => ""
      end
  +++ " @ " +++ show (frameRate f) +++ "Hz".

Definition iterations : nat := 500.

(** [RunSimulatedProcessing]. *)
Definition RunSimulatedProcessing (w : World) (loops : Z) (fmt : TestFormat)
  : option (Z * list Output) :=
  if negb (cuda_allocates w)
  then Some (1, Error "Failed to allocate CUDA buffer." :: nil)
  else
    let durations :=
      fold_left (fun durations i =>
                   DurationList.AppendSpan durations
                     (fst (simulated_clock w i)) (snd (simulated_clock w i)))
                (seq 0 iterations) DurationList.empty in
    summary ← DurationList.Summary durations;
    Some (0, Log ("Format: " +++ show_format fmt)
             :: Log ("Running simulated workload with " +++ show loops +++ " loops...")
             :: Log ("Done." +++ endl)
             :: Log ("Results:  " +++ summary)
             :: nil).

Section WithBuild.

Variable ENABLE_AJA : bool.
Variable show_ratio : Z -> Z -> string.
Variable exceeds_one_and_a_half : Z -> Z -> bool.
Variable show_rate : Z -> string.

(** The frames behind the pointers of the received list. *)
Definition received (st : Consumer.State) : list Frame :=
  omap (fun p => Consumer.store st !! p) (Consumer.m_frames st).

(** [consumer->CaptureFrames(numFrames, warmupFrames)] on the consumer
    that was constructed. *)
Definition capture (w : World) (kind : ConsumerType) (opts : ProgramOptions)
  : option Consumer.Outcome :=
  let st := Consumer.mkState (frame_store w) nil in
  match kind with
  | CONSUMER_V4L2 =>
      V4L2Consumer.CaptureFrames (numFrames opts) (warmupFrames opts) (v4l2_steps w) st
  | CONSUMER_AJA =>
      fst <$> AJAConsumer.CaptureFrames (format opts) (numFrames opts) (warmupFrames opts)
                                       (aja_captures w) st
  | CONSUMER_GSTREAMER =>
      GStreamerConsumer.CaptureFrames (numFrames opts) (warmupFrames opts) (gst_steps w) st
  | _ => None
  end.

(** [main] after the objects are constructed and the output file is
    opened: [file_is_open] tells whether it is. *)
Definition run_constructed (w : World) (opts : ProgramOptions)
           (objects : list Component) (consumer : option ConsumerType)
           (file_is_open : bool) : option Run :=
  let file (lines : list string) := if file_is_open then Some lines else None in
  let out := Log ("Format: " +++ show_format (format opts) +++ endl)
             :: Log (ProducerColor ("Producer: " +++ producer_dump w)) :: nil in
  if negb (producer_initializes w)
  then Some (mkRun 1 (out ++ Error "Failed to initialize producer." :: nil) objects (file nil))
  else if negb (producer_starts w)
  then Some (mkRun 1 (out ++ Error "Failed to start producer streaming." :: nil) objects (file nil))
  else
    match consumer with
    | Some kind =>
        let out := out ++ Log (ConsumerColor ("Consumer: " +++ consumer_dump w)) :: nil in
        if negb (consumer_initializes w)
        then Some (mkRun 1 (out ++ Error "Failed to initialize consumer." :: nil) objects (file nil))
        else if negb (consumer_starts w)
        then Some (mkRun 1 (out ++ Error "Failed to start consumer streaming." :: nil) objects (file nil))
        else
          let out :=
            if 0 <? simulatedProcessing opts
            then out ++ Log ("Simulating processing with " +++ show (simulatedProcessing opts)
                             +++ " CUDA loops per frame." +++ endl) :: nil
            else out in
          let out := out ++ Log ("Measuring " +++ show (numFrames opts) +++ " frames...") :: nil in
          captured ← capture w kind opts;
          if negb (Consumer.result captured)
          then Some (mkRun 1 (out ++ Error "Failure occurred during frame capture." :: nil)
                           objects (file nil))
          else
            let out := out ++ Log ("Done!" +++ endl) :: nil in
            let frames := received (Consumer.final captured) in
            report ← Report.PrintLatencyResults show_ratio exceeds_one_and_a_half show_rate
                                                opts frames;
            let lines := Report.WriteLatencyResults file_is_open frames in
            let out := out ++ report in
            let out :=
              if file_is_open
              then out ++ Log ("Results written to '" +++ outputFilename opts +++ "'") :: nil
              else out in
            Some (mkRun 0 out objects (file lines))
    | None =>
        let out := out ++ Log (ConsumerColor ("Consumer: None" +++ endl))
                       :: Log ("Producing frames for " +++ show (producerTime opts) +++ " seconds...")
                       :: Log "Done!" :: nil in
        let out :=
          if file_is_open
          then out ++ Log ("Results written to '" +++ outputFilename opts +++ "'") :: nil
          else out in
        Some (mkRun 0 out objects (file nil))
    end.

(** [main(argc, argv)]. *)
Definition main (w : World) (argv : list string) : option Run :=
  match Args.ParseArguments ENABLE_AJA argv Options.defaults with
  | Args.Exited code out => Some (mkRun code out nil None)
  | Args.Parsed opts =>
      let standalone :=
        match producerType opts, consumerType opts with
        | PRODUCER_UNKNOWN, CONSUMER_UNKNOWN => 0 <? simulatedProcessing opts
        | _, _ => false
        end in
      if standalone
      then
        '(code, out) ← RunSimulatedProcessing w (simulatedProcessing opts) (format opts);
        Some (mkRun code out nil None)
      else
        let missing_producer :=
          Some (mkRun 1 (LogUsage :: Error "Missing required producer (-p) argument." :: nil)
                      nil None) in
        let with_producer (objects : list Component) : option Run :=
          let missing_consumer :=
            Some (mkRun 1 (LogUsage :: Error "Missing required consumer (-c) argument." :: nil)
                        objects None) in
          let with_consumer (objects : list Component) (consumer : option ConsumerType)
            : option Run :=
            if 0 <? Z.of_nat (String.length (outputFilename opts))
            then
              if output_opens w
              then run_constructed w opts objects consumer true
              else Some (mkRun 1 (Error ("Could not open file for output: "
                                         +++ outputFilename opts) :: nil)
                               objects None)
            else run_constructed w opts objects consumer false in
          match consumerType opts with
          | CONSUMER_V4L2 =>
              with_consumer (objects ++ ConsumerObject CONSUMER_V4L2 :: nil) (Some CONSUMER_V4L2)
          | CONSUMER_AJA =>
              if ENABLE_AJA
              then with_consumer (objects ++ ConsumerObject CONSUMER_AJA :: nil) (Some CONSUMER_AJA)
              else missing_consumer
          | CONSUMER_GSTREAMER =>
              with_consumer (objects ++ ConsumerObject CONSUMER_GSTREAMER :: nil)
                            (Some CONSUMER_GSTREAMER)
          | CONSUMER_NONE => with_consumer objects None
          | CONSUMER_UNKNOWN => missing_consumer
          end in
        match producerType opts with
        | PRODUCER_GL => with_producer (ProducerObject PRODUCER_GL :: nil)
        | PRODUCER_AJA =>
            if ENABLE_AJA
            then with_producer (ProducerObject PRODUCER_AJA :: nil)
            else missing_producer
        | PRODUCER_GSTREAMER => with_producer (ProducerObject PRODUCER_GSTREAMER :: nil)
        | PRODUCER_UNKNOWN => missing_producer
        end
  end.

End WithBuild.

End Main.

(* ===================================================================== *)
(** ** CudaUtils.cu: the solid colour kernel *)
(* ===================================================================== *)

Module Cuda.

(** Device memory behind [ptr]: the 32-bit value of each element, by
    index. *)
Definition Memory : Type := Z -> Z.

Definition write (mem : Memory) (i value : Z) : Memory :=
  fun j => if j =? i then value else mem j.

(** The loop of the kernel [WriteRGBA] in one thread,
    [for (int i = index; i < elementCount; i += stride) ptr[i] = value;]
    where the [int] counter is converted to [size_t] for the comparison.
    The loop need not end: it runs on [fuel], and the result is [None]
    when the fuel does not suffice. *)
Fixpoint WriteRGBA_loop (fuel : nat) (mem : Memory) (elementCount value i stride : Z)
  : option Memory :=
  if u64 i <? elementCount
  then
    match fuel with
    | O => None
    | S fuel' =>
        WriteRGBA_loop fuel' (write mem i value) elementCount value
                       (s32 (i + stride)) stride
    end
  else Some mem.

(** The kernel [WriteRGBA] in the thread [threadIdx] of the block
    [blockIdx]. *)
Definition WriteRGBA (fuel : nat) (gridDim blockDim blockIdx threadIdx : Z)
           (mem : Memory) (elementCount value : Z) : option Memory :=
  let index := s32 (u32 (u32 (blockIdx * blockDim) + threadIdx)) in
  let stride := s32 (u32 (blockDim * gridDim)) in
  WriteRGBA_loop fuel mem elementCount value index stride.

(** The threads of a launch [<<<numBlocks, blockSize>>>], block by
    block. *)
Definition threads (numBlocks blockSize : nat) : list (Z * Z) :=
  flat_map (fun b => map (fun t => (Z.of_nat b, Z.of_nat t)) (seq 0 blockSize))
           (seq 0 numBlocks).

(** A launch runs the kernel in every thread.  The threads write
    disjoint elements or the same value, so that running them one after
    the other gives the memory that the launch leaves. *)
Fixpoint launch (fuel : nat) (gridDim blockDim : Z) (ts : list (Z * Z))
         (mem : Memory) (elementCount value : Z) : option Memory :=
  match ts with
  | nil => Some mem
  | (b, t) :: rest =>
      match WriteRGBA fuel gridDim blockDim b t mem elementCount value with
      | None => None
      | Some mem' => launch fuel gridDim blockDim rest mem' elementCount value
      end
  end.

Definition blockSize : Z := 1024.

(** [unsigned int numBlocks = (elementCount + blockSize - 1) / blockSize]. *)
Definition numBlocks (elementCount : Z) : Z :=
  u32 (u64 (u64 (elementCount + blockSize) - 1) / blockSize).

(** [uint32_t abgr = (0xFF << 24) | (b << 16) | (g << 8) | (r << 0)]. *)
Definition abgr (r g b : Z) : Z :=
  u32 (Z.lor (Z.lor (Z.lor (Z.shiftl 0xFF 24) (Z.shiftl b 16)) (Z.shiftl g 8))
             (Z.shiftl r 0)).

(** [CudaWriteRGBA]: the memory after the launch has completed. *)
Definition CudaWriteRGBA (fuel : nat) (mem : Memory) (elementCount r g b : Z)
  : option Memory :=
  launch fuel (numBlocks elementCount) blockSize
         (threads (Z.to_nat (numBlocks elementCount)) (Z.to_nat blockSize))
         mem elementCount (abgr r g b).

End Cuda.

(* ===================================================================== *)
(** ** Notions used to state the properties *)
(* ===================================================================== *)

Module Spec.

(** The exact sum of a list of integers. *)
Definition sum (l : list Z) : Z := fold_right Z.add 0 l.

(** The colour of a frame. *)
Definition color (f : Frame) : Z * Z * Z :=
  (FrameOps.R f, FrameOps.G f, FrameOps.B f).

(** The frame behind the pointer [p] has a colour within 8 units of
    [(r, g, b)] on every channel. *)
Definition within_tolerance (store : gmap nat Frame) (r g b : Z) (p : nat) : Prop :=
  exists f, store !! p = Some f
            /\ Z.abs (FrameOps.R f - r) <= 8
            /\ Z.abs (FrameOps.G f - g) <= 8
            /\ Z.abs (FrameOps.B f - b) <= 8.


(** The elapsed time from the checkpoint [a] to the checkpoint [b], in
    microseconds. *)
Definition span (a b : TimePoint) : Microseconds := duration_cast (b - a).

(** Producer total, consumer total and their sum for one frame. *)
Definition producer_total (f : Frame) : Microseconds :=
  span (m_processingStart f) (m_writeEnd f).
Definition consumer_total (f : Frame) : Microseconds :=
  span (m_frameReceived f) (m_copiedToGPU f).
Definition estimated_application_time (f : Frame) : Microseconds :=
  producer_total f + consumer_total f.

Definition wire_time (f : Frame) : Microseconds :=
  span (m_scanoutStart f) (m_frameReceived f).

(** The eight stage durations of a frame, in the order in which the
    per-stage statistics are printed. *)
Definition stage_durations (f : Frame) : list Microseconds :=
  span (m_processingStart f) (m_renderStart f)
  :: span (m_renderStart f) (m_renderEnd f)
  :: span (m_renderEnd f) (m_copiedFromGPU f)
  :: span (m_copiedFromGPU f) (m_writeEnd f)
  :: span (m_writeEnd f) (m_scanoutStart f)
  :: span (m_scanoutStart f) (m_frameReceived f)
  :: span (m_frameReceived f) (m_readEnd f)
  :: span (m_readEnd f) (m_copiedToGPU f)
  :: nil.

(** The eight per-stage lists of a tally, in the order in which
    [PrintLatencyResults] prints their summaries. *)
Definition stage_lists (t : Report.Tally) : list DurationList.t :=
  Report.processingTimes t :: Report.renderTimes t :: Report.fromGpuTimes t
  :: Report.writeTimes t :: Report.vsyncTimes t :: Report.wireTimes t
  :: Report.readTimes t :: Report.toGpuTimes t :: nil.

(** The frame count of the final estimate, on exact integers, for a
    statistic [s] of the estimated application times and the statistic
    [w] of the wire times: [(s + I) / I], truncated, plus 1, or plus
    [(w + I) / I] for the GStreamer producer. *)
Definition latency_frames (kind : ProducerType) (I s w : Z) : Z :=
  Z.quot (s + I) I
  + match kind with
    | PRODUCER_GSTREAMER => Z.quot (w + I) I
    | _ => 1
    end.

(** The flags that take a value, with the usage error reported when the
    value is missing. *)
Definition value_flags : list (string * string) :=
  ("-p", "Missing value for -p (producer) option.")
  :: ("-c", "Missing value for -c (consumer) option.")
  :: ("-f", "Missing value for -f (format) option.")
  :: ("-n", "Missing value for -n (num frames) option.")
  :: ("-w", "Missing value for -w (warmup frames) option.")
  :: ("-s", "Missing value for -s (simulated CUDA workload) option.")
  :: ("-o", "Missing value for -o (output CSV file) option.")
  :: ("-p.device", "Missing value for -p.device (producer device) option.")
  :: ("-p.channel", "Missing value for -p.channel (producer channel) option.")
  :: ("-p.rdma", "Missing value for -p.rdma (producer RDMA) option.")
  :: ("-p.time", "Missing value for -p.time (producer runtime) option.")
  :: ("-c.device", "Missing value for -c.device (consumer device) option.")
  :: ("-c.channel", "Missing value for -c.channel (consumer channel) option.")
  :: ("-c.rdma", "Missing value for -c.rdma (consumer RDMA) option.")
  :: nil.

(** A world in which every device fails and nothing is delivered. *)
Definition idle_world : Main.World :=
  Main.mkWorld false false (fun _ => (0, 0)) "" "" false false false false ∅ nil nil nil.

(** The pointers appended to the received list by a sequence of
    captures, in order, and the number of captures counted as
    duplicates. *)
Fixpoint appended (log : list Consumer.Disposition) : list nat :=
  match log with
  | nil => nil
  | Consumer.Appended p :: rest => p :: appended rest
  | _ :: rest => appended rest
  end.

Fixpoint duplicates (log : list Consumer.Disposition) : nat :=
  match log with
  | nil => O
  | Consumer.Duplicate _ :: rest => S (duplicates rest)
  | _ :: rest => duplicates rest
  end.






(** The gap of each sequence number to the number expected for it, in
    32-bit arithmetic: the expected number is [expected] for the first
    element and the successor of the previous number afterwards. *)
Fixpoint gaps (expected : Z) (numbers : list Z) : list Z :=
  match numbers with
  | nil => nil
  | n :: rest => u32 (n - expected) :: gaps (u32 (n + 1)) rest
  end.


(** The same gaps on exact integers, and the sequences for which the two
    agree: every number is a 32-bit value and is at least the number
    expected for it, the successor of the one before. *)
Fixpoint exact_gaps (expected : Z) (numbers : list Z) : list Z :=
  match numbers with
  | nil => nil
  | n :: rest => (n - expected) :: exact_gaps (n + 1) rest
  end.

Fixpoint ascending (expected : Z) (numbers : list Z) : Prop :=
  match numbers with
  | nil => True
  | n :: rest => expected <= n < 2 ^ 32 /\ ascending (n + 1) rest
  end.

End Spec.

(* ===================================================================== *)
(** ** TestFormat.h: the comparison of formats *)
(* ===================================================================== *)

Module TestFormatOps.

(** The enumerators of [PixelFormat], in the order of their declaration. *)
Definition PixelFormat_value (pf : PixelFormat) : Z :=
  match pf with
  | PIXEL_FORMAT_UNKNOWN => 0
  | PIXEL_FORMAT_RGBA => 1
  end.

(** A [TestFormat] object in memory.  On the LP64 targets of the program
    [size_t] takes 8 bytes and the enumeration and [uint32_t] take 4, each
    aligned to its size: 4 padding bytes follow [pixelFormat], 4 follow
    [frameRate], and [sizeof(TestFormat)] is 48.  The padding bytes hold
    whatever the compiler and the copies of the object left there. *)
Record Object : Type := mkObject {
  members : TestFormat;
  padding1 : Z;                 (* the 4 bytes after pixelFormat, as one value *)
  padding2 : Z                  (* the 4 bytes after frameRate *)
}.

(** The [n] bytes of an unsigned value, the least significant first. *)
Fixpoint le_bytes (n : nat) (z : Z) : list Z :=
  match n with
  | O => nil
  | S n' => z mod 256 :: le_bytes n' (z / 256)
  end.

(** The 48 bytes of an object. *)
Definition bytes (o : Object) : list Z :=
  le_bytes 8 (width (members o))
  ++ le_bytes 8 (height (members o))
  ++ le_bytes 4 (PixelFormat_value (pixelFormat (members o)))
  ++ le_bytes 4 (padding1 o)
  ++ le_bytes 8 (bytesPerPixel (members o))
  ++ le_bytes 8 (totalBytes (members o))
  ++ le_bytes 4 (frameRate (members o))
  ++ le_bytes 4 (padding2 o).

(** [memcmp] on two byte sequences of one length: zero when all bytes
    agree, and otherwise the difference of the first two that differ. *)
Fixpoint memcmp (a b : list Z) : Z :=
  match a, b with
  | x :: a', y :: b' => if x =? y then memcmp a' b' else x - y
  | _, _ => 0
  end.

(** [operator==]: [memcmp(&a, &b, sizeof(TestFormat)) == 0], which
    compares the padding bytes with the members. *)
Definition equal (a b : Object) : bool := memcmp (bytes a) (bytes b) =? 0.

(** The members and the padding of an object are values of their types. *)
Definition well_formed (o : Object) : Prop :=
  0 <= width (members o) < 2 ^ 64
  /\ 0 <= height (members o) < 2 ^ 64
  /\ 0 <= bytesPerPixel (members o) < 2 ^ 64
  /\ 0 <= totalBytes (members o) < 2 ^ 64
  /\ 0 <= frameRate (members o) < 2 ^ 32
  /\ 0 <= padding1 o < 2 ^ 32
  /\ 0 <= padding2 o < 2 ^ 32.

Section WithConstants.

(** The padding bytes of the [constexpr] objects of TestFormat.h, which
    the compiler chooses: [constant_padding f] are those of the constant
    whose members are [f]. *)
Variable constant_padding : TestFormat -> Z * Z.

Definition constant (f : TestFormat) : Object :=
  mkObject f (fst (constant_padding f)) (snd (constant_padding f)).

End WithConstants.

End TestFormatOps.

(* ===================================================================== *)
(** ** AJABase.cpp, and the AJA parts of AJAProducer.cpp and AJAConsumer.cpp *)
(* ===================================================================== *)

Module CudaUtils.

(** [CudaAlloc]: whether the pointer it returns is not null, and its
    console output.  The status of [cudaMalloc] is not looked at:
    [pointer_set] says whether the pointer it leaves is not null.  With
    RDMA the attribute is set on the pointer; when that fails the pointer is
    freed and null is returned after an error. *)
Definition CudaAlloc (pointer_set sync_memops_fails enableRDMA : bool)
  : bool * list Output :=
  if enableRDMA && sync_memops_fails
  then (false, Error "Failed to set CU_POINTER_ATTRIBUTE_SYNC_MEMOPS" :: nil)
  else (pointer_set, nil).

End CudaUtils.

Module AJABase.

(** The video formats, pixel formats and status codes of the NTV2 SDK
    that the sources name. *)
Inductive NTV2VideoFormat : Type :=
| NTV2_FORMAT_UNKNOWN
| NTV2_FORMAT_720p_6000
| NTV2_FORMAT_1080p_6000_A
| NTV2_FORMAT_3840x2160p_2400
| NTV2_FORMAT_3840x2160p_6000
| NTV2_FORMAT_4096x2160p_2400
| NTV2_FORMAT_4096x2160p_6000
| NTV2_FORMAT_4x1920x1080p_2400
| NTV2_FORMAT_4x1920x1080p_6000
| NTV2_FORMAT_4x2048x1080p_2400
| NTV2_FORMAT_4x2048x1080p_6000.

Inductive NTV2PixelFormat : Type := NTV2_FBF_ABGR | NTV2_FBF_INVALID.

Inductive AJAStatus : Type :=
| AJA_STATUS_SUCCESS
| AJA_STATUS_OPEN
| AJA_STATUS_INITIALIZE
| AJA_STATUS_UNSUPPORTED
| AJA_STATUS_FEATURE.

Definition GetNTV2PixelFormat (format : TestFormat) : NTV2PixelFormat :=
  match pixelFormat format with
  | PIXEL_FORMAT_RGBA => NTV2_FBF_ABGR
  | _ => NTV2_FBF_INVALID
  end.

(** [GetNTV2VideoFormatTSI(format)]: the format that the reference holds
    after the call, and the result. *)
Definition GetNTV2VideoFormatTSI (format : NTV2VideoFormat) : NTV2VideoFormat * bool :=
  match format with
  | NTV2_FORMAT_3840x2160p_2400 => (NTV2_FORMAT_4x1920x1080p_2400, true)
  | NTV2_FORMAT_3840x2160p_6000 => (NTV2_FORMAT_4x1920x1080p_6000, true)
  | NTV2_FORMAT_4096x2160p_2400 => (NTV2_FORMAT_4x2048x1080p_2400, true)
  | NTV2_FORMAT_4096x2160p_6000 => (NTV2_FORMAT_4x2048x1080p_6000, true)
  | _ => (format, false)
  end.

(** The members of [AJABase] that the sources set from their own data;
    the device handle, its identifier and the format descriptor belong to
    the SDK. *)
Record State : Type := mkState {
  m_deviceSpecifier : string;
  m_videoFormat : NTV2VideoFormat;
  m_pixelFormat : NTV2PixelFormat;
  m_channel : Z;                (* NTV2Channel *)
  m_konaHDMI : bool;
  m_useTSI : bool;
  m_useRDMA : bool;
  m_cudaBuffer : bool           (* whether the pointer is not null *)
}.

Section WithSDK.

(** Two enumerators of [NTV2Channel], whose values the SDK defines, and
    the padding bytes of the format constants. *)
Variable NTV2_CHANNEL1 : Z.
Variable NTV2_MAX_NUM_CHANNELS : Z.
Variable constant_padding : TestFormat -> Z * Z.

(** [AJABase::GetNTV2VideoFormat]: the object that the reference
    denotes is compared with the constants by [operator==]. *)
Definition GetNTV2VideoFormat (format : TestFormatOps.Object) : NTV2VideoFormat :=
  let FORMAT := TestFormatOps.constant constant_padding in
  if TestFormatOps.equal format (FORMAT Formats.FORMAT_720_RGBA_60)
  then NTV2_FORMAT_720p_6000
  else if TestFormatOps.equal format (FORMAT Formats.FORMAT_1080_RGBA_60)
  then NTV2_FORMAT_1080p_6000_A
  else if TestFormatOps.equal format (FORMAT Formats.FORMAT_UHD_RGBA_24)
  then NTV2_FORMAT_3840x2160p_2400
  else if TestFormatOps.equal format (FORMAT Formats.FORMAT_UHD_RGBA_60)
  then NTV2_FORMAT_3840x2160p_6000
  else if TestFormatOps.equal format (FORMAT Formats.FORMAT_4K_RGBA_24)
  then NTV2_FORMAT_4096x2160p_2400
  else if TestFormatOps.equal format (FORMAT Formats.FORMAT_4K_RGBA_60)
  then NTV2_FORMAT_4096x2160p_6000
  else NTV2_FORMAT_UNKNOWN.

Definition GetNTV2Channel (channel : string) : Z :=
  let idx := Libc.strtol channel in
  if (idx <? 1) || (NTV2_MAX_NUM_CHANNELS <? idx)
  then NTV2_MAX_NUM_CHANNELS
  else NTV2_CHANNEL1 + (idx - 1).

(** [AJABase::AJABase]. *)
Definition make (format : TestFormatOps.Object) (device channel : string) (useRDMA : bool)
  : State :=
  {| m_deviceSpecifier := if Nat.eqb (String.length device) 0 then "0" else device;
     m_videoFormat := GetNTV2VideoFormat format;
     m_pixelFormat := GetNTV2PixelFormat (TestFormatOps.members format);
     m_channel := GetNTV2Channel channel;
     m_konaHDMI := false;
     m_useTSI := false;
     m_useRDMA := useRDMA;
     m_cudaBuffer := false |}.

(** The [AJABase] part of [AJAProducer::AJAProducer] and of
    [AJAConsumer::AJAConsumer]; the consumer takes the format of its
    producer. *)
Definition AJAProducer_make (format : TestFormatOps.Object) (device channel : string)
           (useRDMA : bool) : State :=
  make format device (if Nat.eqb (String.length channel) 0 then "1" else channel) useRDMA.

Definition AJAConsumer_make (producer_format : TestFormatOps.Object) (device channel : string)
           (useRDMA : bool) : State :=
  make producer_format device
       (if Nat.eqb (String.length channel) 0 then "2" else channel) useRDMA.

End WithSDK.

(** [AJAProducer::Dump] and [AJAConsumer::Dump], which are the same
    text; a [bool] is written as 1 or 0. *)
Definition Dump (st : State) : string :=
  "AJA" +++ endl
  +++ "    Device: " +++ m_deviceSpecifier st +++ endl
  +++ "    Channel: NTV2_CHANNEL" +++ show (m_channel st + 1) +++ endl
  +++ "    RDMA: " +++ (if m_useRDMA st then "1" else "0") +++ endl.

(** What the board, the SDK and CUDA answer during [OpenDevice]. *)
Record Board : Type := mkBoard {
  device_found : bool;          (* GetFirstDeviceFromArgument *)
  device_ready : bool;          (* IsDeviceReady *)
  hdmi_video_inputs : Z;        (* NTV2DeviceGetNumHDMIVideoInputs *)
  can_do_video_format : NTV2VideoFormat -> bool;
  can_do_frame_buffer_format : NTV2PixelFormat -> bool;
  total_bytes : NTV2VideoFormat -> NTV2PixelFormat -> Z;
                                (* GetTotalBytes of the format descriptor *)
  locks_buffer : bool -> bool;  (* DMABufferLock, of the GPU buffer or not *)
  cuda_pointer : bool;          (* the pointer that cudaMalloc leaves is not null *)
  sync_memops_fails : bool      (* cuPointerSetAttribute returns an error *)
}.

(** The calls of [OpenDevice] that claim a buffer. *)
Inductive BufferCall : Type :=
| DMABufferLock (gpu_buffer : bool) (bytes : Z)
| CudaAlloc (bytes : Z) (enableRDMA : bool).

(** [AJABase::OpenDevice]: the status, the members afterwards, the
    console output and the buffer calls.  [m_buffer.resize] leaves the
    buffer of the requested size, or ends the program by an exception. *)
Definition OpenDevice (board : Board) (st : State)
  : AJAStatus * State * list Output * list BufferCall :=
  if negb (device_found board)
  then (AJA_STATUS_OPEN, st,
        Error ("Device '" +++ m_deviceSpecifier st +++ "' not found.") :: nil, nil)
  else if negb (device_ready board)
  then (AJA_STATUS_INITIALIZE, st,
        Error ("Device '" +++ m_deviceSpecifier st +++ "' not ready.") :: nil, nil)
  else
    let konaHDMI := 1 <? hdmi_video_inputs board in
    let '(videoFormat, useTSI) :=
      if konaHDMI then GetNTV2VideoFormatTSI (m_videoFormat st)
      else (m_videoFormat st, m_useTSI st) in
    let st := mkState (m_deviceSpecifier st) videoFormat (m_pixelFormat st) (m_channel st)
                      konaHDMI useTSI (m_useRDMA st) (m_cudaBuffer st) in
    if negb (can_do_video_format board videoFormat)
    then (AJA_STATUS_UNSUPPORTED, st,
          Error "AJA device does not support requested video format." :: nil, nil)
    else if negb (can_do_frame_buffer_format board (m_pixelFormat st))
    then (AJA_STATUS_UNSUPPORTED, st,
          Error "AJA device does not support requested pixel format." :: nil, nil)
    else
      let bytes := total_bytes board videoFormat (m_pixelFormat st) in
      let buffer_size := bytes in
      if negb (buffer_size =? bytes)
      then (AJA_STATUS_INITIALIZE, st, Error "Failed to allocate buffer." :: nil, nil)
      else
        let host_lock := if m_useRDMA st then nil else DMABufferLock false bytes :: nil in
        if negb (m_useRDMA st) && negb (locks_buffer board false)
        then (AJA_STATUS_INITIALIZE, st,
              Error "AJA device failed to lock CPU buffer." :: nil, host_lock)
        else
          let calls := host_lock ++ CudaAlloc bytes (m_useRDMA st) :: nil in
          let '(cudaBuffer, printed) :=
            CudaUtils.CudaAlloc (cuda_pointer board) (sync_memops_fails board)
                                (m_useRDMA st) in
          let st := mkState (m_deviceSpecifier st) videoFormat (m_pixelFormat st)
                            (m_channel st) konaHDMI useTSI (m_useRDMA st)
                            cudaBuffer in
          if negb cudaBuffer
          then (AJA_STATUS_INITIALIZE, st,
                printed ++ Error "Failed to allocate CUDA memory." :: nil, calls)
          else if m_useRDMA st && negb (locks_buffer board true)
          then (AJA_STATUS_INITIALIZE, st,
                printed ++ Error "AJA device failed to lock GPU buffer." :: nil,
                calls ++ DMABufferLock true bytes :: nil)
          else (AJA_STATUS_SUCCESS, st, printed,
                calls ++ (if m_useRDMA st then DMABufferLock true bytes :: nil else nil)).

Section WithStatusCodes.

(** The macro [AJA_FAILURE] of the SDK and the values of its status
    codes; a status returned from a function of type [bool] is converted
    to true when its value is not zero. *)
Variable AJA_FAILURE : AJAStatus -> bool.
Variable status_value : AJAStatus -> Z.

Definition status_as_bool (status : AJAStatus) : bool := negb (status_value status =? 0).

(** [AJAProducer::Initialize], given what [OpenDevice] returns and
    prints, whether the device can play video, and what [SetupVideo]
    returns and prints: the result, the console output, and whether
    [SetupVideo] was called. *)
Definition AJAProducer_Initialize (m_deviceSpecifier : string)
           (opened : AJAStatus * list Output) (canDoPlayback : bool)
           (setup : AJAStatus * list Output) : bool * list Output * bool :=
  if AJA_FAILURE (fst opened)
  then (false,
        snd opened
        ++ Error ("Failed to open AJA device '" +++ m_deviceSpecifier +++ "'.") :: nil,
        false)
  else if negb canDoPlayback
  then (status_as_bool AJA_STATUS_FEATURE,
        snd opened
        ++ Error ("Device '" +++ m_deviceSpecifier +++ "' cannot play video.") :: nil,
        false)
  else if AJA_FAILURE (fst setup)
  then (false,
        snd opened ++ snd setup
        ++ Error ("Failed to setup AJA device '" +++ m_deviceSpecifier +++ "'.") :: nil,
        true)
  else (true, snd opened ++ snd setup, true).

(** [AJAConsumer::Initialize]. *)
Definition AJAConsumer_Initialize (m_deviceSpecifier : string)
           (opened : AJAStatus * list Output) (canDoCapture : bool)
           (setup : AJAStatus * list Output) : bool * list Output * bool :=
  if AJA_FAILURE (fst opened)
  then (false,
        snd opened
        ++ Error ("Failed to open AJA device '" +++ m_deviceSpecifier +++ "'.") :: nil,
        false)
  else if negb canDoCapture
  then (status_as_bool AJA_STATUS_FEATURE,
        snd opened
        ++ Error ("Device '" +++ m_deviceSpecifier +++ "' cannot capture video.") :: nil,
        false)
  else if AJA_FAILURE (fst setup)
  then (false,
        snd opened ++ snd setup
        ++ Error ("Failed to setup AJA device '" +++ m_deviceSpecifier +++ "'.") :: nil,
        true)
  else (true, snd opened ++ snd setup, true).

End WithStatusCodes.

End AJABase.

(* ===================================================================== *)
(** ** GLProducer.cpp: the set-up of the display *)
(* ===================================================================== *)

Module GLProducer.

(** A [GLFWvidmode]: three [int] members. *)
Record VideoMode : Type := mkVideoMode {
  mode_width : Z;
  mode_height : Z;
  refreshRate : Z
}.

(** What GLFW and CUDA answer during [Initialize]. *)
Record Display : Type := mkDisplay {
  monitorCount : Z;             (* glfwGetMonitors *)
  primary_monitor : bool;       (* glfwGetPrimaryMonitor is not null *)
  monitor_name : string;        (* glfwGetMonitorName *)
  window_created : bool;        (* glfwCreateWindow is not null *)
  video_mode : option VideoMode;  (* glfwGetVideoMode *)
  window_size : option (Z * Z); (* what glfwGetWindowSize leaves in the two
                                   variables, on the window or on the null
                                   pointer that it is handed; None when
                                   the call does not return *)
  video_modes : list VideoMode; (* glfwGetVideoModes *)
  cuda_allocates : bool         (* CudaAlloc is not null *)
}.

Definition ShowSupportedVideoModes (d : Display) : list Output :=
  Log (endl +++ "Available modes for display '" +++ monitor_name d +++ "':")
  :: map (fun m => Log ("    " +++ show (mode_width m) +++ "x" +++ show (mode_height m)
                        +++ " @ " +++ show (refreshRate m) +++ "Hz"))
         (video_modes d)
  ++ Log "" :: nil.

(** The condition of the long [if] of [Initialize]: an [int] compared
    with a [size_t] or a [uint32_t] is converted to it. *)
Definition mode_differs (m_format : TestFormat) (d : Display)
           (windowWidth windowHeight : Z) : bool :=
  negb (window_created d)
  || match video_mode d with
     | None => true
     | Some mode =>
         negb (u64 (mode_width mode) =? width m_format)
         || negb (u64 (mode_height mode) =? height m_format)
         || negb (u32 (refreshRate mode) =? frameRate m_format)
         || negb (u64 windowWidth =? width m_format)
         || negb (u64 windowHeight =? height m_format)
     end.

(** [GLProducer::Initialize]: the result and the console output, when
    the function returns.  [glfwGetWindowSize] is called on [m_window]
    before [m_window] is tested, so also on a null pointer. *)
Definition Initialize (m_format : TestFormat) (d : Display) : option (bool * list Output) :=
  if 1 <? monitorCount d
  then Some (false,
        Error ("More than one display is connected. GLFW currently has troubles" +++ endl
               +++ "       initializing the display correctly when more than one display is" +++ endl
               +++ "       connected. Please disconnect the other display(s) and try again.")
        :: nil)
  else if negb (primary_monitor d)
  then Some (false,
        Error "Failed to get a handle to the display (is the DISPLAY environment variable set?"
        :: nil)
  else
    match window_size d with
    | None => None
    | Some (windowWidth, windowHeight) =>
        if mode_differs m_format d windowWidth windowHeight
        then Some (false,
              if match video_mode d with
                 | Some mode => refreshRate mode =? 0
                 | None => false
                 end
              then Error "Failed to get the monitor mode (is the display cable attached?)" :: nil
              else
                Error ("Failed to create a " +++ show (width m_format) +++ "x"
                       +++ show (height m_format) +++ " @ " +++ show (frameRate m_format)
                       +++ "Hz fullscreen window.")
                :: ShowSupportedVideoModes d
                ++ Warning ("If the requested format is in the list of supported" +++ endl
                            +++ "         formats above, try resetting the current display mode with" +++ endl
                            +++ "         the xrandr tool using the following command:" +++ endl +++ endl
                            +++ "           $ xrandr --output " +++ monitor_name d
                            +++ " --mode " +++ show (width m_format) +++ "x" +++ show (height m_format)
                            +++ " --panning " +++ show (width m_format) +++ "x" +++ show (height m_format)
                            +++ " --rate " +++ show (frameRate m_format) +++ endl)
                :: nil)
        else if negb (cuda_allocates d)
        then Some (false, Error "Failed to allocate CUDA memory." :: nil)
        else Some (true, nil)
    end.

End GLProducer.

(* ===================================================================== *)
(** ** GStreamerProducer.cpp: the set-up of the pipeline and the display *)
(* ===================================================================== *)

Module GStreamerProducer.

(** What GStreamer, GDK and CUDA answer during [Initialize]. *)
Record Desktop : Type := mkDesktop {
  elements_created : bool;      (* pipeline, source and sink are not null *)
  elements_linked : bool;       (* gst_element_link_many *)
  pool_created : bool;          (* gst_nvds_buffer_pool_new is not null *)
  pool_configured : bool;       (* gst_buffer_pool_set_config *)
  cuda_allocates : bool;        (* CudaAlloc is not null *)
  display_found : bool;         (* gdk_display_get_default is not null *)
  n_monitors : Z;               (* gdk_display_get_n_monitors *)
  monitor_model : option string;  (* of the primary monitor, when it has both *)
  geometry_width : Z;           (* gdk_monitor_get_geometry *)
  geometry_height : Z;
  scaleFactor : Z;              (* gdk_monitor_get_scale_factor *)
  refresh_rate : Z;             (* gdk_monitor_get_refresh_rate, in mHz *)
  realized : list bool          (* the "realize" signals that the drawing
                                   area emits during gtk_widget_show_all:
                                   for each, whether
                                   gdk_window_ensure_native succeeds *)
}.

(** [GStreamerProducer::RealizeCallback], given whether the window could
    be made native: the console output and whether the window handle was
    passed to the sink. *)
Definition RealizeCallback (native : bool) : list Output * bool :=
  if negb native
  then (Error "Could not create native window for GStreamer overlay." :: nil, false)
  else (nil, true).

Section WithBuild.

(** The build option behind [#ifdef ENABLE_DEEPSTREAM]. *)
Variable ENABLE_DEEPSTREAM : bool.

(** [int refreshRate = gdk_monitor_get_refresh_rate(monitor) / 1000]. *)
Definition refreshRate (d : Desktop) : Z := Z.quot (refresh_rate d) 1000.

(** The condition of the last check of [Initialize]: the products are
    [int]s, and an [int] compared with a [size_t] or a [uint32_t] is
    converted to it. *)
Definition mode_differs (m_format : TestFormat) (d : Desktop) : bool :=
  negb (u64 (s32 (geometry_width d * scaleFactor d)) =? width m_format)
  || negb (u64 (s32 (geometry_height d * scaleFactor d)) =? height m_format)
  || negb (u32 (refreshRate d) =? frameRate m_format).

(** [GStreamerProducer::Initialize]: the result and the console output,
    with that of [RealizeCallback] when the window is shown. *)
Definition Initialize (m_format : TestFormat) (m_useRDMA : bool) (d : Desktop)
  : bool * list Output :=
  if negb (elements_created d)
  then (false, Error "Failed to create a required GStreamer element." :: nil)
  else if m_useRDMA && negb ENABLE_DEEPSTREAM
  then (false, Error "RDMA support in the GStreamer Producer requires DeepStream." :: nil)
  else if negb (elements_linked d)
  then (false, Error "Failed to link GStreamer elements." :: nil)
  else if ENABLE_DEEPSTREAM && m_useRDMA && negb (pool_created d)
  then (false, Error "Failed to create the NvDsBufferPool." :: nil)
  else if ENABLE_DEEPSTREAM && m_useRDMA && negb (pool_configured d)
  then (false, Error "Failed to set NvDsBufferPool config." :: nil)
  else if negb (cuda_allocates d)
  then (false, Error "Failed to allocate CUDA memory." :: nil)
  else if negb (display_found d)
  then (false,
        Error "Failed to get a handle to the display (is the DISPLAY environment variable set?"
        :: nil)
  else if 1 <? n_monitors d
  then (false,
        Error ("More than one display is connected. The GStreamer producer does" +++ endl
               +++ "       not work correctly when more than one display is connected." +++ endl
               +++ "       Please disconnect the other display(s) and try again.")
        :: nil)
  else
    match monitor_model d with
    | None =>
        (false, Error "Failed to get primary monitor (is the display cable attached?)" :: nil)
    | Some model =>
        if mode_differs m_format d
        then (false,
              Error ("The requested format (" +++ show (width m_format) +++ "x"
                     +++ show (height m_format) +++ " @ " +++ show (frameRate m_format)
                     +++ "Hz) does not match" +++ endl
                     +++ "       the current display mode ("
                     +++ show (s32 (geometry_width d * scaleFactor d)) +++ "x"
                     +++ show (s32 (geometry_height d * scaleFactor d)) +++ " @ "
                     +++ show (refreshRate d) +++ "Hz)" +++ endl
                     +++ "       Please set the display mode with the xrandr tool using" +++ endl
                     +++ "       the following comand:" +++ endl +++ endl
                     +++ "           $ xrandr --output " +++ model
                     +++ " --mode " +++ show (width m_format) +++ "x" +++ show (height m_format)
                     +++ " --panning " +++ show (width m_format) +++ "x" +++ show (height m_format)
                     +++ " --rate " +++ show (frameRate m_format) +++ endl +++ endl
                     +++ "       If the mode still does not match after running the above," +++ endl
                     +++ "       check the output of an 'xrandr' command to ensure that" +++ endl
                     +++ "       the mode is supported by the devices.")
              :: nil)
        else
          (* the window of the overlay is shown, which runs the callback
             connected to the "realize" signal of the drawing area *)
          (true, flat_map (fun native => fst (RealizeCallback native)) (realized d))
    end.

End WithBuild.

End GStreamerProducer.

(* ===================================================================== *)
(** ** V4L2Consumer.cpp and GStreamerConsumer.cpp: releasing the resources *)
(* ===================================================================== *)

Module V4L2Device.

(** [V4L2Consumer::Buffer]. *)
Record Buffer : Type := mkBuffer {
  ptr : Z;
  length : Z
}.

(** [m_fd] and [m_buffers]. *)
Record State : Type := mkState {
  m_fd : Z;                     (* int *)
  m_buffers : list Buffer
}.

Inductive Syscall : Type :=
| munmap (ptr length : Z)
| close (fd : Z).

(** [V4L2Consumer::Close], given the buffers whose [munmap] fails and
    whether [close] fails: the members afterwards, the system calls and the
    console output. *)
Definition Close (m_device : string) (munmap_fails : Buffer -> bool) (close_fails : bool)
           (st : State) : State * list Syscall * list Output :=
  let unmapped := map (fun buffer => munmap (ptr buffer) (length buffer)) (m_buffers st) in
  let unmap_errors :=
    flat_map (fun buffer =>
                if munmap_fails buffer
                then Error ("Failed to unmap buffer from " +++ m_device) :: nil
                else nil) (m_buffers st) in
  let closes := negb (m_fd st =? -1) in
  (mkState (-1) nil,
   unmapped ++ (if closes then close (m_fd st) :: nil else nil),
   unmap_errors
   ++ (if closes && close_fails then Error ("Failed to close " +++ m_device) :: nil else nil)).

End V4L2Device.

Module GStreamerPipeline.

(** The members that [GStreamerConsumer::Close] releases: pointers and
    the identifier of the bus watch, 0 when null or unset. *)
Record State : Type := mkState {
  m_cudaBuffer : Z;
  m_busWatchID : Z;
  m_loop : Z;
  m_caps : Z;
  m_pipeline : Z
}.

Inductive Release : Type :=
| CudaFree (ptr : Z)
| g_source_remove (id : Z)
| g_main_loop_unref (loop : Z)
| gst_caps_unref (caps : Z)
| gst_object_unref (object : Z).

Definition release_if_set (handle : Z) (release : Z -> Release) : list Release :=
  if handle =? 0 then nil else release handle :: nil.

(** [GStreamerConsumer::Close]: the members afterwards and the releases,
    in order. *)
Definition Close (st : State) : State * list Release :=
  (mkState 0 0 0 0 0,
   release_if_set (m_cudaBuffer st) CudaFree
   ++ release_if_set (m_busWatchID st) g_source_remove
   ++ release_if_set (m_loop st) g_main_loop_unref
   ++ release_if_set (m_caps st) gst_caps_unref
   ++ release_if_set (m_pipeline st) gst_object_unref).

End GStreamerPipeline.

(* ===================================================================== *)
(** ** Further notions used to state the properties *)
(* ===================================================================== *)

Module Notions.

(** Every text that [ParseArguments] compares an argument with. *)
Definition recognized : list string :=
  "-h" :: "--help" :: "-p" :: "--producer" :: "-c" :: "--consumer"
  :: "-f" :: "--format" :: "-n" :: "-w" :: "-s" :: "-o"
  :: "-p.device" :: "-p.channel" :: "-p.rdma" :: "-p.time"
  :: "-c.device" :: "-c.channel" :: "-c.rdma" :: nil.

(** An integer brought into the range of [long]. *)
Definition clamp_long (k : Z) : Z := Z.max LONG_MIN (Z.min LONG_MAX k).

(** Text before which the digits of a number end: the end of the string
    or a character that is no decimal digit. *)
Definition ends_number (rest : string) : Prop :=
  match rest with
  | EmptyString => True
  | String c _ => Libc.digit_of c = None
  end.

(** The members of a frame that only the producer or the constructor
    sets: the number, the colour and the six producer checkpoints. *)
Definition producer_side (f : Frame)
  : Z * Z * Z * Z * TimePoint * TimePoint * TimePoint * TimePoint * TimePoint * TimePoint :=
  (m_number f, m_r f, m_g f, m_b f, m_processingStart f, m_renderStart f,
   m_renderEnd f, m_copiedFromGPU f, m_writeEnd f, m_scanoutStart f).

(** The second store holds the same frame objects as the first, each with
    its producer side unchanged. *)
Definition store_kept (before after : gmap nat Frame) : Prop :=
  forall p : nat, producer_side <$> (after !! p) = producer_side <$> (before !! p).

(** Every pointer of the received list is the address of a frame. *)
Definition resolved (st : Consumer.State) : Prop :=
  Forall (fun p => is_Some (Consumer.store st !! p)) (Consumer.m_frames st).

(** The frame numbers of the received list, in order. *)
Definition numbers (st : Consumer.State) : list Z :=
  map FrameOps.Number (Main.received st).

(** No element is equal to the element after it. *)
Fixpoint distinct_neighbours (l : list Z) : Prop :=
  match l with
  | nil => True
  | a :: rest =>
      match rest with
      | nil => True
      | b :: _ => a <> b
      end /\ distinct_neighbours rest
  end.



(** The handle that a release of [GStreamerConsumer::Close] is made on. *)
Definition released_handle (r : GStreamerPipeline.Release) : Z :=
  match r with
  | GStreamerPipeline.CudaFree ptr => ptr
  | GStreamerPipeline.g_source_remove id => id
  | GStreamerPipeline.g_main_loop_unref loop => loop
  | GStreamerPipeline.gst_caps_unref caps => caps
  | GStreamerPipeline.gst_object_unref object => object
  end.

(** The hardware frames [h], [h xor 1], [h], ... : [k] of them. *)
Fixpoint alternate (h : Z) (k : nat) : list Z :=
  match k with
  | O => nil
  | S k' => h :: alternate (Z.lxor h 1) k'
  end.

(** The hardware frames that a sequence of device calls reads by DMA, and
    the ones it selects for input, in order. *)
Definition dma_reads (calls : list AJAConsumer.DeviceCall) : list Z :=
  omap (fun c => match c with
                 | AJAConsumer.DMAReadFrame h => Some h
                 | _ => None
                 end) calls.

Definition input_frames (calls : list AJAConsumer.DeviceCall) : list Z :=
  omap (fun c => match c with
                 | AJAConsumer.SetInputFrame h => Some h
                 | _ => None
                 end) calls.

(** The producers and consumers that a build can construct, the objects
    that [main] constructs for parsed options, and the consumer it drives. *)
Definition producer_built (ENABLE_AJA : bool) (p : ProducerType) : Prop :=
  match p with
  | PRODUCER_UNKNOWN => False
  | PRODUCER_AJA => ENABLE_AJA = true
  | _ => True
  end.

Definition consumer_chosen (ENABLE_AJA : bool) (c : ConsumerType) : Prop :=
  match c with
  | CONSUMER_UNKNOWN => False
  | CONSUMER_AJA => ENABLE_AJA = true
  | _ => True
  end.

Definition consumer_of (opts : ProgramOptions) : option ConsumerType :=
  match consumerType opts with
  | CONSUMER_NONE => None
  | c => Some c
  end.

Definition objects_of (opts : ProgramOptions) : list Main.Component :=
  Main.ProducerObject (producerType opts)
  :: match consumer_of opts with
     | None => nil
     | Some c => Main.ConsumerObject c :: nil
     end.

(** [main] takes the branch of [RunSimulatedProcessing]. *)
Definition standalone (opts : ProgramOptions) : Prop :=
  producerType opts = PRODUCER_UNKNOWN /\ consumerType opts = CONSUMER_UNKNOWN
  /\ 0 < simulatedProcessing opts.

(** The consumer state [st'] continues [st] by the captures of [log]: the
    received list has grown by the frames appended, the store holds the
    same frames with their producer side unchanged, and the pointers of the
    list stay resolved and neighbours in it stay of different numbers when
    they were. *)
Definition extends (st st' : Consumer.State) (log : list Consumer.Disposition) : Prop :=
  Consumer.m_frames st' = Consumer.m_frames st ++ Spec.appended log
  /\ store_kept (Consumer.store st) (Consumer.store st')
  /\ (resolved st -> resolved st')
  /\ (resolved st -> distinct_neighbours (numbers st) -> distinct_neighbours (numbers st')).

End Notions.

(* ===================================================================== *)
(** * Properties *)
(* ===================================================================== *)

(** ** Machine integers *)

Lemma wrapu_small w x : 0 <= x < 2 ^ w -> wrapu w x = x.
Proof. intros H. unfold wrapu. apply Z.mod_small. exact H. Qed.

Lemma wrapu_range w x : 0 <= w -> 0 <= wrapu w x < 2 ^ w.
Proof. intros H. unfold wrapu. apply Z.mod_pos_bound. apply Z.pow_pos_nonneg; lia. Qed.

Lemma wrapu_idem w x : wrapu w (wrapu w x) = wrapu w x.
Proof. unfold wrapu. apply Zmod_mod. Qed.

Lemma wrapu_add_l w x y : wrapu w (wrapu w x + y) = wrapu w (x + y).
Proof. unfold wrapu. apply Zplus_mod_idemp_l. Qed.

Lemma wrapu_add_r w x y : wrapu w (x + wrapu w y) = wrapu w (x + y).
Proof. unfold wrapu. apply Zplus_mod_idemp_r. Qed.

Lemma u8_small x : 0 <= x < 256 -> u8 x = x.
Proof. intros H. apply wrapu_small. change (2 ^ 8) with 256. exact H. Qed.

Lemma u32_small x : 0 <= x < 2 ^ 32 -> u32 x = x.
Proof. apply wrapu_small. Qed.

Lemma u64_small x : 0 <= x < 2 ^ 64 -> u64 x = x.
Proof. apply wrapu_small. Qed.

Lemma u64_range x : 0 <= u64 x < 2 ^ 64.
Proof. apply wrapu_range. lia. Qed.

Lemma u32_range x : 0 <= u32 x < 2 ^ 32.
Proof. apply wrapu_range. lia. Qed.

Lemma s64_small x : - 2 ^ 63 <= x < 2 ^ 63 -> s64 x = x.
Proof.
  intros H. unfold s64, wraps. change (64 - 1) with 63.
  rewrite Z.mod_small; lia.
Qed.

Lemma s32_small x : - 2 ^ 31 <= x < 2 ^ 31 -> s32 x = x.
Proof.
  intros H. unfold s32, wraps. change (32 - 1) with 31.
  rewrite Z.mod_small; lia.
Qed.

(** ** Frame colours *)

Lemma nibble_at n k mask :
  0 <= k -> Z.shiftr mask k = Z.ones 4 ->
  Z.shiftr (Z.land n mask) k = (n / 2 ^ k) mod 16.
Proof.
  intros Hk Hmask.
  rewrite Z.shiftr_land, Hmask, Z.land_ones by lia.
  rewrite Z.shiftr_div_pow2 by lia. reflexivity.
Qed.

Lemma nibble_as_claimed n k :
  0 <= k -> Z.land (Z.shiftr n k) 0xF = (n / 2 ^ k) mod 16.
Proof.
  intros Hk. change 0xF with (Z.ones 4).
  rewrite Z.land_ones by lia. rewrite Z.shiftr_div_pow2 by lia. reflexivity.
Qed.

Lemma channel_value q : 0 <= q < 16 -> u8 (u32 (q * 16 + 8)) = q * 16 + 8.
Proof.
  intros H. rewrite u32_small by lia. apply u8_small. lia.
Qed.

Lemma make_R n : FrameOps.R (FrameOps.make n) = (n / 256) mod 16 * 16 + 8.
Proof.
  unfold FrameOps.R, FrameOps.make; simpl.
  rewrite (nibble_at n 8) by (lia || reflexivity).
  change (2 ^ 8) with 256.
  apply channel_value. apply Z.mod_pos_bound. lia.
Qed.

Lemma make_G n : FrameOps.G (FrameOps.make n) = (n / 16) mod 16 * 16 + 8.
Proof.
  unfold FrameOps.G, FrameOps.make; simpl.
  rewrite (nibble_at n 4) by (lia || reflexivity).
  change (2 ^ 4) with 16.
  apply channel_value. apply Z.mod_pos_bound. lia.
Qed.

Lemma make_B n : FrameOps.B (FrameOps.make n) = n mod 16 * 16 + 8.
Proof.
  unfold FrameOps.B, FrameOps.make; simpl.
  change 0xF with (Z.ones 4). rewrite Z.land_ones by lia.
  change (2 ^ 4) with 16.
  apply channel_value. apply Z.mod_pos_bound. lia.
Qed.

(** C4. The frame constructed from a number [n] has the channels
    r = ((n >> 8) & 0xF) * 16 + 8, g = ((n >> 4) & 0xF) * 16 + 8 and
    b = (n & 0xF) * 16 + 8, and each channel lies between 8 and 248, so
    that no channel is 0.  This holds for every integer [n], hence for
    every 32-bit frame number. *)
Theorem frame_color_channels (n : Z) :
  FrameOps.R (FrameOps.make n) = Z.land (Z.shiftr n 8) 0xF * 16 + 8
  /\ FrameOps.G (FrameOps.make n) = Z.land (Z.shiftr n 4) 0xF * 16 + 8
  /\ FrameOps.B (FrameOps.make n) = Z.land n 0xF * 16 + 8
  /\ 8 <= FrameOps.R (FrameOps.make n) <= 248
  /\ 8 <= FrameOps.G (FrameOps.make n) <= 248
  /\ 8 <= FrameOps.B (FrameOps.make n) <= 248.
Proof.
  rewrite make_R, make_G, make_B.
  rewrite (nibble_as_claimed n 8), (nibble_as_claimed n 4) by lia.
  change (2 ^ 8) with 256. change (2 ^ 4) with 16.
  change 0xF with (Z.ones 4). rewrite Z.land_ones by lia.
  change (2 ^ 4) with 16.
  pose proof (Z.mod_pos_bound (n / 256) 16).
  pose proof (Z.mod_pos_bound (n / 16) 16).
  pose proof (Z.mod_pos_bound n 16).
  repeat split; lia.
Qed.

Lemma low_twelve_bits n :
  n mod 4096 = 256 * ((n / 256) mod 16) + 16 * ((n / 16) mod 16) + n mod 16.
Proof. Z.div_mod_to_equations; lia. Qed.

(** C10. Two frames have the same colour exactly when their numbers are
    congruent modulo 4096; when the colours differ, some channel differs by
    at least 16, so the two colours are not within 8 units of each other
    on every channel. *)
Theorem frame_colors_separate (m n : Z) :
  (Spec.color (FrameOps.make m) = Spec.color (FrameOps.make n)
   <-> m mod 4096 = n mod 4096)
  /\ (Spec.color (FrameOps.make m) <> Spec.color (FrameOps.make n) ->
      (16 <= Z.abs (FrameOps.R (FrameOps.make m) - FrameOps.R (FrameOps.make n))
       \/ 16 <= Z.abs (FrameOps.G (FrameOps.make m) - FrameOps.G (FrameOps.make n))
       \/ 16 <= Z.abs (FrameOps.B (FrameOps.make m) - FrameOps.B (FrameOps.make n)))
      /\ ~ (Z.abs (FrameOps.R (FrameOps.make m) - FrameOps.R (FrameOps.make n)) <= 8
            /\ Z.abs (FrameOps.G (FrameOps.make m) - FrameOps.G (FrameOps.make n)) <= 8
            /\ Z.abs (FrameOps.B (FrameOps.make m) - FrameOps.B (FrameOps.make n)) <= 8)).
Proof.
  unfold Spec.color. rewrite !make_R, !make_G, !make_B.
  pose proof (low_twelve_bits m) as Hm. pose proof (low_twelve_bits n) as Hn.
  pose proof (Z.mod_pos_bound (m / 256) 16). pose proof (Z.mod_pos_bound (n / 256) 16).
  pose proof (Z.mod_pos_bound (m / 16) 16). pose proof (Z.mod_pos_bound (n / 16) 16).
  pose proof (Z.mod_pos_bound m 16). pose proof (Z.mod_pos_bound n 16).
  set (rm := (m / 256) mod 16) in *. set (rn := (n / 256) mod 16) in *.
  set (gm := (m / 16) mod 16) in *. set (gn := (n / 16) mod 16) in *.
  set (bm := m mod 16) in *. set (bn := n mod 16) in *.
  split.
  - split.
    + intros Heq. injection Heq as Hr Hg Hb. lia.
    + intros Heq. assert (rm = rn /\ gm = gn /\ bm = bn) as (-> & -> & ->) by lia.
      reflexivity.
  - intros Hne.
    assert (rm <> rn \/ gm <> gn \/ bm <> bn) as Hsome.
    { destruct (Z.eq_dec rm rn) as [->|]; [|lia].
      destruct (Z.eq_dec gm gn) as [->|]; [|lia].
      destruct (Z.eq_dec bm bn) as [->|]; [|lia].
      exfalso. apply Hne. reflexivity. }
    split; lia.
Qed.

(** ** Duration statistics *)

Lemma min_fold_spec (r : list Z) (x : Z) :
  let m := fold_left (fun smallest v => if v <? smallest then v else smallest) r x in
  m <= x /\ Forall (fun d => m <= d) r /\ (m = x \/ In m r).
Proof.
  revert x. induction r as [|y r IH]; intros x; simpl.
  - repeat split; [lia | constructor | now left].
  - specialize (IH (if y <? x then y else x)). simpl in IH.
    destruct IH as (Hle & Hall & Hin).
    destruct (Z.ltb_spec y x) as [Hlt|Hge].
    + repeat split; [lia | constructor; [exact Hle | exact Hall] |].
      destruct Hin as [->|Hin]; [right; now left | right; now right].
    + repeat split; [exact Hle | constructor; [lia | exact Hall] |].
      destruct Hin as [->|Hin]; [now left | right; now right].
Qed.

Lemma max_fold_spec (r : list Z) (x : Z) :
  let m := fold_left (fun largest v => if largest <? v then v else largest) r x in
  x <= m /\ Forall (fun d => d <= m) r /\ (m = x \/ In m r).
Proof.
  revert x. induction r as [|y r IH]; intros x; simpl.
  - repeat split; [lia | constructor | now left].
  - specialize (IH (if x <? y then y else x)). simpl in IH.
    destruct IH as (Hle & Hall & Hin).
    destruct (Z.ltb_spec x y) as [Hlt|Hge].
    + repeat split; [lia | constructor; [exact Hle | exact Hall] |].
      destruct Hin as [->|Hin]; [right; now left | right; now right].
    + repeat split; [exact Hle | constructor; [lia | exact Hall] |].
      destruct Hin as [->|Hin]; [now left | right; now right].
Qed.

Lemma Min_spec (l : DurationList.t) :
  l <> nil ->
  exists mn, DurationList.Min l = Some mn /\ In mn l /\ Forall (fun d => mn <= d) l.
Proof.
  destruct l as [|x r]; [congruence | intros _].
  destruct (min_fold_spec r x) as (Hle & Hall & Hin).
  eexists. split; [reflexivity |]. split.
  - destruct Hin as [->|Hin]; [now left | now right].
  - constructor; assumption.
Qed.

Lemma Max_spec (l : DurationList.t) :
  l <> nil ->
  exists mx, DurationList.Max l = Some mx /\ In mx l /\ Forall (fun d => d <= mx) l.
Proof.
  destruct l as [|x r]; [congruence | intros _].
  destruct (max_fold_spec r x) as (Hle & Hall & Hin).
  eexists. split; [reflexivity |]. split.
  - destruct Hin as [->|Hin]; [now left | now right].
  - constructor; assumption.
Qed.

(** The 64-bit accumulator of [Avg] holds the exact sum modulo 2^64. *)
Lemma total_fold (l : list Z) (acc : Z) :
  fold_left (fun total value => u64 (total + u64 value)) l (u64 acc)
  = u64 (acc + Spec.sum l).
Proof.
  revert acc. induction l as [|x l IH]; intros acc; simpl.
  - f_equal. lia.
  - unfold u64 at 2 3. rewrite wrapu_add_r, wrapu_add_l. fold u64.
    rewrite IH. f_equal. lia.
Qed.

Lemma Avg_unfold (l : DurationList.t) :
  l <> nil ->
  DurationList.Avg l = s64 (u64 (Spec.sum l) / Z.of_nat (List.length l)).
Proof.
  intros Hne. unfold DurationList.Avg.
  destruct (Z.eqb_spec (Z.of_nat (List.length l)) 0) as [H0|_].
  - destruct l; [congruence | simpl in H0; lia].
  - change 0 with (u64 0) at 1. rewrite total_fold. reflexivity.
Qed.

Lemma sum_bounds (l : list Z) (b : Z) :
  Forall (fun d => 0 <= d < b) l ->
  0 <= Spec.sum l /\ Spec.sum l <= Z.of_nat (List.length l) * (b - 1).
Proof.
  unfold Spec.sum.
  induction 1 as [|x l Hx _ IH]; cbn [fold_right List.length].
  - lia.
  - rewrite Nat2Z.inj_succ. nia.
Qed.

Lemma Avg_mean (l : DurationList.t) :
  l <> nil ->
  Forall (fun d => 0 <= d < 2 ^ 63) l ->
  Spec.sum l < 2 ^ 64 ->
  DurationList.Avg l = Z.quot (Spec.sum l) (Z.of_nat (List.length l)).
Proof.
  intros Hne Hall Hsum.
  rewrite Avg_unfold by exact Hne.
  destruct (sum_bounds l _ Hall) as [H0 Hup].
  unfold DurationList.t, Microseconds in *.
  assert (0 < Z.of_nat (List.length l)) as Hn by (destruct l; [congruence | simpl; lia]).
  rewrite u64_small by lia.
  rewrite Z.quot_div_nonneg by lia.
  apply s64_small. split.
  - assert (0 <= Spec.sum l / Z.of_nat (List.length l)) by (apply Z.div_pos; lia). lia.
  - apply Z.div_lt_upper_bound; lia.
Qed.

(** C6, as amended.  For a non-empty list: [Min] and [Max] are the least
    and the greatest sample; [Summary] renders the average, the minimum and
    the maximum, each right-adjusted by [setw 6]; and when the samples are
    non-negative and their total is below 2^64, [Avg] is their truncating
    integer mean.  [Avg] of the empty list is 0, and after 10, 20 and 30
    are appended the summary is the string of the example. *)
Theorem duration_list_statistics (l : DurationList.t) :
  l <> nil ->
  (Forall (fun d => 0 <= d < 2 ^ 63) l -> Spec.sum l < 2 ^ 64 ->
   DurationList.Avg l = Z.quot (Spec.sum l) (Z.of_nat (List.length l)))
  /\ (exists mn mx,
        DurationList.Min l = Some mn /\ DurationList.Max l = Some mx
        /\ In mn l /\ In mx l
        /\ Forall (fun d => mn <= d <= mx) l
        /\ DurationList.Summary l
           = Some ("avg = " +++ setw 6 (show (DurationList.Avg l)) +++ ", "
                   +++ "min = " +++ setw 6 (show mn) +++ ", "
                   +++ "max = " +++ setw 6 (show mx)))
  /\ DurationList.Avg DurationList.empty = 0
  /\ DurationList.Summary
       (DurationList.Append
          (DurationList.Append (DurationList.Append DurationList.empty 10) 20) 30)
     = Some "avg =     20, min =     10, max =     30".
Proof.
  intros Hne. split; [| split; [| split]].
  - intros Hall Hsum. apply Avg_mean; assumption.
  - destruct (Min_spec l Hne) as (mn & Hmn & Hinmn & Hallmn).
    destruct (Max_spec l Hne) as (mx & Hmx & Hinmx & Hallmx).
    exists mn, mx. repeat split; try assumption.
    + rewrite Forall_forall in *. intros d Hd. split; auto.
    + unfold DurationList.Summary. rewrite Hmn, Hmx. reflexivity.
  - reflexivity.
  - vm_compute. reflexivity.
Qed.

Lemma duration_list_statistics_witness :
  DurationList.Avg (10 :: 20 :: 30 :: nil) = 20
  /\ DurationList.Min (10 :: 20 :: 30 :: nil) = Some 10
  /\ DurationList.Max (10 :: 20 :: 30 :: nil) = Some 30.
Proof.
  assert ((10 :: 20 :: 30 :: nil) <> @nil Z) as Hne by discriminate.
  destruct (duration_list_statistics (10 :: 20 :: 30 :: nil) Hne) as (Havg & _ & _ & _).
  split; [| split; reflexivity].
  rewrite Havg.
  - reflexivity.
  - repeat constructor; lia.
  - vm_compute. reflexivity.
Defined.

(** C6, the claim as stated fails on negative samples and on totals of
    2^64 or more: the two samples -1 and -2 have the truncating mean -1, and
    [Avg] returns 9223372036854775806; the three samples 2^63 - 1, 2^63 - 1
    and 2 have the mean 6148914691236517205, and [Avg] returns 0. *)
Lemma duration_list_avg_negative_samples :
  DurationList.Avg (DurationList.Append (DurationList.Append DurationList.empty (-1)) (-2))
  = 9223372036854775806
  /\ Z.quot (Spec.sum (-1 :: -2 :: nil)) 2 = -1
  /\ DurationList.Avg (DurationList.Append (DurationList.Append DurationList.empty (-1)) (-2))
     <> Z.quot (Spec.sum (-1 :: -2 :: nil)) 2
  /\ DurationList.Avg (9223372036854775807 :: 9223372036854775807 :: 2 :: nil) = 0
  /\ Z.quot (Spec.sum (9223372036854775807 :: 9223372036854775807 :: 2 :: nil)) 3
     = 6148914691236517205.
Proof.
  repeat split; vm_compute; congruence.
Qed.

(** ** The frame lookup of the producer *)

Lemma FuzzyMatch_true (f : Frame) (r g b t : Z) :
  Producer.FuzzyMatch f r g b t = true
  <-> Z.abs (FrameOps.R f - r) <= t
      /\ Z.abs (FrameOps.G f - g) <= t
      /\ Z.abs (FrameOps.B f - b) <= t.
Proof.
  unfold Producer.FuzzyMatch.
  rewrite !andb_true_iff, !Z.leb_le. tauto.
Qed.

Lemma scan_found store frames r g b p kept :
  Producer.scan store frames r g b = Some (p, kept) ->
  exists older newer,
    frames = older ++ p :: newer
    /\ kept = p :: newer
    /\ Spec.within_tolerance store r g b p
    /\ Forall (fun q => ~ Spec.within_tolerance store r g b q) newer.
Proof.
  revert p kept. induction frames as [|q frames IH]; intros p kept; simpl.
  - discriminate.
  - destruct (Producer.scan store frames r g b) as [[p' kept']|] eqn:Hscan.
    + intros [= <- <-].
      destruct (IH p' kept' eq_refl) as (older & newer & -> & -> & Hm & Hnone).
      exists (q :: older), newer. repeat split; assumption.
    + intros Hq.
      destruct (store !! q) as [f|] eqn:Hf; [|discriminate].
      destruct (Producer.FuzzyMatch f r g b 8) eqn:Hfm; [|discriminate].
      injection Hq as <- <-.
      exists nil, frames. repeat split.
      * exists f. split; [exact Hf |]. apply FuzzyMatch_true. exact Hfm.
      * clear IH Hf Hfm. induction frames as [|q' frames IH]; [constructor |].
        simpl in Hscan.
        destruct (Producer.scan store frames r g b) as [found|] eqn:Hrest; [discriminate |].
        constructor; [| apply IH; reflexivity].
        intros (f' & Hf' & Hin). rewrite Hf' in Hscan.
        apply FuzzyMatch_true in Hin. rewrite Hin in Hscan. discriminate.
Qed.

Lemma scan_none store frames r g b :
  Producer.scan store frames r g b = None ->
  Forall (fun q => ~ Spec.within_tolerance store r g b q) frames.
Proof.
  induction frames as [|q frames IH]; simpl; [constructor |].
  destruct (Producer.scan store frames r g b) as [found|] eqn:Hrest; [discriminate |].
  intros Hq. constructor; [| apply IH; reflexivity].
  intros (f & Hf & Hin). rewrite Hf in Hq.
  apply FuzzyMatch_true in Hin. rewrite Hin in Hq. discriminate.
Qed.

(** C3.  [GetFrame] on a buffer whose first pixel is [(r, g, b)] returns
    the newest retained frame whose colour is within 8 units of the pixel on
    every channel, and keeps that frame and the newer ones only; when no
    retained frame matches, the result is empty and the list is unchanged.
    With frames 5 and 9 retained and the pixel of frame 9's colour, it
    returns frame 9 and evicts frame 5. *)
Theorem get_frame_newest_match (store : gmap nat Frame) (st : Producer.State)
        (r g b : Z) (rest : list Z) :
  match Producer.GetFrame store st (r :: g :: b :: rest) with
  | (Some p, st') =>
      exists older newer,
        Producer.m_frames st = older ++ p :: newer
        /\ Producer.m_frames st' = p :: newer
        /\ Producer.m_currentFrame st' = Producer.m_currentFrame st
        /\ Spec.within_tolerance store r g b p
        /\ Forall (fun q => ~ Spec.within_tolerance store r g b q) newer
  | (None, st') =>
      st' = st
      /\ Forall (fun q => ~ Spec.within_tolerance store r g b q) (Producer.m_frames st)
  end
  /\ (let five := FrameOps.make 5 in
      let nine := FrameOps.make 9 in
      let frames := <[1%nat := nine]> (<[0%nat := five]> (∅ : gmap nat Frame)) in
      Producer.GetFrame frames (Producer.mkState 10 (0%nat :: 1%nat :: nil))
                        (FrameOps.R nine :: FrameOps.G nine :: FrameOps.B nine :: 255 :: nil)
      = (Some 1%nat, Producer.mkState 10 (1%nat :: nil))).
Proof.
  split.
  - unfold Producer.GetFrame.
    destruct (Producer.scan store (Producer.m_frames st) r g b) as [[p kept]|] eqn:Hscan.
    + destruct (scan_found _ _ _ _ _ _ _ Hscan) as (older & newer & Hl & -> & Hm & Hnone).
      exists older, newer. repeat split; assumption.
    + split; [reflexivity |]. apply scan_none. exact Hscan.
  - vm_compute. reflexivity.
Qed.

(** ** The latency report *)

Lemma fold_step_lists (frames : list Frame) (t0 : Report.Tally) :
  let t := fold_left Report.step frames t0 in
  Report.processingTimes t
  = Report.processingTimes t0 ++ map (fun f => Spec.span (m_processingStart f) (m_renderStart f)) frames
  /\ Report.renderTimes t
     = Report.renderTimes t0 ++ map (fun f => Spec.span (m_renderStart f) (m_renderEnd f)) frames
  /\ Report.fromGpuTimes t
     = Report.fromGpuTimes t0 ++ map (fun f => Spec.span (m_renderEnd f) (m_copiedFromGPU f)) frames
  /\ Report.writeTimes t
     = Report.writeTimes t0 ++ map (fun f => Spec.span (m_copiedFromGPU f) (m_writeEnd f)) frames
  /\ Report.vsyncTimes t
     = Report.vsyncTimes t0 ++ map (fun f => Spec.span (m_writeEnd f) (m_scanoutStart f)) frames
  /\ Report.wireTimes t = Report.wireTimes t0 ++ map Spec.wire_time frames
  /\ Report.readTimes t
     = Report.readTimes t0 ++ map (fun f => Spec.span (m_frameReceived f) (m_readEnd f)) frames
  /\ Report.toGpuTimes t
     = Report.toGpuTimes t0 ++ map (fun f => Spec.span (m_readEnd f) (m_copiedToGPU f)) frames
  /\ Report.producerTimes t = Report.producerTimes t0 ++ map Spec.producer_total frames
  /\ Report.consumerTimes t = Report.consumerTimes t0 ++ map Spec.consumer_total frames
  /\ Report.totalTimes t
     = Report.totalTimes t0 ++ map (fun f => Spec.span (m_processingStart f) (m_copiedToGPU f)) frames
  /\ Report.estimatedAppTimes t
     = Report.estimatedAppTimes t0 ++ map Spec.estimated_application_time frames.
Proof.
  revert t0. induction frames as [|f frames IH]; intros t0.
  - simpl. rewrite !app_nil_r. repeat split.
  - cbn [fold_left map]. specialize (IH (Report.step t0 f)). cbv zeta in IH.
    destruct IH as (H1 & H2 & H3 & H4 & H5 & H6 & H7 & H8 & H9 & H10 & H11 & H12).
    cbv zeta.
    rewrite H1, H2, H3, H4, H5, H6, H7, H8, H9, H10, H11, H12.
    unfold Report.step; cbn [Report.processingTimes Report.renderTimes Report.fromGpuTimes
      Report.writeTimes Report.vsyncTimes Report.wireTimes Report.readTimes Report.toGpuTimes
      Report.producerTimes Report.consumerTimes Report.totalTimes Report.estimatedAppTimes].
    unfold DurationList.AppendSpan, DurationList.Append.
    rewrite <- !app_assoc. cbn [app].
    unfold Spec.estimated_application_time, Spec.producer_total, Spec.consumer_total,
      Spec.wire_time, Spec.span.
    repeat split; do 2 f_equal; lia.
Qed.

Lemma tally_lists (first : Frame) (frames : list Frame) :
  let t := Report.tally first frames in
  Spec.stage_lists t
  = map (fun k => map (fun f => nth k (Spec.stage_durations f) 0) frames) (seq 0 8)
  /\ Report.producerTimes t = map Spec.producer_total frames
  /\ Report.consumerTimes t = map Spec.consumer_total frames
  /\ Report.totalTimes t = map (fun f => Spec.span (m_processingStart f) (m_copiedToGPU f)) frames
  /\ Report.estimatedAppTimes t = map Spec.estimated_application_time frames
  /\ Report.wireTimes t = map Spec.wire_time frames.
Proof.
  cbv zeta. unfold Report.tally.
  destruct (fold_step_lists frames (Report.start first))
    as (H1 & H2 & H3 & H4 & H5 & H6 & H7 & H8 & H9 & H10 & H11 & H12).
  cbv zeta in *. unfold Spec.stage_lists.
  rewrite H1, H2, H3, H4, H5, H6, H7, H8, H9, H10, H11, H12.
  repeat split.
Qed.

Lemma fold_step_counts (frames : list Frame) (t0 : Report.Tally) :
  0 <= Report.skippedFrames t0 < 2 ^ 64 ->
  0 <= Report.duplicateReceives t0 < 2 ^ 64 ->
  let t := fold_left Report.step frames t0 in
  Report.skippedFrames t
  = u64 (Report.skippedFrames t0
         + Spec.sum (Spec.gaps (Report.expectedFrame t0) (map FrameOps.Number frames)))
  /\ Report.duplicateReceives t
     = u64 (Report.duplicateReceives t0 + Spec.sum (map FrameOps.DuplicateReceives frames)).
Proof.
  revert t0. induction frames as [|f frames IH]; intros t0 Hs Hd.
  - simpl. rewrite !Z.add_0_r, !u64_small by assumption. split; reflexivity.
  - cbn [fold_left map Spec.gaps]. cbv zeta.
    destruct (IH (Report.step t0 f)) as [IHs IHd].
    + apply u64_range.
    + apply u64_range.
    + cbv zeta in IHs, IHd. rewrite IHs, IHd.
      unfold Report.step; cbn [Report.skippedFrames Report.duplicateReceives Report.expectedFrame].
      unfold Spec.sum; cbn [fold_right]. fold (Spec.sum (Spec.gaps (u32 (FrameOps.Number f + 1))
                                                           (map FrameOps.Number frames))).
      fold (Spec.sum (map FrameOps.DuplicateReceives frames)).
      unfold u64 at 1 2 3 4. rewrite !wrapu_add_l. split; f_equal; lia.
Qed.

Lemma tally_counts (first : Frame) (frames : list Frame) :
  let t := Report.tally first frames in
  Report.skippedFrames t
  = u64 (Spec.sum (Spec.gaps (FrameOps.Number first) (map FrameOps.Number frames)))
  /\ Report.duplicateReceives t
     = u64 (Spec.sum (map FrameOps.DuplicateReceives frames)).
Proof.
  cbv zeta. unfold Report.tally.
  destruct (fold_step_counts frames (Report.start first)) as [Hs Hd];
    [simpl; lia | simpl; lia |].
  cbv zeta in Hs, Hd. rewrite Hs, Hd. simpl. split; reflexivity.
Qed.

Lemma Summary_some (l : DurationList.t) :
  l <> nil -> exists text, DurationList.Summary l = Some text.
Proof.
  intros Hne. unfold DurationList.Summary.
  destruct (Min_spec l Hne) as (mn & -> & _).
  destruct (Max_spec l Hne) as (mx & -> & _).
  eexists. reflexivity.
Qed.

Lemma SummaryInFrameIntervals_some show_ratio (l : DurationList.t) (frameInterval : Z) :
  l <> nil ->
  exists text, Report.SummaryInFrameIntervals show_ratio l frameInterval = Some text.
Proof.
  intros Hne. unfold Report.SummaryInFrameIntervals.
  destruct (Min_spec l Hne) as (mn & -> & _).
  destruct (Max_spec l Hne) as (mx & -> & _).
  eexists. reflexivity.
Qed.

Lemma map_cons_nonempty {A B} (f : A -> B) (x : A) (l : list A) : map f (x :: l) <> nil.
Proof. discriminate. Qed.

(** The tally of a non-empty frame list fills every list. *)
Lemma tally_nonempty (first : Frame) (rest : list Frame) :
  let t := Report.tally first (first :: rest) in
  Forall (fun l : DurationList.t => l <> nil) (Spec.stage_lists t)
  /\ Report.producerTimes t <> nil /\ Report.consumerTimes t <> nil
  /\ Report.totalTimes t <> nil /\ Report.estimatedAppTimes t <> nil.
Proof.
  cbv zeta.
  destruct (tally_lists first (first :: rest)) as (Hs & Hp & Hc & Ht & He & _).
  cbv zeta in *. rewrite Hs, Hp, Hc, Ht, He.
  split; [| repeat split; apply map_cons_nonempty].
  repeat constructor; discriminate.
Qed.

Lemma stage_lines_some (first : Frame) (rest : list Frame) :
  exists processing more,
    Report.stage_lines (Report.tally first (first :: rest))
    = Some (Log (ProducerColor ("CUDA Processing: " +++ processing)) :: more).
Proof.
  destruct (tally_nonempty first rest) as (Hstages & _ & _ & Htotal & _).
  cbv zeta in *. unfold Spec.stage_lists in Hstages.
  repeat match goal with
         | H : Forall _ (_ :: _) |- _ => apply Forall_cons_iff in H; destruct H as [? H]
         end.
  unfold Report.stage_lines.
  repeat match goal with
         | H : ?l <> nil |- context [DurationList.Summary ?l] =>
             let text := fresh "text" in
             let Heq := fresh "Heq" in
             destruct (Summary_some l H) as [text Heq]; rewrite Heq; cbn [mbind option_bind]
         end.
  eexists _, _. reflexivity.
Qed.

Lemma total_lines_some show_ratio (first : Frame) (rest : list Frame) (frameInterval : Z) :
  exists lines,
    Report.total_lines show_ratio (Report.tally first (first :: rest)) frameInterval
    = Some lines.
Proof.
  destruct (tally_nonempty first rest) as (_ & Hp & Hc & _ & He).
  cbv zeta in *. unfold Report.total_lines.
  destruct (Summary_some _ Hp) as [? ->].
  destruct (SummaryInFrameIntervals_some show_ratio _ frameInterval Hp) as [? ->].
  destruct (Summary_some _ Hc) as [? ->].
  destruct (SummaryInFrameIntervals_some show_ratio _ frameInterval Hc) as [? ->].
  destruct (Summary_some _ He) as [? ->].
  destruct (SummaryInFrameIntervals_some show_ratio _ frameInterval He) as [? ->].
  cbn [mbind option_bind]. eexists. reflexivity.
Qed.

Lemma frame_counts_spec (kind : ProducerType) (first : Frame) (rest : list Frame) (I : Z) :
  let frames := first :: rest in
  let ests := map Spec.estimated_application_time frames in
  let wires := map Spec.wire_time frames in
  exists est_min est_max wire_min wire_max,
    DurationList.Min ests = Some est_min /\ DurationList.Max ests = Some est_max
    /\ DurationList.Min wires = Some wire_min /\ DurationList.Max wires = Some wire_max
    /\ (In est_min ests /\ In est_max ests /\ In wire_min wires /\ In wire_max wires)
    /\ Report.frame_counts kind (Report.tally first frames) I
       = Some (u64 (Spec.latency_frames kind I (DurationList.Avg ests) (DurationList.Avg wires)),
               u64 (Spec.latency_frames kind I est_min wire_min),
               u64 (Spec.latency_frames kind I est_max wire_max)).
Proof.
  cbv zeta.
  destruct (tally_lists first (first :: rest)) as (_ & _ & _ & _ & He & Hw).
  cbv zeta in He, Hw.
  destruct (Min_spec (map Spec.estimated_application_time (first :: rest)))
    as (emin & Hemin & Hin1 & _); [apply map_cons_nonempty |].
  destruct (Max_spec (map Spec.estimated_application_time (first :: rest)))
    as (emax & Hemax & Hin2 & _); [apply map_cons_nonempty |].
  destruct (Min_spec (map Spec.wire_time (first :: rest)))
    as (wmin & Hwmin & Hin3 & _); [apply map_cons_nonempty |].
  destruct (Max_spec (map Spec.wire_time (first :: rest)))
    as (wmax & Hwmax & Hin4 & _); [apply map_cons_nonempty |].
  exists emin, emax, wmin, wmax. repeat (split; [assumption |]).
  split; [repeat split; assumption |].
  unfold Report.frame_counts. rewrite He, Hw, Hemin, Hemax.
  cbn [mbind option_bind].
  unfold Spec.latency_frames, Report.frames_rounded_up.
  destruct kind; cbn [mbind option_bind]; rewrite ?Hwmin, ?Hwmax; cbn [mbind option_bind];
    unfold u64; rewrite ?wrapu_add_l, ?wrapu_add_r; reflexivity.
Qed.

Lemma selectable_interval (fmt : TestFormat) :
  In fmt Formats.selectable ->
  u32 (1000000 / frameRate fmt) = 1000000 / frameRate fmt
  /\ 0 < 1000000 / frameRate fmt <= 1000000.
Proof.
  unfold Formats.selectable. simpl.
  intros [<-|[<-|[<-|[<-|[<-|[<-|[]]]]]]]; vm_compute; repeat split; congruence.
Qed.

(** The output of [PrintLatencyResults] on a non-empty frame list, part by
    part. *)
Lemma PrintLatencyResults_parts show_ratio exceeds show_rate
      (opts : ProgramOptions) (first : Frame) (rest : list Frame) :
  let frames := first :: rest in
  let t := Report.tally first frames in
  let I := u32 (1000000 / frameRate (format opts)) in
  exists processing stages totals avgFrames minFrames maxFrames,
    Report.frame_counts (producerType opts) t I = Some (avgFrames, minFrames, maxFrames)
    /\ Report.PrintLatencyResults show_ratio exceeds show_rate opts frames
       = Some (Report.skipped_warning t (u64 (Z.of_nat (List.length frames)))
               ++ (Log (ProducerColor ("CUDA Processing: " +++ processing)) :: stages)
               ++ totals
               ++ Report.final_lines t (Report.final_text avgFrames minFrames maxFrames I)
               ++ Report.vsync_lines exceeds show_rate t I).
Proof.
  cbv zeta.
  destruct (stage_lines_some first rest) as (processing & stages & Hstages).
  destruct (total_lines_some show_ratio first rest (u32 (1000000 / frameRate (format opts))))
    as (totals & Htotals).
  destruct (frame_counts_spec (producerType opts) first rest
                              (u32 (1000000 / frameRate (format opts))))
    as (emin & emax & wmin & wmax & _ & _ & _ & _ & _ & Hcounts).
  cbv zeta in Hcounts.
  eexists processing, stages, totals, _, _, _.
  split; [exact Hcounts |].
  unfold Report.PrintLatencyResults.
  rewrite Hstages. cbn [mbind option_bind].
  rewrite Htotals. cbn [mbind option_bind].
  rewrite Hcounts. cbn [mbind option_bind].
  reflexivity.
Qed.

Lemma exact_gaps_sum (numbers : list Z) :
  forall expected : Z,
    expected <= 2 ^ 32 ->
    Spec.ascending expected numbers ->
    0 <= Spec.sum (Spec.exact_gaps expected numbers)
    /\ Spec.sum (Spec.exact_gaps expected numbers) + expected <= 2 ^ 32.
Proof.
  unfold Spec.sum.
  induction numbers as [|n rest IH]; intros expected He Hasc;
    cbn [Spec.exact_gaps fold_right].
  - lia.
  - cbn [Spec.ascending] in Hasc. destruct Hasc as [Hn Hrest].
    specialize (IH (n + 1) ltac:(lia) Hrest). lia.
Qed.

(** On an ascending sequence the 32-bit gaps are the exact gaps. *)
Lemma gaps_exact (numbers : list Z) :
  forall expected expected' : Z,
    0 <= expected ->
    (numbers <> nil -> expected' = expected) ->
    Spec.ascending expected numbers ->
    Spec.gaps expected' numbers = Spec.exact_gaps expected numbers.
Proof.
  induction numbers as [|n rest IH]; intros expected expected' H0 Hsame Hasc.
  - reflexivity.
  - cbn [Spec.ascending] in Hasc. destruct Hasc as [Hn Hrest].
    rewrite (Hsame ltac:(discriminate)).
    cbn [Spec.gaps Spec.exact_gaps].
    rewrite u32_small by lia. f_equal.
    apply IH; [lia | | exact Hrest].
    intros Hne. destruct rest as [|n' rest']; [congruence |].
    cbn [Spec.ascending] in Hrest. apply u32_small. lia.
Qed.

(** C5.  In the report over a non-empty received list, the skipped-frame
    count is the sum of the gaps between each frame's number and the number
    expected for it (1 for the numbers 0, 1, 3, 4), the duplicate count is
    the sum of the frames' duplicate-receive counters, both as [size_t]
    values, which are the exact sums when the numbers ascend and the
    counters add up to less than 2^64; and the output starts with the
    warning exactly when one of the two counts is not zero; the summary
    tables follow. *)
Theorem skipped_and_duplicate_counts show_ratio exceeds show_rate
        (opts : ProgramOptions) (first : Frame) (rest : list Frame) :
  let frames := first :: rest in
  let skipped :=
    u64 (Spec.sum (Spec.gaps (FrameOps.Number first) (map FrameOps.Number frames))) in
  let duplicates := u64 (Spec.sum (map FrameOps.DuplicateReceives frames)) in
  Report.skippedFrames (Report.tally first frames) = skipped
  /\ Report.duplicateReceives (Report.tally first frames) = duplicates
  /\ Report.skippedFrames
       (Report.tally (FrameOps.make 0) (map FrameOps.make (0 :: 1 :: 3 :: 4 :: nil))) = 1
  /\ (0 <= FrameOps.Number first ->
      Spec.ascending (FrameOps.Number first) (map FrameOps.Number frames) ->
      skipped
      = Spec.sum (Spec.exact_gaps (FrameOps.Number first) (map FrameOps.Number frames)))
  /\ (Forall (fun f => 0 <= FrameOps.DuplicateReceives f) frames ->
      Spec.sum (map FrameOps.DuplicateReceives frames) < 2 ^ 64 ->
      duplicates = Spec.sum (map FrameOps.DuplicateReceives frames))
  /\ exists processing tables,
       Report.PrintLatencyResults show_ratio exceeds show_rate opts frames
       = Some ((if (skipped =? 0) && (duplicates =? 0)
                then nil
                else Warning ("Frames were skipped or repeated!" +++ endl
                              +++ "Frames received: "
                              +++ show (u64 (Z.of_nat (List.length frames))) +++ endl
                              +++ "Frames skipped:  " +++ show skipped +++ endl
                              +++ "Frames repeated: " +++ show duplicates +++ endl)
                     :: nil)
               ++ Log (ProducerColor ("CUDA Processing: " +++ processing)) :: tables).
Proof.
  cbv zeta.
  destruct (tally_counts first (first :: rest)) as [Hs Hd]. cbv zeta in Hs, Hd.
  split; [exact Hs |]. split; [exact Hd |]. split; [vm_compute; reflexivity |].
  split.
  { intros H0 Hasc.
    rewrite (gaps_exact _ _ (FrameOps.Number first) H0 (fun _ => eq_refl) Hasc).
    assert (FrameOps.Number first <= 2 ^ 32) as Hle
        by (cbn [map Spec.ascending] in Hasc; lia).
    destruct (exact_gaps_sum _ _ Hle Hasc) as [Hlow Hhigh].
    apply u64_small. lia. }
  split.
  { intros Hall Hsum. apply u64_small. split; [| exact Hsum].
    clear Hsum Hs Hd. unfold Spec.sum.
    induction Hall as [|f fs Hf _ IH]; cbn [map fold_right]; lia. }
  destruct (PrintLatencyResults_parts show_ratio exceeds show_rate opts first rest)
    as (processing & stages & totals & a & m & x & _ & Hout).
  cbv zeta in Hout.
  exists processing. eexists. rewrite Hout. f_equal.
  unfold Report.skipped_warning, Report.flagged. rewrite Hs, Hd.
  rewrite <- negb_andb.
  destruct ((_ =? 0) && (_ =? 0)); cbn [negb]; cbn [app]; reflexivity.
Qed.

Lemma quot_round_up_bounds (s I : Z) :
  0 <= s -> 0 < I ->
  0 <= Z.quot (s + I) I /\ Z.quot (s + I) I * I <= s + I.
Proof.
  intros Hs HI. rewrite Z.quot_div_nonneg by lia.
  pose proof (Z.mul_div_le (s + I) I HI).
  assert (0 <= (s + I) / I) by (apply Z.div_pos; lia).
  lia.
Qed.

Lemma member_le_sum (l : list Z) (x : Z) :
  Forall (fun d => 0 <= d) l -> In x l -> 0 <= x <= Spec.sum l.
Proof.
  unfold Spec.sum.
  induction 1 as [|y l Hy Hall IH]; cbn [fold_right In]; [tauto |].
  assert (0 <= fold_right Z.add 0 l).
  { clear IH. induction Hall; cbn [fold_right]; lia. }
  intros [<-|Hin]; [lia | specialize (IH Hin); lia].
Qed.

Lemma Avg_le_sum (l : DurationList.t) :
  l <> nil -> Forall (fun d => 0 <= d) l -> Spec.sum l < 2 ^ 62 ->
  0 <= DurationList.Avg l <= Spec.sum l.
Proof.
  intros Hne Hall Hsum.
  assert (Forall (fun d => 0 <= d < 2 ^ 63) l) as Hall'.
  { rewrite List.Forall_forall. intros d Hd.
    pose proof (member_le_sum l d Hall Hd). lia. }
  rewrite Avg_mean by (assumption || lia).
  assert (0 < Z.of_nat (List.length l)) as Hn by (destruct l; [congruence | simpl; lia]).
  destruct (sum_bounds l _ Hall') as [H0 _].
  unfold DurationList.t, Microseconds in *.
  rewrite Z.quot_div_nonneg by lia.
  split; [apply Z.div_pos; lia |].
  apply Z.div_le_upper_bound; nia.
Qed.

(** The frame count and its product with the frame interval do not wrap
    around when the statistics are non-negative and below 2^62. *)
Lemma latency_frames_exact (kind : ProducerType) (I s w : Z) :
  0 < I <= 1000000 -> 0 <= s < 2 ^ 62 -> 0 <= w < 2 ^ 62 ->
  u64 (Spec.latency_frames kind I s w) = Spec.latency_frames kind I s w
  /\ u64 (Spec.latency_frames kind I s w * I) = Spec.latency_frames kind I s w * I.
Proof.
  intros HI Hs Hw.
  destruct (quot_round_up_bounds s I) as [Hs0 Hs1]; [lia | lia |].
  destruct (quot_round_up_bounds w I) as [Hw0 Hw1]; [lia | lia |].
  assert (0 <= Spec.latency_frames kind I s w
          /\ Spec.latency_frames kind I s w * I <= s + w + 2 * I) as [H0 H1].
  { unfold Spec.latency_frames. destruct kind; nia. }
  split; apply u64_small; nia.
Qed.

Lemma app_split_at {A} (a b c d e : list A) (x : A) :
  a ++ b ++ c ++ (x :: d) ++ e = (a ++ b ++ c) ++ x :: d ++ e.
Proof. rewrite <- !app_assoc. reflexivity. Qed.

(** C1.  For a non-empty received list and a format that the options can
    select, with I = 1000000 / frame rate: the frame count printed for each
    of the average, minimum and maximum estimated application time s (the
    per-frame sum of the producer total and the consumer total) is
    (s + I) / I, truncated, plus 1, or plus (w + I) / I for the GStreamer
    producer, where w is the same statistic of the wire times; the
    microsecond value printed is that count times I.  The counts are
    [size_t] values, and they and the products are exact when the times are
    non-negative and add up to less than 2^62 microseconds.  The options
    that [ParseArguments] returns always hold such a format
    ([ParseArguments_format]). *)
Theorem final_estimated_latencies show_ratio exceeds show_rate
        (opts : ProgramOptions) (frames : list Frame) :
  frames <> nil ->
  In (format opts) Formats.selectable ->
  let I := 1000000 / frameRate (format opts) in
  let ests := map Spec.estimated_application_time frames in
  let wires := map Spec.wire_time frames in
  exists est_min est_max wire_min wire_max,
    DurationList.Min ests = Some est_min /\ DurationList.Max ests = Some est_max
    /\ DurationList.Min wires = Some wire_min /\ DurationList.Max wires = Some wire_max
    /\ let exact_avg :=
         Spec.latency_frames (producerType opts) I (DurationList.Avg ests) (DurationList.Avg wires) in
       let exact_min := Spec.latency_frames (producerType opts) I est_min wire_min in
       let exact_max := Spec.latency_frames (producerType opts) I est_max wire_max in
       let avgFrames := u64 exact_avg in
       let minFrames := u64 exact_min in
       let maxFrames := u64 exact_max in
       (exists before colour after,
           (colour = SuccessColor \/ colour = WarningColor)
           /\ Report.PrintLatencyResults show_ratio exceeds show_rate opts frames
              = Some (before
                      ++ Log (colour
                                ("Final Estimated Latencies (Processing + Vsync + Wire)" +++ endl
                                 +++ Report.rule +++ endl
                                 +++ "   Microseconds: "
                                 +++ "avg = " +++ setw 6 (show (u64 (avgFrames * I))) +++ ", "
                                 +++ "min = " +++ setw 6 (show (u64 (minFrames * I))) +++ ", "
                                 +++ "max = " +++ setw 6 (show (u64 (maxFrames * I))) +++ endl
                                 +++ "         Frames: "
                                 +++ "avg = " +++ setw 6 (show avgFrames) +++ ", "
                                 +++ "min = " +++ setw 6 (show minFrames) +++ ", "
                                 +++ "max = " +++ setw 6 (show maxFrames) +++ endl))
                      :: after))
       /\ (Forall (fun d => 0 <= d) ests -> Forall (fun d => 0 <= d) wires ->
           Spec.sum ests < 2 ^ 62 -> Spec.sum wires < 2 ^ 62 ->
           (avgFrames = exact_avg /\ u64 (avgFrames * I) = exact_avg * I)
           /\ (minFrames = exact_min /\ u64 (minFrames * I) = exact_min * I)
           /\ (maxFrames = exact_max /\ u64 (maxFrames * I) = exact_max * I)).
Proof.
  intros Hne Hsel. destruct frames as [|first rest]; [congruence |]. clear Hne.
  destruct (selectable_interval _ Hsel) as [HI Hrange].
  cbv zeta.
  destruct (frame_counts_spec (producerType opts) first rest
                              (1000000 / frameRate (format opts)))
    as (emin & emax & wmin & wmax & Hemin & Hemax & Hwmin & Hwmax & Hin & Hcounts).
  cbv zeta in *.
  exists emin, emax, wmin, wmax. repeat (split; [assumption |]).
  split.
  - destruct (PrintLatencyResults_parts show_ratio exceeds show_rate opts first rest)
      as (processing & stages & totals & a & m & x & Hc & Hout).
    cbv zeta in Hc, Hout. rewrite HI in Hc, Hout. rewrite Hcounts in Hc.
    injection Hc as <- <- <-.
    unfold Report.final_lines, Report.final_text in Hout.
    destruct (Report.flagged (Report.tally first (first :: rest))).
    + eexists _, WarningColor, _.
      split; [now right |]. rewrite Hout. f_equal. apply app_split_at.
    + eexists _, SuccessColor, _.
      split; [now left |]. rewrite Hout. f_equal. apply app_split_at.
  - intros Hests Hwires Hsume Hsumw.
    destruct Hin as (Hi1 & Hi2 & Hi3 & Hi4).
    pose proof (member_le_sum _ _ Hests Hi1).
    pose proof (member_le_sum _ _ Hests Hi2).
    pose proof (member_le_sum _ _ Hwires Hi3).
    pose proof (member_le_sum _ _ Hwires Hi4).
    pose proof (Avg_le_sum (map Spec.estimated_application_time (first :: rest))
                           (map_cons_nonempty _ _ _) Hests Hsume).
    pose proof (Avg_le_sum (map Spec.wire_time (first :: rest))
                           (map_cons_nonempty _ _ _) Hwires Hsumw).
    destruct (latency_frames_exact (producerType opts) (1000000 / frameRate (format opts))
                (DurationList.Avg (map Spec.estimated_application_time (first :: rest)))
                (DurationList.Avg (map Spec.wire_time (first :: rest))))
      as [Ha1 Ha2]; [lia | lia | lia |].
    destruct (latency_frames_exact (producerType opts) (1000000 / frameRate (format opts))
                emin wmin) as [Hm1 Hm2]; [lia | lia | lia |].
    destruct (latency_frames_exact (producerType opts) (1000000 / frameRate (format opts))
                emax wmax) as [Hx1 Hx2]; [lia | lia | lia |].
    rewrite Ha1, Hm1, Hx1. repeat split; assumption.
Qed.

Lemma final_estimated_latencies_witness :
  let frame :=
    mkFrame 7 8 8 120 0 0 82000 82000 2039000 16648000 33400000 34968000 34969000 0 in
  let opts := Options.with_producerType Options.defaults PRODUCER_GL in
  (frame :: nil <> nil)
  /\ In (format opts) Formats.selectable
  /\ exists out,
       Report.PrintLatencyResults (fun _ _ => "") (fun _ _ => false) (fun _ => "")
                                  opts (frame :: nil) = Some out.
Proof.
  cbv zeta.
  assert (mkFrame 7 8 8 120 0 0 82000 82000 2039000 16648000 33400000 34968000 34969000 0
          :: nil <> nil) as Hne by discriminate.
  assert (In (format (Options.with_producerType Options.defaults PRODUCER_GL))
             Formats.selectable) as Hsel by (vm_compute; tauto).
  split; [exact Hne |]. split; [exact Hsel |].
  destruct (final_estimated_latencies (fun _ _ => "") (fun _ _ => false) (fun _ => "")
              _ _ Hne Hsel)
    as (emin & emax & wmin & wmax & _ & _ & _ & _ & (before & colour & after & _ & Hout) & _).
  eexists. exact Hout.
Defined.

(** The figures of the documented sample run: an estimated application
    time of 3608 microseconds at 60 Hz gives 2 frames and 33332
    microseconds. *)
Example final_block_of_sample_run :
  exists out,
    Report.PrintLatencyResults (fun _ _ => "") (fun _ _ => false) (fun _ => "")
      (Options.with_producerType Options.defaults PRODUCER_GL)
      (mkFrame 7 8 8 120 0 0 82000 82000 2039000 16648000 33400000 34968000 34969000 0
       :: nil)
    = Some out
    /\ In (Log (SuccessColor
                  ("Final Estimated Latencies (Processing + Vsync + Wire)" +++ endl
                   +++ "=========================================================" +++ endl
                   +++ "   Microseconds: avg =  33332, min =  33332, max =  33332" +++ endl
                   +++ "         Frames: avg =      2, min =      2, max =      2" +++ endl)))
          out.
Proof.
  eexists. split; [vm_compute; reflexivity |].
  vm_compute. repeat (first [left; reflexivity | right]).
Qed.

(** ** The CSV export *)

Lemma csv_rows_nth (firstFrame : Z) (frames : list Frame) :
  forall (previous : TimePoint) (i : nat) (f : Frame),
    nth_error frames i = Some f ->
    nth_error (Report.csv_rows firstFrame previous frames) i
    = Some (Report.csv_row firstFrame
              (match i with
               | O => previous
               | S j => m_processingStart (nth j frames f)
               end) f).
Proof.
  induction frames as [|g frames IH]; intros previous i f Hi.
  - destruct i; discriminate.
  - destruct i as [|i]; cbn [nth_error Report.csv_rows] in *.
    + injection Hi as ->. reflexivity.
    + rewrite (IH (m_processingStart g) i f Hi).
      destruct i as [|i]; [reflexivity |].
      cbn [nth]. reflexivity.
Qed.

Lemma csv_rows_length (firstFrame : Z) (frames : list Frame) (previous : TimePoint) :
  List.length (Report.csv_rows firstFrame previous frames) = List.length frames.
Proof.
  revert previous. induction frames as [|g frames IH]; intros previous; cbn.
  - reflexivity.
  - rewrite IH. reflexivity.
Qed.

Lemma csv_row_fields (firstFrame : Z) (previous : TimePoint) (f : Frame) :
  Report.csv_row firstFrame previous f
  = join_commas
      (map show
           (u32 (FrameOps.Number f - firstFrame)
            :: u64 (FrameOps.DuplicateReceives f + 1)
            :: duration_cast (m_processingStart f)
            :: duration_cast (m_processingStart f - previous)
            :: Spec.stage_durations f)).
Proof. reflexivity. Qed.

Lemma WriteLatencyResults_nonempty (file_is_open : bool) (frames : list Frame) :
  Report.WriteLatencyResults file_is_open frames <> nil ->
  file_is_open = true /\ frames <> nil.
Proof.
  unfold Report.WriteLatencyResults.
  destruct frames as [|first rest]; [congruence |].
  destruct file_is_open; cbn [negb]; [intros _; split; [reflexivity | discriminate] | congruence].
Qed.

(** After the construction of the objects, lines reach the output file
    only through [WriteLatencyResults] on the received frames. *)
Lemma run_constructed_csv show_ratio exceeds show_rate
      (w : Main.World) (opts : ProgramOptions) (objects : list Main.Component)
      (consumer : option ConsumerType) (file_is_open : bool) (run : Main.Run)
      (lines : list string) :
  Main.run_constructed show_ratio exceeds show_rate w opts objects consumer file_is_open
  = Some run ->
  Main.csv run = Some lines ->
  lines <> nil ->
  file_is_open = true
  /\ exists frames, frames <> nil /\ lines = Report.WriteLatencyResults true frames.
Proof.
  unfold Main.run_constructed.
  intros Hrun Hcsv Hne.
  assert (forall status out objects',
             Some (Main.mkRun status out objects' (if file_is_open then Some nil else None))
             = Some run ->
             file_is_open = true
             /\ exists frames, frames <> nil /\ lines = Report.WriteLatencyResults true frames)
    as Hempty.
  { intros status out objects' H. injection H as <-. cbn [Main.csv] in Hcsv.
    destruct file_is_open; [injection Hcsv as <-; congruence | discriminate]. }
  destruct (negb (Main.producer_initializes w)); [eapply Hempty; exact Hrun |].
  destruct (negb (Main.producer_starts w)); [eapply Hempty; exact Hrun |].
  destruct consumer as [kind|]; [| eapply Hempty; exact Hrun].
  destruct (negb (Main.consumer_initializes w)); [eapply Hempty; exact Hrun |].
  destruct (negb (Main.consumer_starts w)); [eapply Hempty; exact Hrun |].
  destruct (Main.capture w kind opts) as [captured|];
    cbn [mbind option_bind] in Hrun; [| discriminate Hrun].
  destruct (negb (Consumer.result captured)); [eapply Hempty; exact Hrun |].
  destruct (Report.PrintLatencyResults show_ratio exceeds show_rate opts
              (Main.received (Consumer.final captured))) as [report|];
    cbn [mbind option_bind] in Hrun; [| discriminate Hrun].
  injection Hrun as <-. cbn [Main.csv] in Hcsv.
  destruct file_is_open; [| discriminate Hcsv].
  injection Hcsv as <-. split; [reflexivity |].
  exists (Main.received (Consumer.final captured)). split; [| reflexivity].
  apply WriteLatencyResults_nonempty in Hne. tauto.
Qed.

(** A run of [main] leaves lines in an output file only when the options
    name an output file and the consumer received frames. *)
Lemma main_csv (ENABLE_AJA : bool) show_ratio exceeds show_rate
      (w : Main.World) (argv : list string) (run : Main.Run) (lines : list string) :
  Main.main ENABLE_AJA show_ratio exceeds show_rate w argv = Some run ->
  Main.csv run = Some lines ->
  lines <> nil ->
  exists opts frames,
    Args.ParseArguments ENABLE_AJA argv Options.defaults = Args.Parsed opts
    /\ outputFilename opts <> ""
    /\ frames <> nil
    /\ lines = Report.WriteLatencyResults true frames.
Proof.
  unfold Main.main. intros Hrun Hcsv Hne.
  destruct (Args.ParseArguments ENABLE_AJA argv Options.defaults) as [opts|code out].
  2: { injection Hrun as <-. discriminate Hcsv. }
  exists opts.
  assert (forall objects consumer,
             (if 0 <? Z.of_nat (String.length (outputFilename opts))
              then if Main.output_opens w
                   then Main.run_constructed show_ratio exceeds show_rate w opts objects consumer true
                   else Some (Main.mkRun 1 (Error ("Could not open file for output: "
                                                   +++ outputFilename opts) :: nil)
                                         objects None)
              else Main.run_constructed show_ratio exceeds show_rate w opts objects consumer false)
             = Some run ->
             exists frames, outputFilename opts <> "" /\ frames <> nil
                            /\ lines = Report.WriteLatencyResults true frames) as Hfile.
  { intros objects consumer H.
    destruct (0 <? Z.of_nat (String.length (outputFilename opts))) eqn:Hname.
    - assert (outputFilename opts <> "") as Hnonempty.
      { intros Heq. rewrite Heq in Hname. discriminate Hname. }
      destruct (Main.output_opens w).
      + destruct (run_constructed_csv _ _ _ _ _ _ _ _ _ _ H Hcsv Hne) as (_ & frames & Hf & Hl).
        exists frames. auto.
      + injection H as <-. discriminate Hcsv.
    - destruct (run_constructed_csv _ _ _ _ _ _ _ _ _ _ H Hcsv Hne) as (Hopen & _).
      discriminate Hopen. }
  cut (exists frames, outputFilename opts <> "" /\ frames <> nil
                      /\ lines = Report.WriteLatencyResults true frames).
  { intros (frames & H1 & H2 & H3). exists frames. auto. }
  destruct (match producerType opts, consumerType opts with
            | PRODUCER_UNKNOWN, CONSUMER_UNKNOWN => 0 <? simulatedProcessing opts
            | _, _ => false
            end).
  { destruct (Main.RunSimulatedProcessing w (simulatedProcessing opts) (format opts))
      as [[code out]|]; cbn [mbind option_bind] in Hrun; [| discriminate Hrun].
    injection Hrun as <-. discriminate Hcsv. }
  destruct (producerType opts), (consumerType opts), ENABLE_AJA;
    first [ injection Hrun as <-; discriminate Hcsv
          | eapply Hfile; exact Hrun ].
Qed.

(** C7.  Lines are written to the CSV file only when the file is open,
    which [main] arranges only for a non-empty output path, and at least one
    frame was received.  The first line is the header; the row of the i-th
    frame holds its number minus the first frame's number, its
    duplicate-receive count plus 1, its processing-start timestamp in
    microseconds, the interval since the processing start of the previous
    row (0 for the first row) and its eight stage durations, which are the
    i-th samples of the eight per-stage statistics, in the same order.  The
    number difference is a [uint32_t] and the count a [size_t]; neither
    wraps for a frame numbered from the first frame's number on. *)
Theorem csv_export (first : Frame) (rest : list Frame) :
  let frames := first :: rest in
  (forall (file_is_open : bool) (received : list Frame),
      Report.WriteLatencyResults file_is_open received <> nil ->
      file_is_open = true /\ received <> nil)
  /\ (forall ENABLE_AJA show_ratio exceeds show_rate w argv run lines,
         Main.main ENABLE_AJA show_ratio exceeds show_rate w argv = Some run ->
         Main.csv run = Some lines ->
         lines <> nil ->
         exists opts received,
           Args.ParseArguments ENABLE_AJA argv Options.defaults = Args.Parsed opts
           /\ outputFilename opts <> ""
           /\ received <> nil
           /\ lines = Report.WriteLatencyResults true received)
  /\ (exists rows,
         Report.WriteLatencyResults true frames
         = "Frame,Count,Frame Start Timestamp,Frame Interval,Process,Render,Copy To SYS,Write to HW,VSync,Wire,Read from HW,Copy to GPU"
           :: rows
         /\ List.length rows = List.length frames
         /\ forall (i : nat) (f : Frame),
             nth_error frames i = Some f ->
             nth_error rows i
             = Some (join_commas
                       (map show
                            (u32 (FrameOps.Number f - FrameOps.Number first)
                             :: u64 (FrameOps.DuplicateReceives f + 1)
                             :: duration_cast (m_processingStart f)
                             :: match i with
                                | O => 0
                                | S j => duration_cast (m_processingStart f
                                                        - m_processingStart (nth j frames f))
                                end
                             :: Spec.stage_durations f))))
  /\ Spec.stage_lists (Report.tally first frames)
     = map (fun k => map (fun f => nth k (Spec.stage_durations f) 0) frames) (seq 0 8)
  /\ (forall f : Frame,
         0 <= FrameOps.Number first <= FrameOps.Number f ->
         FrameOps.Number f < 2 ^ 32 ->
         0 <= FrameOps.DuplicateReceives f < 2 ^ 64 - 1 ->
         u32 (FrameOps.Number f - FrameOps.Number first)
         = FrameOps.Number f - FrameOps.Number first
         /\ u64 (FrameOps.DuplicateReceives f + 1) = FrameOps.DuplicateReceives f + 1).
Proof.
  cbv zeta. split; [| split; [| split; [| split]]].
  5: { intros f Hn Hn' Hd. split; [apply u32_small | apply u64_small]; lia. }
  - intros file_is_open received. apply WriteLatencyResults_nonempty.
  - intros. eapply main_csv; eassumption.
  - exists (Report.csv_rows (FrameOps.Number first) (m_processingStart first) (first :: rest)).
    split; [reflexivity |]. split; [apply csv_rows_length |].
    intros i f Hi.
    rewrite (csv_rows_nth _ _ _ _ _ Hi), csv_row_fields.
    destruct i as [|i]; [| reflexivity].
    injection Hi as <-. rewrite !Z.sub_diag. reflexivity.
  - apply tally_lists.
Qed.

Example csv_of_two_frames :
  Report.WriteLatencyResults true
    (mkFrame 7 8 8 120 0 0 82000 82000 2039000 16648000 33400000 34968000 34969000 0
     :: mkFrame 9 8 8 152 16666000 16666000 16748000 16748000 18705000 33314000
                50066000 51634000 51635000 2
     :: nil)
  = "Frame,Count,Frame Start Timestamp,Frame Interval,Process,Render,Copy To SYS,Write to HW,VSync,Wire,Read from HW,Copy to GPU"
    :: "0,1,0,0,0,82,0,1957,14609,16752,1568,1"
    :: "2,3,16666,16666,0,82,0,1957,14609,16752,1568,1"
    :: nil.
Proof. vm_compute. reflexivity. Qed.

(** ** Argument parsing *)

(** Arguments that are parsed to the end do not change the way the
    arguments after them are read. *)
Lemma parse_app (ENABLE_AJA : bool) (more : list string) :
  forall (n : nat) (before : list string) (opts opts' : ProgramOptions),
    (List.length before <= n)%nat ->
    Args.parse ENABLE_AJA before opts = Args.Parsed opts' ->
    Args.parse ENABLE_AJA (before ++ more) opts = Args.parse ENABLE_AJA more opts'.
Proof.
  induction n as [|n IH]; intros before opts opts' Hlen H.
  - destruct before; [| simpl in Hlen; lia].
    injection H as <-. reflexivity.
  - destruct before as [|a rest]; [injection H as <-; reflexivity |].
    assert (forall rest' o, (List.length rest' <= List.length rest)%nat ->
                            Args.parse ENABLE_AJA rest' o = Args.Parsed opts' ->
                            Args.parse ENABLE_AJA (rest' ++ more) o
                            = Args.parse ENABLE_AJA more opts') as Hrec.
    { intros rest' o Hle. apply IH. simpl in Hlen. lia. }
    cbn [app]. cbn [Args.parse] in H |- *.
    repeat match type of H with
           | (if ?c then _ else _) = _ => destruct c
           | match ?r with nil => _ | _ :: _ => _ end = _ =>
               destruct r; [discriminate H |]; cbn [app]
           end;
      try discriminate H;
      apply Hrec; (exact H || (cbn [List.length]; lia)).
Qed.

(** The format of parsed options is the default or one that [-f] names. *)
Lemma parse_format_selectable (ENABLE_AJA : bool) :
  forall (n : nat) (args : list string) (opts opts' : ProgramOptions),
    (List.length args <= n)%nat ->
    In (format opts) Formats.selectable ->
    Args.parse ENABLE_AJA args opts = Args.Parsed opts' ->
    In (format opts') Formats.selectable.
Proof.
  induction n as [|n IH]; intros args opts opts' Hlen Hsel H.
  - destruct args; [| simpl in Hlen; lia]. injection H as <-. exact Hsel.
  - destruct args as [|a rest]; [injection H as <-; exact Hsel |].
    assert (forall rest' o, (List.length rest' <= List.length rest)%nat ->
                            In (format o) Formats.selectable ->
                            Args.parse ENABLE_AJA rest' o = Args.Parsed opts' ->
                            In (format opts') Formats.selectable) as Hrec.
    { intros rest' o Hle. apply IH. simpl in Hlen. lia. }
    cbn [Args.parse] in H.
    repeat match type of H with
           | (if ?c then _ else _) = _ => destruct c
           | match ?r with nil => _ | _ :: _ => _ end = _ =>
               destruct r; [discriminate H |]
           end;
      try discriminate H;
      (eapply Hrec; [| | exact H];
       [cbn [List.length]; lia
       | first [exact Hsel | cbn; tauto]]).
Qed.

Lemma ParseArguments_format (ENABLE_AJA : bool) (argv : list string) (opts : ProgramOptions) :
  Args.ParseArguments ENABLE_AJA argv Options.defaults = Args.Parsed opts ->
  In (format opts) Formats.selectable.
Proof.
  unfold Args.ParseArguments.
  apply (parse_format_selectable ENABLE_AJA (List.length (tl argv)) (tl argv));
    [lia | cbn; tauto].
Qed.

Lemma parse_missing_value (ENABLE_AJA : bool) (flag message : string) (opts : ProgramOptions) :
  In (flag, message) Spec.value_flags ->
  Args.parse ENABLE_AJA (flag :: nil) opts = Args.Exited 1 (Error message :: nil).
Proof.
  unfold Spec.value_flags. cbn [In].
  intros H.
  repeat (destruct H as [H|H]; [injection H as <- <-; reflexivity |]).
  destruct H.
Qed.

(** C8, as amended.  When the arguments before it are parsed to the end
    without an exit, a flag that takes a value and is the last argument
    makes the parser report the usage error of the missing value and exit
    with status 1, and [main] ends there, with no producer and no consumer
    constructed and no output file. *)
Theorem missing_value_is_usage_error (ENABLE_AJA : bool) show_ratio exceeds show_rate
        (w : Main.World) (program : string) (before : list string)
        (flag message : string) (opts : ProgramOptions) :
  In (flag, message) Spec.value_flags ->
  Args.parse ENABLE_AJA before Options.defaults = Args.Parsed opts ->
  Args.ParseArguments ENABLE_AJA (program :: before ++ flag :: nil) Options.defaults
  = Args.Exited 1 (Error message :: nil)
  /\ Main.main ENABLE_AJA show_ratio exceeds show_rate w (program :: before ++ flag :: nil)
     = Some (Main.mkRun 1 (Error message :: nil) nil None).
Proof.
  intros Hflag Hbefore.
  assert (Args.ParseArguments ENABLE_AJA (program :: before ++ flag :: nil) Options.defaults
          = Args.Exited 1 (Error message :: nil)) as Hparse.
  { unfold Args.ParseArguments. cbn [tl].
    rewrite (parse_app ENABLE_AJA (flag :: nil) (List.length before) before _ opts
                       (Nat.le_refl _) Hbefore).
    apply parse_missing_value. exact Hflag. }
  split; [exact Hparse |].
  unfold Main.main. rewrite Hparse. reflexivity.
Qed.

Lemma missing_value_is_usage_error_witness :
  In ("-n", "Missing value for -n (num frames) option.") Spec.value_flags
  /\ Args.parse false ("-p" :: "gl" :: "-c" :: "v4l2" :: nil) Options.defaults
     = Args.Parsed (Options.with_consumerType
                      (Options.with_producerType Options.defaults PRODUCER_GL) CONSUMER_V4L2)
  /\ Main.main false (fun _ _ => "") (fun _ _ => false) (fun _ => "") Spec.idle_world
               ("loopback-latency" :: "-p" :: "gl" :: "-c" :: "v4l2" :: "-n" :: nil)
     = Some (Main.mkRun 1 (Error "Missing value for -n (num frames) option." :: nil) nil None).
Proof.
  assert (In ("-n", "Missing value for -n (num frames) option.") Spec.value_flags) as Hflag
      by (vm_compute; tauto).
  assert (Args.parse false ("-p" :: "gl" :: "-c" :: "v4l2" :: nil) Options.defaults
          = Args.Parsed (Options.with_consumerType
                           (Options.with_producerType Options.defaults PRODUCER_GL)
                           CONSUMER_V4L2)) as Hbefore by reflexivity.
  split; [exact Hflag |]. split; [exact Hbefore |].
  exact (proj2 (missing_value_is_usage_error false (fun _ _ => "") (fun _ _ => false)
                  (fun _ => "") Spec.idle_world "loopback-latency"
                  ("-p" :: "gl" :: "-c" :: "v4l2" :: nil) "-n" _ _ Hflag Hbefore)).
Defined.

(** C8, the claim as stated fails when an argument before the flag ends
    the parsing or takes the flag as its value: after [-h] the program
    prints the usage and exits with status 0, and after [-o] the flag [-n]
    is the name of the output file, the parser returns normally, and with a
    producer selected [main] goes on to construct it. *)
Lemma last_flag_not_always_usage_error :
  Main.main false (fun _ _ => "") (fun _ _ => false) (fun _ => "") Spec.idle_world
            ("loopback-latency" :: "-h" :: "-n" :: nil)
  = Some (Main.mkRun 0 (LogUsage :: nil) nil None)
  /\ Args.ParseArguments false ("loopback-latency" :: "-p" :: "gl" :: "-c" :: "none"
                                :: "-o" :: "-n" :: nil) Options.defaults
     = Args.Parsed (Options.with_outputFilename
                      (Options.with_consumerType
                         (Options.with_producerType Options.defaults PRODUCER_GL)
                         CONSUMER_NONE) "-n")
  /\ (exists run,
         Main.main false (fun _ _ => "") (fun _ _ => false) (fun _ => "")
                   (Main.mkWorld true false (fun _ => (0, 0)) "" "" true true
                                 false false ∅ nil nil nil)
                   ("loopback-latency" :: "-p" :: "gl" :: "-c" :: "none"
                    :: "-o" :: "-n" :: nil)
         = Some run
         /\ Main.status run = 0
         /\ Main.constructed run = Main.ProducerObject PRODUCER_GL :: nil).
Proof.
  split; [reflexivity |]. split; [reflexivity |].
  eexists. split; [vm_compute; reflexivity |]. split; reflexivity.
Qed.

(** ** The capture loops *)

(** What [Receive] does with a resolved frame. *)
Lemma Receive_spec (st st' : Consumer.State) (p : nat) (t1 t2 t3 : TimePoint)
      (d : Consumer.Disposition) :
  Consumer.Receive st p t1 t2 t3 = Some (st', d) ->
  exists frame,
    Consumer.store st !! p = Some frame
    /\ ((d = Consumer.Duplicate p
         /\ (exists q back,
               last (Consumer.m_frames st) = Some q
               /\ Consumer.store st !! q = Some back
               /\ FrameOps.Number back = FrameOps.Number frame)
         /\ Consumer.m_frames st' = Consumer.m_frames st
         /\ Consumer.store st'
            = <[p := FrameOps.RecordDuplicateReceive frame]> (Consumer.store st))
        \/ (d = Consumer.Appended p
            /\ Consumer.m_frames st' = Consumer.m_frames st ++ p :: nil
            /\ Consumer.store st'
               = <[p := FrameOps.RecordCopiedToGPU
                          (FrameOps.RecordReadEnd
                             (FrameOps.RecordFrameReceived frame t1) t2) t3]>
                   (Consumer.store st))).
Proof.
  unfold Consumer.Receive.
  destruct (Consumer.store st !! p) as [frame|] eqn:Hp; [| discriminate].
  intros H. exists frame. split; [reflexivity |].
  destruct (last (Consumer.m_frames st)) as [q|] eqn:Hlast.
  - destruct (Consumer.store st !! q) as [back|] eqn:Hq.
    + destruct (FrameOps.Number back =? FrameOps.Number frame) eqn:Hsame.
      * injection H as <- <-. left. split; [reflexivity |]. split.
        -- exists q, back. apply Z.eqb_eq in Hsame. auto.
        -- split; reflexivity.
      * injection H as <- <-. right. repeat split.
    + injection H as <- <-. right. repeat split.
  - injection H as <- <-. right. repeat split.
Qed.


Lemma appended_app (a b : list Consumer.Disposition) :
  Spec.appended (a ++ b) = Spec.appended a ++ Spec.appended b.
Proof.
  induction a as [|d a IH]; [reflexivity |].
  destruct d; cbn; rewrite IH; reflexivity.
Qed.



Lemma u64_counter (x : Z) : 0 <= x < 2 ^ 31 -> u64 x = x.
Proof. intros H. apply u64_small. lia. Qed.















(** ** The solid colour kernel *)

Lemma lor_bound (n a b : Z) :
  0 <= n -> 0 <= a < 2 ^ n -> 0 <= b < 2 ^ n -> 0 <= Z.lor a b < 2 ^ n.
Proof.
  intros Hn Ha Hb. split.
  - apply Z.lor_nonneg. lia.
  - destruct (Z.eq_dec (Z.lor a b) 0) as [->|Hz]; [apply Z.pow_pos_nonneg; lia |].
    assert (0 < Z.lor a b) by (pose proof (proj2 (Z.lor_nonneg a b) ltac:(lia)); lia).
    apply Z.log2_lt_pow2; [lia |].
    rewrite Z.log2_lor by lia.
    destruct (Z.eq_dec a 0) as [->|]; destruct (Z.eq_dec b 0) as [->|].
    + change (Z.lor 0 0) with 0 in *. lia.
    + change (Z.log2 0) with 0. rewrite Z.max_r by apply Z.log2_nonneg.
      apply Z.log2_lt_pow2; lia.
    + change (Z.log2 0) with 0. rewrite Z.max_l by apply Z.log2_nonneg.
      apply Z.log2_lt_pow2; lia.
    + apply Z.max_lub_lt; apply Z.log2_lt_pow2; lia.
Qed.

Lemma abgr_packed (r g b : Z) :
  0 <= r < 256 -> 0 <= g < 256 -> 0 <= b < 256 ->
  Cuda.abgr r g b
  = Z.lor (Z.lor (Z.lor (Z.shiftl 0xFF 24) (Z.shiftl b 16)) (Z.shiftl g 8)) (Z.shiftl r 0).
Proof.
  intros Hr Hg Hb. unfold Cuda.abgr. apply u32_small.
  rewrite !Z.shiftl_mul_pow2 by lia.
  repeat apply lor_bound; lia.
Qed.

Lemma numBlocks_ceiling (N : Z) :
  0 <= N <= 2 ^ 31 ->
  Cuda.numBlocks N = (N + 1023) / 1024
  /\ Cuda.numBlocks N * 1024 - 1024 < N <= Cuda.numBlocks N * 1024.
Proof.
  intros H.
  assert (Cuda.numBlocks N = (N + 1023) / 1024) as ->.
  { unfold Cuda.numBlocks, Cuda.blockSize.
    rewrite (u64_small (N + 1024)) by lia.
    rewrite (u64_small (N + 1024 - 1)) by lia.
    replace (N + 1024 - 1) with (N + 1023) by lia.
    apply u32_small. split.
    - apply Z.div_pos; lia.
    - apply Z.div_lt_upper_bound; lia. }
  split; [reflexivity |].
  Z.div_mod_to_equations. lia.
Qed.

Lemma exit_after_stride (N T idx : Z) :
  0 <= N <= T -> T <= 2 ^ 31 -> 0 <= idx < T ->
  (u64 (s32 (idx + s32 (u32 T))) <? N) = false.
Proof.
  intros HN HT Hidx. apply Z.ltb_ge.
  unfold u64, s32, u32, wrapu, wraps.
  change (32 - 1) with 31.
  change (2 ^ 31) with 2147483648 in *. change (2 ^ 32) with 4294967296.
  change (2 ^ 64) with 18446744073709551616.
  Z.div_mod_to_equations. lia.
Qed.

(** One thread of the launch, for at most 2^31 elements: it writes its own
    element when it has one, and its loop ends after that. *)
Lemma WriteRGBA_thread (fuel : nat) (N b t v : Z) (mem : Cuda.Memory) :
  (0 < fuel)%nat -> 0 <= N <= 2 ^ 31 ->
  0 <= b < Cuda.numBlocks N -> 0 <= t < 1024 ->
  Cuda.WriteRGBA fuel (Cuda.numBlocks N) 1024 b t mem N v
  = Some (if b * 1024 + t <? N then Cuda.write mem (b * 1024 + t) v else mem).
Proof.
  intros Hfuel HN Hb Ht.
  destruct (numBlocks_ceiling N HN) as [_ Hceil].
  unfold Cuda.WriteRGBA.
  assert (s32 (u32 (u32 (b * 1024) + t)) = b * 1024 + t) as ->.
  { rewrite (u32_small (b * 1024)) by lia.
    rewrite u32_small by lia. apply s32_small. lia. }
  destruct fuel as [|fuel]; [lia |].
  cbn [Cuda.WriteRGBA_loop].
  rewrite (u64_small (b * 1024 + t)) by lia.
  destruct (Z.ltb_spec (b * 1024 + t) N) as [Hlt|Hge].
  - replace (1024 * Cuda.numBlocks N) with (Cuda.numBlocks N * 1024) by lia.
    destruct fuel as [|fuel]; cbn [Cuda.WriteRGBA_loop];
      rewrite (exit_after_stride N (Cuda.numBlocks N * 1024)) by lia; reflexivity.
  - destruct fuel; reflexivity.
Qed.

Lemma threads_in_range (nb bs : nat) :
  Forall (fun bt : Z * Z => 0 <= fst bt < Z.of_nat nb /\ 0 <= snd bt < Z.of_nat bs)
         (Cuda.threads nb bs).
Proof.
  unfold Cuda.threads. rewrite List.Forall_forall. intros [b t] Hin.
  apply in_flat_map in Hin. destruct Hin as (bn & Hbn & Hin).
  apply in_map_iff in Hin. destruct Hin as (tn & Heq & Htn).
  injection Heq as <- <-. apply in_seq in Hbn. apply in_seq in Htn. cbn. lia.
Qed.

Lemma threads_cover (nb bs : nat) (b t : Z) :
  0 <= b < Z.of_nat nb -> 0 <= t < Z.of_nat bs -> In (b, t) (Cuda.threads nb bs).
Proof.
  intros Hb Ht. unfold Cuda.threads. apply in_flat_map.
  exists (Z.to_nat b). split; [apply in_seq; lia |].
  apply in_map_iff. exists (Z.to_nat t). split; [| apply in_seq; lia].
  rewrite !Z2Nat.id by lia. reflexivity.
Qed.

(** The launch, for at most 2^31 elements, over any threads of the grid. *)
Lemma launch_writes (fuel : nat) (N v : Z) :
  (0 < fuel)%nat -> 0 <= N <= 2 ^ 31 ->
  forall (ts : list (Z * Z)) (mem : Cuda.Memory),
    Forall (fun bt : Z * Z => 0 <= fst bt < Cuda.numBlocks N /\ 0 <= snd bt < 1024) ts ->
    exists mem',
      Cuda.launch fuel (Cuda.numBlocks N) 1024 ts mem N v = Some mem'
      /\ (forall j, mem j = v -> mem' j = v)
      /\ (forall b t, In (b, t) ts -> b * 1024 + t < N -> mem' (b * 1024 + t) = v)
      /\ (forall j, ~ 0 <= j < N -> mem' j = mem j).
Proof.
  intros Hfuel HN.
  induction ts as [|[b t] ts IH]; intros mem Hall.
  - exists mem. cbn. repeat split; auto. intros b t [].
  - apply Forall_cons_iff in Hall. destruct Hall as [[Hb Ht] Hall]. cbn in Hb, Ht.
    cbn [Cuda.launch]. rewrite WriteRGBA_thread by assumption.
    set (mem1 := if b * 1024 + t <? N then Cuda.write mem (b * 1024 + t) v else mem).
    destruct (IH mem1 Hall) as (mem' & Hrun & Hkeep & Hwritten & Hout).
    assert (forall j, mem j = v -> mem1 j = v) as Hkeep1.
    { intros j Hj. subst mem1. destruct (b * 1024 + t <? N); [| exact Hj].
      unfold Cuda.write. destruct (j =? b * 1024 + t); [reflexivity | exact Hj]. }
    exists mem'. split; [exact Hrun |]. split; [| split].
    + intros j Hj. apply Hkeep, Hkeep1, Hj.
    + intros b' t' [Heq|Hin] Hlt.
      * injection Heq as <- <-. apply Hkeep. subst mem1.
        destruct (Z.ltb_spec (b * 1024 + t) N); [| lia].
        unfold Cuda.write. rewrite Z.eqb_refl. reflexivity.
      * apply Hwritten; assumption.
    + intros j Hj. rewrite (Hout j Hj). subst mem1.
      destruct (Z.ltb_spec (b * 1024 + t) N) as [Hlt|]; [| reflexivity].
      unfold Cuda.write. destruct (Z.eqb_spec j (b * 1024 + t)); [lia | reflexivity].
Qed.

(** C9, as amended.  For at most 2^31 elements and byte channels, the
    launch has blocks of 1024 threads, as many blocks as the ceiling of
    elementCount / 1024, and, with fuel for one iteration per thread, it
    completes and leaves the packed value
    (0xFF << 24) | (b << 16) | (g << 8) | r in each of the [elementCount]
    elements and the memory beyond them unchanged. *)
Theorem solid_color_write (fuel : nat) (mem : Cuda.Memory) (elementCount r g b : Z) :
  (0 < fuel)%nat ->
  0 <= elementCount <= 2 ^ 31 ->
  0 <= r < 256 -> 0 <= g < 256 -> 0 <= b < 256 ->
  Cuda.blockSize = 1024
  /\ Cuda.numBlocks elementCount = (elementCount + 1023) / 1024
  /\ Cuda.numBlocks elementCount * 1024 - 1024 < elementCount
     <= Cuda.numBlocks elementCount * 1024
  /\ Cuda.abgr r g b
     = Z.lor (Z.lor (Z.lor (Z.shiftl 0xFF 24) (Z.shiftl b 16)) (Z.shiftl g 8)) (Z.shiftl r 0)
  /\ exists mem',
      Cuda.CudaWriteRGBA fuel mem elementCount r g b = Some mem'
      /\ (forall i, 0 <= i < elementCount -> mem' i = Cuda.abgr r g b)
      /\ (forall i, ~ 0 <= i < elementCount -> mem' i = mem i).
Proof.
  intros Hfuel HN Hr Hg Hb.
  destruct (numBlocks_ceiling elementCount HN) as [Hnb Hceil].
  split; [reflexivity |]. split; [exact Hnb |]. split; [exact Hceil |].
  split; [apply abgr_packed; assumption |].
  unfold Cuda.CudaWriteRGBA. change Cuda.blockSize with 1024.
  assert (0 <= Cuda.numBlocks elementCount) as Hnb0 by lia.
  destruct (launch_writes fuel elementCount (Cuda.abgr r g b) Hfuel HN
              (Cuda.threads (Z.to_nat (Cuda.numBlocks elementCount)) (Z.to_nat 1024)) mem)
    as (mem' & Hrun & _ & Hwritten & Hout).
  { eapply List.Forall_impl; [| apply threads_in_range].
    intros [b' t'] H. cbn in *. rewrite Z2Nat.id in H by lia.
    change (Z.of_nat (Z.to_nat 1024)) with 1024 in H. exact H. }
  exists mem'. split; [exact Hrun |]. split; [| exact Hout].
  intros i Hi.
  replace i with (i / 1024 * 1024 + i mod 1024) by (Z.div_mod_to_equations; lia).
  apply Hwritten.
  - apply threads_cover.
    + rewrite Z2Nat.id by lia. Z.div_mod_to_equations. lia.
    + change (Z.of_nat (Z.to_nat 1024)) with 1024. apply Z.mod_pos_bound. lia.
  - Z.div_mod_to_equations. lia.
Qed.

Lemma solid_color_write_witness :
  ((0 < 1)%nat /\ 0 <= 3 <= 2 ^ 31 /\ 0 <= 8 < 256 /\ 0 <= 24 < 256 /\ 0 <= 40 < 256)
  /\ exists mem',
       Cuda.CudaWriteRGBA 1 (fun _ => 0) 3 8 24 40 = Some mem'
       /\ mem' 0 = Cuda.abgr 8 24 40
       /\ mem' 2 = Cuda.abgr 8 24 40
       /\ mem' 3 = 0.
Proof.
  split; [lia |].
  destruct (solid_color_write 1 (fun _ => 0) 3 8 24 40
              ltac:(lia) ltac:(lia) ltac:(lia) ltac:(lia) ltac:(lia))
    as (_ & _ & _ & _ & mem' & Hrun & Hin & Hout).
  exists mem'. split; [exact Hrun |].
  split; [apply Hin; lia |]. split; [apply Hin; lia |].
  apply (Hout 3). lia.
Defined.

Lemma s32_range (x : Z) : - 2 ^ 31 <= s32 x < 2 ^ 31.
Proof.
  unfold s32, wraps. change (32 - 1) with 31.
  pose proof (Z.mod_pos_bound (x + 2 ^ 31) (2 ^ 32) ltac:(lia)). lia.
Qed.

(** A thread writes only at indices that fit in its [int] counter. *)
Lemma loop_high_untouched (N v stride : Z) :
  forall (fuel : nat) (mem mem' : Cuda.Memory) (i : Z),
    - 2 ^ 31 <= i < 2 ^ 31 ->
    Cuda.WriteRGBA_loop fuel mem N v i stride = Some mem' ->
    forall j, 2 ^ 31 <= j -> mem' j = mem j.
Proof.
  induction fuel as [|fuel IH]; intros mem mem' i Hi Hrun j Hj;
    cbn [Cuda.WriteRGBA_loop] in Hrun;
    destruct (u64 i <? N); try discriminate Hrun;
    try (injection Hrun as <-; reflexivity).
  rewrite (IH _ _ _ (s32_range _) Hrun j Hj).
  unfold Cuda.write. destruct (Z.eqb_spec j i); [lia | reflexivity].
Qed.

Lemma third_exit (i : Z) :
  - 2 ^ 31 <= i < 2 ^ 31 ->
  u64 i < 2 ^ 31 + 1 ->
  u64 (s32 (i + -2147482624)) < 2 ^ 31 + 1 ->
  (u64 (s32 (s32 (i + -2147482624) + -2147482624)) <? 2 ^ 31 + 1) = false.
Proof.
  intros Hi H1 H2. apply Z.ltb_ge. revert H1 H2.
  unfold u64, s32, wrapu, wraps.
  change (32 - 1) with 31.
  change (2 ^ 31) with 2147483648 in *. change (2 ^ 32) with 4294967296.
  change (2 ^ 64) with 18446744073709551616.
  intros H1 H2. Z.div_mod_to_equations. lia.
Qed.

(** With 2^31 + 1 elements, every thread ends within two iterations. *)
Lemma loop_two_iterations (v : Z) (fuel : nat) (mem : Cuda.Memory) (i : Z) :
  - 2 ^ 31 <= i < 2 ^ 31 ->
  exists mem',
    Cuda.WriteRGBA_loop (S (S fuel)) mem (2 ^ 31 + 1) v i (-2147482624) = Some mem'.
Proof.
  intros Hi. cbn [Cuda.WriteRGBA_loop].
  destruct (Z.ltb_spec (u64 i) (2 ^ 31 + 1)) as [H1|_]; [| eexists; reflexivity].
  destruct (Z.ltb_spec (u64 (s32 (i + -2147482624))) (2 ^ 31 + 1)) as [H2|_];
    [| eexists; reflexivity].
  destruct fuel; cbn [Cuda.WriteRGBA_loop];
    rewrite (third_exit i Hi H1 H2); eexists; reflexivity.
Qed.

Lemma stride_beyond_int_range :
  s32 (u32 (1024 * Cuda.numBlocks (2 ^ 31 + 1))) = -2147482624.
Proof. vm_compute. reflexivity. Qed.

Lemma launch_beyond_int_range (v : Z) (fuel : nat) :
  forall (ts : list (Z * Z)) (mem : Cuda.Memory),
    exists mem',
      Cuda.launch (S (S fuel)) (Cuda.numBlocks (2 ^ 31 + 1)) 1024 ts mem (2 ^ 31 + 1) v
      = Some mem'
      /\ mem' (2 ^ 31) = mem (2 ^ 31).
Proof.
  induction ts as [|[b t] ts IH]; intros mem.
  - exists mem. split; reflexivity.
  - cbn [Cuda.launch]. unfold Cuda.WriteRGBA.
    rewrite stride_beyond_int_range.
    destruct (loop_two_iterations v fuel mem (s32 (u32 (u32 (b * 1024) + t)))
                                  (s32_range _)) as [mem1 Hthread].
    rewrite Hthread.
    destruct (IH mem1) as (mem' & Hrun & Hsame).
    exists mem'. split; [exact Hrun |].
    rewrite Hsame.
    apply (loop_high_untouched _ _ _ _ _ _ _ (s32_range _) Hthread). lia.
Qed.

(** C9, the claim as stated fails beyond the range of the [int] index of
    the kernel: with 2^31 + 1 elements the launch completes, and the element
    of index 2^31 still holds its old value 0, not the packed value. *)
Lemma solid_color_write_beyond_int_range :
  exists mem',
    Cuda.CudaWriteRGBA 2 (fun _ => 0) (2 ^ 31 + 1) 0 0 0 = Some mem'
    /\ 0 <= 2 ^ 31 < 2 ^ 31 + 1
    /\ mem' (2 ^ 31) = 0
    /\ Cuda.abgr 0 0 0 = 4278190080.
Proof.
  unfold Cuda.CudaWriteRGBA. change Cuda.blockSize with 1024.
  destruct (launch_beyond_int_range (Cuda.abgr 0 0 0) 0
              (Cuda.threads (Z.to_nat (Cuda.numBlocks (2 ^ 31 + 1))) (Z.to_nat 1024))
              (fun _ => 0)) as (mem' & Hrun & Hsame).
  exists mem'. split; [exact Hrun |]. split; [lia |]. split; [exact Hsame |].
  reflexivity.
Qed.

(* ===================================================================== *)
(** * Further properties of the sources *)
(* ===================================================================== *)

(** ** Numbers on the command line *)

(** [String.append] is opaque to simplification: its two equations. *)
Ltac change_append :=
  match goal with
  | |- context [String ?c ?s +++ ?r] => change (String c s +++ r) with (String c (s +++ r))
  | |- context [EmptyString +++ ?r] => change (EmptyString +++ r) with r
  end.

Lemma digits_of_uint_acc (u : Decimal.uint) (rest : string) :
  Notions.ends_number rest ->
  forall acc : positive,
    Libc.digits (NilEmpty.string_of_uint u +++ rest) (Z.pos acc)
    = Z.pos (Pos.of_uint_acc u acc).
Proof.
  intros Hrest.
  induction u; intros acc; cbn [NilEmpty.string_of_uint Pos.of_uint_acc];
    repeat change_append; cbn [Libc.digits].
  { destruct rest as [|c rest]; [reflexivity |].
    cbn [Notions.ends_number] in Hrest. cbn [Libc.digits]. rewrite Hrest. reflexivity. }
  all: match goal with
       | |- context [Libc.digit_of ?c] =>
           let d := eval vm_compute in (Libc.digit_of c) in
           change (Libc.digit_of c) with d
       end;
    cbv iota beta; rewrite <- IHu; f_equal; lia.
Qed.

Lemma digits_of_uint (u : Decimal.uint) (rest : string) :
  Notions.ends_number rest ->
  Libc.digits (NilEmpty.string_of_uint u +++ rest) 0 = Z.of_N (Pos.of_uint u).
Proof.
  intros Hrest.
  induction u; cbn [NilEmpty.string_of_uint Pos.of_uint];
    repeat change_append; cbn [Libc.digits].
  { destruct rest as [|c rest]; [reflexivity |].
    cbn [Notions.ends_number] in Hrest. cbn [Libc.digits]. rewrite Hrest. reflexivity. }
  all: match goal with
       | |- context [Libc.digit_of ?c] =>
           let d := eval vm_compute in (Libc.digit_of c) in
           change (Libc.digit_of c) with d
       end;
    cbv iota beta;
    match goal with
    | |- Libc.digits ?s ?a = _ => let a' := eval vm_compute in a in change a with a'
    end;
    first [ exact IHu | rewrite digits_of_uint_acc by exact Hrest; reflexivity ].
Qed.

(** The decimal text of a number starts with a digit. *)
Lemma starts_with_digit (u : Decimal.uint) :
  u <> Decimal.Nil ->
  exists c r, NilEmpty.string_of_uint u = String c r
              /\ Libc.isspace c = false /\ c <> "-"%char /\ c <> "+"%char.
Proof.
  destruct u; intros H; [congruence | ..];
    cbn [NilEmpty.string_of_uint]; eexists _, _; (split; [reflexivity |]);
    (split; [reflexivity |]); split; discriminate.
Qed.

Lemma strtol_unsigned (u : Decimal.uint) (rest : string) :
  u <> Decimal.Nil ->
  Notions.ends_number rest ->
  Libc.strtol (NilEmpty.string_of_uint u +++ rest)
  = Notions.clamp_long (Z.of_N (Pos.of_uint u)).
Proof.
  intros H Hrest. destruct (starts_with_digit u H) as (c & r & Heq & Hsp & Hm & Hp).
  unfold Libc.strtol, Notions.clamp_long. rewrite <- (digits_of_uint u rest Hrest). rewrite Heq.
  change_append. cbn [Libc.skip_spaces]. rewrite Hsp.
  destruct c as [b0 b1 b2 b3 b4 b5 b6 b7].
  destruct b0, b1, b2, b3, b4, b5, b6, b7; try reflexivity; congruence.
Qed.

Lemma show_positive (p : positive) :
  show (Z.pos p) = NilEmpty.string_of_uint (Pos.to_uint p)
  /\ show (Z.neg p) = String "-" (NilEmpty.string_of_uint (Pos.to_uint p)).
Proof.
  pose proof (Unsigned.to_uint_nonnil p) as Hn.
  unfold show. cbn [Z.to_int NilZero.string_of_int]. unfold NilZero.string_of_uint.
  destruct (Pos.to_uint p); [congruence | split; reflexivity ..].
Qed.

(** [strtol] reads back the decimal text that [operator<<] writes for an
    integer, whatever follows the digits, and brings the value into the
    range of [long]. *)
Lemma strtol_show (z : Z) (rest : string) :
  Notions.ends_number rest ->
  Libc.strtol (show z +++ rest) = Notions.clamp_long z.
Proof.
  intros Hrest. destruct z as [|p|p].
  - change (show 0) with (NilEmpty.string_of_uint (Decimal.D0 Decimal.Nil)).
    rewrite strtol_unsigned by (discriminate || exact Hrest). reflexivity.
  - rewrite (proj1 (show_positive p)).
    rewrite strtol_unsigned by (apply Unsigned.to_uint_nonnil || exact Hrest).
    rewrite DecimalPos.Unsigned.of_to. reflexivity.
  - rewrite (proj2 (show_positive p)).
    unfold Libc.strtol, Notions.clamp_long. change_append. cbn [Libc.skip_spaces].
    change (Libc.isspace "-") with false. cbv iota.
    rewrite digits_of_uint by exact Hrest.
    rewrite DecimalPos.Unsigned.of_to. reflexivity.
Qed.

Lemma append_empty (s : string) : s +++ "" = s.
Proof.
  induction s as [|c s IH]; [reflexivity |].
  change (String c s +++ "") with (String c (s +++ "")). rewrite IH. reflexivity.
Qed.

(** ** Argument parsing *)

Lemma parse_composes (ENABLE_AJA : bool) (before more : list string)
      (opts opts' : ProgramOptions) :
  Args.parse ENABLE_AJA before opts = Args.Parsed opts' ->
  Args.parse ENABLE_AJA (before ++ more) opts = Args.parse ENABLE_AJA more opts'.
Proof.
  intros H.
  exact (parse_app ENABLE_AJA more (List.length before) before opts opts' (Nat.le_refl _) H).
Qed.

Lemma u64_clamp_long (k : Z) :
  (0 <= k <= LONG_MAX -> u64 (Notions.clamp_long k) = k)
  /\ (LONG_MIN <= k < 0 -> u64 (Notions.clamp_long k) = 2 ^ 64 + k)
  /\ (LONG_MAX < k -> u64 (Notions.clamp_long k) = LONG_MAX)
  /\ (k < LONG_MIN -> u64 (Notions.clamp_long k) = 2 ^ 63).
Proof.
  unfold Notions.clamp_long, LONG_MAX, LONG_MIN, u64, wrapu.
  change (2 ^ 63) with 9223372036854775808.
  change (2 ^ 64) with 18446744073709551616.
  repeat split; intros H.
  - rewrite Z.min_r, Z.max_r by lia. apply Z.mod_small. lia.
  - rewrite Z.min_r, Z.max_r by lia.
    rewrite <- (Z.mod_add k 1) by lia. rewrite Z.mod_small by lia. lia.
  - rewrite Z.min_l, Z.max_r by lia. apply Z.mod_small. lia.
  - rewrite Z.min_r, Z.max_l by lia. reflexivity.
Qed.

(** X1.  A numeric option is read with [strtol]: when the value is the
    decimal text of an integer k, followed by nothing or by text that
    starts with a character other than a digit, [-n], [-w], [-s] and
    [-p.time] store k brought into the range of [long] and converted to
    [size_t], so k itself for 0 <= k <= LONG_MAX and 2^64 + k for a negative
    k; [-p.rdma] and [-c.rdma] store whether k is not zero. *)
Theorem numeric_options_read_decimal_text (ENABLE_AJA : bool) (before : list string)
        (opts0 opts : ProgramOptions) (k : Z) (rest : string) :
  Args.parse ENABLE_AJA before opts0 = Args.Parsed opts ->
  Notions.ends_number rest ->
  let value := show k +++ rest in
  let n := u64 (Notions.clamp_long k) in
  Args.parse ENABLE_AJA (before ++ "-n" :: value :: nil) opts0
  = Args.Parsed (Options.with_numFrames opts n)
  /\ Args.parse ENABLE_AJA (before ++ "-w" :: value :: nil) opts0
     = Args.Parsed (Options.with_warmupFrames opts n)
  /\ Args.parse ENABLE_AJA (before ++ "-s" :: value :: nil) opts0
     = Args.Parsed (Options.with_simulatedProcessing opts n)
  /\ Args.parse ENABLE_AJA (before ++ "-p.time" :: value :: nil) opts0
     = Args.Parsed (Options.with_producerTime opts n)
  /\ Args.parse ENABLE_AJA (before ++ "-p.rdma" :: value :: nil) opts0
     = Args.Parsed (Options.with_producerRDMA opts (negb (k =? 0)))
  /\ Args.parse ENABLE_AJA (before ++ "-c.rdma" :: value :: nil) opts0
     = Args.Parsed (Options.with_consumerRDMA opts (negb (k =? 0)))
  /\ (0 <= k <= LONG_MAX -> n = k)
  /\ (LONG_MIN <= k < 0 -> n = 2 ^ 64 + k)
  /\ (LONG_MAX < k -> n = LONG_MAX).
Proof.
  intros Hbefore Hrest. cbv zeta.
  assert (negb (Notions.clamp_long k =? 0) = negb (k =? 0)) as Hzero.
  { f_equal. unfold Notions.clamp_long, LONG_MAX, LONG_MIN.
    change (2 ^ 63) with 9223372036854775808.
    destruct (Z.eqb_spec k 0) as [->|Hk]; [reflexivity |].
    apply Z.eqb_neq. lia. }
  rewrite !(parse_composes ENABLE_AJA before _ opts0 opts Hbefore).
  cbn [Args.parse]. rewrite !(strtol_show k rest Hrest), Hzero.
  destruct (u64_clamp_long k) as (H1 & H2 & H3 & _).
  repeat (split; [reflexivity |]).
  split; [exact H1 |]. split; [exact H2 | exact H3].
Qed.

Lemma numeric_options_read_decimal_text_witness :
  Args.parse false ("-p" :: "gl" :: nil) Options.defaults
  = Args.Parsed (Options.with_producerType Options.defaults PRODUCER_GL)
  /\ Notions.ends_number "frames"
  /\ Args.parse false ("-p" :: "gl" :: "-n" :: "-3frames" :: nil) Options.defaults
     = Args.Parsed (Options.with_numFrames
                      (Options.with_producerType Options.defaults PRODUCER_GL)
                      18446744073709551613).
Proof.
  assert (Args.parse false ("-p" :: "gl" :: nil) Options.defaults
          = Args.Parsed (Options.with_producerType Options.defaults PRODUCER_GL)) as Hbefore
      by reflexivity.
  assert (Notions.ends_number "frames") as Hrest by reflexivity.
  split; [exact Hbefore |]. split; [exact Hrest |].
  exact (proj1 (numeric_options_read_decimal_text false ("-p" :: "gl" :: nil)
                  Options.defaults _ (-3) "frames" Hbefore Hrest)).
Defined.

Lemma strtol_without_digits (value : string) :
  (value = ""
   \/ exists c s, value = String c s /\ Libc.isspace c = false
                  /\ Libc.digit_of c = None /\ c <> "-"%char /\ c <> "+"%char) ->
  Libc.strtol value = 0.
Proof.
  intros [->|(c & s & -> & Hsp & Hd & Hm & Hp)]; [reflexivity |].
  unfold Libc.strtol. cbn [Libc.skip_spaces]. rewrite Hsp.
  assert (Libc.digits (String c s) 0 = 0) as Hdigits by (cbn [Libc.digits]; rewrite Hd; reflexivity).
  destruct c as [b0 b1 b2 b3 b4 b5 b6 b7].
  destruct b0, b1, b2, b3, b4, b5, b6, b7; try congruence; rewrite Hdigits; reflexivity.
Qed.

(** X2.  The value of a numeric option is never rejected: a value that is
    empty, or that starts with a character that is neither white space, a
    sign nor a digit, is read as 0, so that [-n], [-w], [-s] and [-p.time]
    store 0 and [-p.rdma] and [-c.rdma] store false, without any error. *)
Theorem non_numeric_value_reads_as_zero (ENABLE_AJA : bool) (before : list string)
        (opts0 opts : ProgramOptions) (value : string) :
  Args.parse ENABLE_AJA before opts0 = Args.Parsed opts ->
  (value = ""
   \/ exists c s, value = String c s /\ Libc.isspace c = false
                  /\ Libc.digit_of c = None /\ c <> "-"%char /\ c <> "+"%char) ->
  Args.parse ENABLE_AJA (before ++ "-n" :: value :: nil) opts0
  = Args.Parsed (Options.with_numFrames opts 0)
  /\ Args.parse ENABLE_AJA (before ++ "-w" :: value :: nil) opts0
     = Args.Parsed (Options.with_warmupFrames opts 0)
  /\ Args.parse ENABLE_AJA (before ++ "-s" :: value :: nil) opts0
     = Args.Parsed (Options.with_simulatedProcessing opts 0)
  /\ Args.parse ENABLE_AJA (before ++ "-p.time" :: value :: nil) opts0
     = Args.Parsed (Options.with_producerTime opts 0)
  /\ Args.parse ENABLE_AJA (before ++ "-p.rdma" :: value :: nil) opts0
     = Args.Parsed (Options.with_producerRDMA opts false)
  /\ Args.parse ENABLE_AJA (before ++ "-c.rdma" :: value :: nil) opts0
     = Args.Parsed (Options.with_consumerRDMA opts false).
Proof.
  intros Hbefore Hvalue.
  rewrite !(parse_composes ENABLE_AJA before _ opts0 opts Hbefore).
  cbn [Args.parse]. rewrite !(strtol_without_digits value Hvalue).
  repeat split.
Qed.

Lemma non_numeric_value_reads_as_zero_witness :
  Args.parse true nil Options.defaults = Args.Parsed Options.defaults
  /\ Args.parse true ("-n" :: "many" :: nil) Options.defaults
     = Args.Parsed (Options.with_numFrames Options.defaults 0).
Proof.
  assert (Args.parse true nil Options.defaults = Args.Parsed Options.defaults) as Hbefore
      by reflexivity.
  split; [exact Hbefore |].
  refine (proj1 (non_numeric_value_reads_as_zero true nil Options.defaults _ "many" Hbefore _)).
  right. exists "m"%char, "any". repeat split; discriminate.
Defined.

Lemma parse_unrecognized (ENABLE_AJA : bool) (a : string) (rest : list string)
      (opts : ProgramOptions) :
  ~ In a Notions.recognized ->
  Args.parse ENABLE_AJA (a :: rest) opts = Args.parse ENABLE_AJA rest opts.
Proof.
  intros Hnot. unfold Notions.recognized in Hnot. cbn [In] in Hnot.
  cbn [Args.parse].
  repeat match goal with
         | |- context [(a =? ?s)%string] =>
             replace (a =? s)%string with false
               by (symmetry; apply String.eqb_neq; intros ->; tauto)
         end.
  reflexivity.
Qed.

(** X3.  An argument that is none of the texts the parser compares with
    is skipped without any effect and without an error, wherever it stands
    after arguments that are parsed to their end. *)
Theorem unrecognized_arguments_are_skipped (ENABLE_AJA : bool)
        (before after : list string) (a : string) (opts0 opts : ProgramOptions) :
  ~ In a Notions.recognized ->
  Args.parse ENABLE_AJA before opts0 = Args.Parsed opts ->
  Args.parse ENABLE_AJA (before ++ a :: after) opts0
  = Args.parse ENABLE_AJA (before ++ after) opts0.
Proof.
  intros Hnot Hbefore.
  rewrite !(parse_composes ENABLE_AJA before _ opts0 opts Hbefore).
  apply parse_unrecognized. exact Hnot.
Qed.

Lemma unrecognized_arguments_are_skipped_witness :
  ~ In "--verbose" Notions.recognized
  /\ Args.parse false ("-c" :: "none" :: nil) Options.defaults
     = Args.Parsed (Options.with_consumerType Options.defaults CONSUMER_NONE)
  /\ Args.parse false ("-c" :: "none" :: "--verbose" :: "-p" :: "gl" :: nil) Options.defaults
     = Args.parse false ("-c" :: "none" :: "-p" :: "gl" :: nil) Options.defaults.
Proof.
  assert (~ In "--verbose" Notions.recognized) as Hnot.
  { unfold Notions.recognized. cbn [In]. intros H.
    repeat (destruct H as [H|H]; [discriminate H |]). exact H. }
  assert (Args.parse false ("-c" :: "none" :: nil) Options.defaults
          = Args.Parsed (Options.with_consumerType Options.defaults CONSUMER_NONE)) as Hbefore
      by reflexivity.
  split; [exact Hnot |]. split; [exact Hbefore |].
  exact (unrecognized_arguments_are_skipped false ("-c" :: "none" :: nil)
           ("-p" :: "gl" :: nil) "--verbose" Options.defaults _ Hnot Hbefore).
Defined.

Lemma parse_exit (ENABLE_AJA : bool) :
  forall (n : nat) (args : list string) (opts : ProgramOptions)
         (status : Z) (console : list Output),
    (List.length args <= n)%nat ->
    Args.parse ENABLE_AJA args opts = Args.Exited status console ->
    (status = 0 /\ console = LogUsage :: nil)
    \/ (status = 1 /\ exists x, console = Error x :: nil).
Proof.
  induction n as [|n IH]; intros args opts status console Hlen H.
  - destruct args; [discriminate H | simpl in Hlen; lia].
  - destruct args as [|a rest]; [discriminate H |].
    assert (forall rest' o, (List.length rest' <= List.length rest)%nat ->
                            Args.parse ENABLE_AJA rest' o = Args.Exited status console ->
                            (status = 0 /\ console = LogUsage :: nil)
                            \/ (status = 1 /\ exists x, console = Error x :: nil)) as Hrec.
    { intros rest' o Hle. apply IH. simpl in Hlen. lia. }
    cbn [Args.parse] in H. unfold Args.USAGE_ERROR in H.
    repeat match type of H with
           | (if ?c then _ else _) = _ => destruct c
           | match ?r with nil => _ | _ :: _ => _ end = _ => destruct r
           end;
      first [ injection H as <- <-; first [ left; split; reflexivity
                                          | right; split; [reflexivity | eexists; reflexivity] ]
            | eapply Hrec; [| exact H]; cbn [List.length]; lia ].
Qed.

(** X4.  [ParseArguments] ends the program in two ways only: with status 0
    after printing the usage, for [-h] or [--help], or with status 1 after
    exactly one error message. *)
Theorem parse_exits_with_usage_or_one_error (ENABLE_AJA : bool) (argv : list string)
        (opts : ProgramOptions) (status : Z) (console : list Output) :
  Args.ParseArguments ENABLE_AJA argv opts = Args.Exited status console ->
  (status = 0 /\ console = LogUsage :: nil)
  \/ (status = 1 /\ exists x, console = Error x :: nil).
Proof.
  unfold Args.ParseArguments.
  apply (parse_exit ENABLE_AJA (List.length (tl argv))). lia.
Qed.

Lemma parse_exits_with_usage_or_one_error_witness :
  Args.ParseArguments false ("loopback-latency" :: "-p" :: "aja" :: nil) Options.defaults
  = Args.Exited 1 (Error "AJA producer not supported (requires NTV2_SDK build option)." :: nil)
  /\ ((1 = 0 /\ Error "AJA producer not supported (requires NTV2_SDK build option)." :: nil
                = LogUsage :: nil)
      \/ (1 = 1 /\ exists x,
             Error "AJA producer not supported (requires NTV2_SDK build option)." :: nil
             = Error x :: nil)).
Proof.
  assert (Args.ParseArguments false ("loopback-latency" :: "-p" :: "aja" :: nil) Options.defaults
          = Args.Exited 1 (Error "AJA producer not supported (requires NTV2_SDK build option)."
                           :: nil)) as H by reflexivity.
  split; [exact H |].
  exact (parse_exits_with_usage_or_one_error false _ _ _ _ H).
Defined.

(** ** The entry point *)

(** The ways in which a run of [main] ends. *)
Lemma main_cases (ENABLE_AJA : bool) show_ratio exceeds show_rate
      (w : Main.World) (argv : list string) (P : Main.Run -> Prop) :
  (forall code out,
      Args.ParseArguments ENABLE_AJA argv Options.defaults = Args.Exited code out ->
      P (Main.mkRun code out nil None)) ->
  (forall opts code out,
      Args.ParseArguments ENABLE_AJA argv Options.defaults = Args.Parsed opts ->
      Notions.standalone opts ->
      Main.RunSimulatedProcessing w (simulatedProcessing opts) (format opts) = Some (code, out) ->
      P (Main.mkRun code out nil None)) ->
  (forall opts,
      Args.ParseArguments ENABLE_AJA argv Options.defaults = Args.Parsed opts ->
      ~ Notions.standalone opts ->
      ~ Notions.producer_built ENABLE_AJA (producerType opts) ->
      P (Main.mkRun 1 (LogUsage :: Error "Missing required producer (-p) argument." :: nil)
                    nil None)) ->
  (forall opts,
      Args.ParseArguments ENABLE_AJA argv Options.defaults = Args.Parsed opts ->
      Notions.producer_built ENABLE_AJA (producerType opts) ->
      ~ Notions.consumer_chosen ENABLE_AJA (consumerType opts) ->
      P (Main.mkRun 1 (LogUsage :: Error "Missing required consumer (-c) argument." :: nil)
                    (Main.ProducerObject (producerType opts) :: nil) None)) ->
  (forall opts,
      Args.ParseArguments ENABLE_AJA argv Options.defaults = Args.Parsed opts ->
      Notions.producer_built ENABLE_AJA (producerType opts) ->
      Notions.consumer_chosen ENABLE_AJA (consumerType opts) ->
      outputFilename opts <> "" ->
      Main.output_opens w = false ->
      P (Main.mkRun 1 (Error ("Could not open file for output: " +++ outputFilename opts) :: nil)
                    (Notions.objects_of opts) None)) ->
  (forall opts file_is_open run,
      Args.ParseArguments ENABLE_AJA argv Options.defaults = Args.Parsed opts ->
      Notions.producer_built ENABLE_AJA (producerType opts) ->
      Notions.consumer_chosen ENABLE_AJA (consumerType opts) ->
      (file_is_open = true <-> outputFilename opts <> "") ->
      (file_is_open = true -> Main.output_opens w = true) ->
      Main.run_constructed show_ratio exceeds show_rate w opts (Notions.objects_of opts)
                           (Notions.consumer_of opts) file_is_open = Some run ->
      P run) ->
  forall run,
    Main.main ENABLE_AJA show_ratio exceeds show_rate w argv = Some run -> P run.
Proof.
  intros Hexit Hsim Hprod Hcons Hfile Hrun run Hmain.
  unfold Main.main in Hmain.
  destruct (Args.ParseArguments ENABLE_AJA argv Options.defaults) as [opts|code out] eqn:Hparse.
  2: { injection Hmain as <-. apply Hexit. reflexivity. }
  specialize (Hsim opts). specialize (Hprod opts eq_refl). specialize (Hcons opts eq_refl).
  specialize (Hfile opts eq_refl).
  assert (forall file_is_open run,
             Notions.producer_built ENABLE_AJA (producerType opts) ->
             Notions.consumer_chosen ENABLE_AJA (consumerType opts) ->
             (file_is_open = true <-> outputFilename opts <> "") ->
             (file_is_open = true -> Main.output_opens w = true) ->
             Main.run_constructed show_ratio exceeds show_rate w opts (Notions.objects_of opts)
                                  (Notions.consumer_of opts) file_is_open = Some run ->
             P run) as Hrun' by (intros; eapply Hrun; eauto).
  clear Hrun Hexit.
  assert (forall r,
             Notions.producer_built ENABLE_AJA (producerType opts) ->
             Notions.consumer_chosen ENABLE_AJA (consumerType opts) ->
             (if 0 <? Z.of_nat (String.length (outputFilename opts))
              then if Main.output_opens w
                   then Main.run_constructed show_ratio exceeds show_rate w opts
                          (Notions.objects_of opts) (Notions.consumer_of opts) true
                   else Some (Main.mkRun 1 (Error ("Could not open file for output: "
                                                   +++ outputFilename opts) :: nil)
                                         (Notions.objects_of opts) None)
              else Main.run_constructed show_ratio exceeds show_rate w opts
                     (Notions.objects_of opts) (Notions.consumer_of opts) false)
             = Some r -> P r) as Htail.
  { intros r Hp Hc H.
    destruct (0 <? Z.of_nat (String.length (outputFilename opts))) eqn:Hname.
    - assert (outputFilename opts <> "") as Hnonempty.
      { intros Heq. rewrite Heq in Hname. discriminate Hname. }
      destruct (Main.output_opens w) eqn:Hopens.
      + apply (Hrun' true r Hp Hc); [tauto | auto | exact H].
      + injection H as <-. apply Hfile; auto.
    - assert (outputFilename opts = "") as Hempty.
      { destruct (outputFilename opts); [reflexivity | discriminate Hname]. }
      apply (Hrun' false r Hp Hc); [| discriminate | exact H].
      split; [discriminate | congruence]. }
  clear Hrun' Hfile.
  unfold Notions.standalone in *. unfold Notions.objects_of, Notions.consumer_of in Htail.
  destruct (producerType opts) eqn:Hpt, (consumerType opts) eqn:Hct;
    cbn [Notions.producer_built Notions.consumer_chosen] in *;
    try (destruct (0 <? simulatedProcessing opts) eqn:Hs;
         [ destruct (Main.RunSimulatedProcessing w (simulatedProcessing opts) (format opts))
             as [[code out]|] eqn:Hsimrun; cbn [mbind option_bind] in Hmain;
           [ injection Hmain as <-; apply (Hsim code out eq_refl);
             [repeat split; apply Z.ltb_lt; exact Hs | reflexivity]
           | discriminate Hmain ]
         | ]);
    destruct ENABLE_AJA;
    first [ apply Htail; [tauto | tauto | exact Hmain]
          | injection Hmain as <-;
            first [ apply Hprod; [ intros (_ & _ & Hlt); apply Z.ltb_lt in Hlt; congruence
                                 | tauto ]
                  | apply Hprod; [ intros (? & ? & _); congruence | intros ?; congruence ]
                  | apply Hcons; [ tauto | intros ?; congruence ]
                  | apply Hcons; tauto ] ].
Qed.

(** What [main] does once the objects are constructed and the output file
    is dealt with. *)
Lemma run_constructed_cases show_ratio exceeds show_rate
      (w : Main.World) (opts : ProgramOptions) (objects : list Main.Component)
      (consumer : option ConsumerType) (file_is_open : bool) (run : Main.Run) :
  Main.run_constructed show_ratio exceeds show_rate w opts objects consumer file_is_open
  = Some run ->
  Main.constructed run = objects
  /\ ((Main.status run = 1
       /\ Main.csv run = (if file_is_open then Some nil else None)
       /\ (Main.producer_initializes w = false
           \/ Main.producer_starts w = false
           \/ exists kind,
               consumer = Some kind
               /\ (Main.consumer_initializes w = false
                   \/ Main.consumer_starts w = false
                   \/ exists captured,
                       Main.capture w kind opts = Some captured
                       /\ Consumer.result captured = false)))
      \/ (Main.status run = 0
          /\ Main.producer_initializes w = true /\ Main.producer_starts w = true
          /\ match consumer with
             | None => Main.csv run = (if file_is_open then Some nil else None)
             | Some kind =>
                 Main.consumer_initializes w = true /\ Main.consumer_starts w = true
                 /\ exists captured,
                     Main.capture w kind opts = Some captured
                     /\ Consumer.result captured = true
                     /\ Main.csv run
                        = (if file_is_open
                           then Some (Report.WriteLatencyResults true
                                        (Main.received (Consumer.final captured)))
                           else None)
             end
          /\ (file_is_open = true ->
              last (Main.console run)
              = Some (Log ("Results written to '" +++ outputFilename opts +++ "'"))))).
Proof.
  unfold Main.run_constructed. intros Hrun.
  destruct (Main.producer_initializes w) eqn:Hpi; cbn [negb] in Hrun.
  2: { injection Hrun as <-. split; [reflexivity |]. left.
       cbn [Main.status Main.csv]. auto. }
  destruct (Main.producer_starts w) eqn:Hps; cbn [negb] in Hrun.
  2: { injection Hrun as <-. split; [reflexivity |]. left.
       cbn [Main.status Main.csv]. auto. }
  destruct consumer as [kind|].
  2: { injection Hrun as <-. split; [reflexivity |]. right. cbn [Main.status Main.csv Main.console].
       repeat (split; [reflexivity |]). intros ->. cbv beta iota zeta.
       first [reflexivity | rewrite last_snoc; reflexivity]. }
  destruct (Main.consumer_initializes w) eqn:Hci; cbn [negb] in Hrun.
  2: { injection Hrun as <-. split; [reflexivity |]. left.
       cbn [Main.status Main.csv]. repeat (split; [reflexivity |]).
       right. right. exists kind. auto. }
  destruct (Main.consumer_starts w) eqn:Hcs; cbn [negb] in Hrun.
  2: { injection Hrun as <-. split; [reflexivity |]. left.
       cbn [Main.status Main.csv]. repeat (split; [reflexivity |]).
       right. right. exists kind. auto. }
  destruct (Main.capture w kind opts) as [captured|] eqn:Hcap;
    cbn [mbind option_bind] in Hrun; [| discriminate Hrun].
  destruct (Consumer.result captured) eqn:Hres; cbn [negb] in Hrun.
  2: { injection Hrun as <-. split; [reflexivity |]. left.
       cbn [Main.status Main.csv]. repeat (split; [reflexivity |]).
       right. right. exists kind. split; [reflexivity |]. right. right.
       exists captured. auto. }
  destruct (Report.PrintLatencyResults show_ratio exceeds show_rate opts
              (Main.received (Consumer.final captured))) as [report|];
    cbn [mbind option_bind] in Hrun; [| discriminate Hrun].
  injection Hrun as <-. split; [reflexivity |]. right.
  cbn [Main.status Main.csv Main.console].
  repeat (split; [reflexivity |]). split.
  - repeat (split; [reflexivity |]).
    exists captured. repeat (split; [reflexivity || assumption |]).
    destruct file_is_open; reflexivity.
  - intros ->. cbv beta iota zeta.
    first [reflexivity | rewrite last_snoc; reflexivity].
Qed.

Lemma fold_append_spans (clock : nat -> TimePoint * TimePoint) (l : list nat)
      (acc : DurationList.t) :
  fold_left (fun durations i =>
               DurationList.AppendSpan durations (fst (clock i)) (snd (clock i))) l acc
  = acc ++ map (fun i => duration_cast (snd (clock i) - fst (clock i))) l.
Proof.
  revert acc. induction l as [|i l IH]; intros acc; cbn [fold_left map].
  - rewrite app_nil_r. reflexivity.
  - rewrite IH. unfold DurationList.AppendSpan. rewrite <- app_assoc. reflexivity.
Qed.

(** [RunSimulatedProcessing] takes 500 samples, so that its summary never
    reads the minimum of an empty list. *)
Lemma RunSimulatedProcessing_runs (w : Main.World) (loops : Z) (fmt : TestFormat) :
  let samples :=
    map (fun i => duration_cast (snd (Main.simulated_clock w i) - fst (Main.simulated_clock w i)))
        (seq 0 500) in
  exists summary,
    DurationList.Summary samples = Some summary
    /\ Main.RunSimulatedProcessing w loops fmt
       = Some (if Main.cuda_allocates w
               then (0, Log ("Format: " +++ Main.show_format fmt)
                        :: Log ("Running simulated workload with " +++ show loops +++ " loops...")
                        :: Log ("Done." +++ endl)
                        :: Log ("Results:  " +++ summary)
                        :: nil)
               else (1, Error "Failed to allocate CUDA buffer." :: nil)).
Proof.
  cbv zeta.
  destruct (Summary_some
              (map (fun i => duration_cast (snd (Main.simulated_clock w i)
                                            - fst (Main.simulated_clock w i))) (seq 0 500)))
    as [summary Hsummary]; [discriminate |].
  exists summary. split; [exact Hsummary |].
  unfold Main.RunSimulatedProcessing.
  destruct (Main.cuda_allocates w); cbn [negb]; [| reflexivity].
  unfold Main.iterations. rewrite fold_append_spans.
  unfold DurationList.empty. cbn [app]. rewrite Hsummary. reflexivity.
Qed.

(** X5.  Without a producer and a consumer on the command line, a positive
    [-s] makes [main] only time the simulated workload: it constructs no
    object and opens no file; when the CUDA buffer cannot be allocated it
    reports that and returns 1; otherwise it returns 0 after printing the
    format, the loop count and the summary of 500 timed runs. *)
Theorem simulated_processing_mode (ENABLE_AJA : bool) show_ratio exceeds show_rate
        (w : Main.World) (argv : list string) (opts : ProgramOptions) :
  Args.ParseArguments ENABLE_AJA argv Options.defaults = Args.Parsed opts ->
  producerType opts = PRODUCER_UNKNOWN ->
  consumerType opts = CONSUMER_UNKNOWN ->
  0 < simulatedProcessing opts ->
  let samples :=
    map (fun i => duration_cast (snd (Main.simulated_clock w i) - fst (Main.simulated_clock w i)))
        (seq 0 500) in
  exists summary,
    DurationList.Summary samples = Some summary
    /\ Main.main ENABLE_AJA show_ratio exceeds show_rate w argv
       = Some (if Main.cuda_allocates w
               then Main.mkRun 0
                      (Log ("Format: " +++ Main.show_format (format opts))
                       :: Log ("Running simulated workload with "
                               +++ show (simulatedProcessing opts) +++ " loops...")
                       :: Log ("Done." +++ endl)
                       :: Log ("Results:  " +++ summary)
                       :: nil) nil None
               else Main.mkRun 1 (Error "Failed to allocate CUDA buffer." :: nil) nil None).
Proof.
  intros Hparse Hp Hc Hs. cbv zeta.
  destruct (RunSimulatedProcessing_runs w (simulatedProcessing opts) (format opts))
    as (summary & Hsummary & Hrun).
  exists summary. split; [exact Hsummary |].
  unfold Main.main. rewrite Hparse, Hp, Hc.
  apply Z.ltb_lt in Hs. rewrite Hs, Hrun. cbn [mbind option_bind].
  destruct (Main.cuda_allocates w); reflexivity.
Qed.

Lemma simulated_processing_mode_witness :
  Main.main false (fun _ _ => "") (fun _ _ => false) (fun _ => "") Spec.idle_world
            ("loopback-latency" :: "-s" :: "25" :: "-f" :: "720" :: nil)
  = Some (Main.mkRun 1 (Error "Failed to allocate CUDA buffer." :: nil) nil None).
Proof.
  assert (Args.ParseArguments false ("loopback-latency" :: "-s" :: "25" :: "-f" :: "720" :: nil)
                              Options.defaults
          = Args.Parsed (Options.with_format
                           (Options.with_simulatedProcessing Options.defaults 25)
                           Formats.FORMAT_720_RGBA_60)) as Hparse by reflexivity.
  destruct (simulated_processing_mode false (fun _ _ => "") (fun _ _ => false) (fun _ => "")
              Spec.idle_world _ _ Hparse eq_refl eq_refl eq_refl) as (summary & _ & Hrun).
  exact Hrun.
Defined.



(** X7.  A run that returns 1, and a run without a consumer ([-c none]),
    leave an output file that they opened without a single line; and a run
    that returns 0 with the file open ends by reporting
    "Results written to" that file, also when nothing was written. *)
Theorem output_file_left_empty (ENABLE_AJA : bool) show_ratio exceeds show_rate
        (w : Main.World) (argv : list string) (run : Main.Run) (lines : list string) :
  Main.main ENABLE_AJA show_ratio exceeds show_rate w argv = Some run ->
  Main.csv run = Some lines ->
  ((Main.status run = 1 \/ (forall c, ~ In (Main.ConsumerObject c) (Main.constructed run))) ->
   lines = nil)
  /\ (Main.status run = 0 ->
      exists opts,
        Args.ParseArguments ENABLE_AJA argv Options.defaults = Args.Parsed opts
        /\ last (Main.console run)
           = Some (Log ("Results written to '" +++ outputFilename opts +++ "'"))).
Proof.
  revert run.
  apply (main_cases ENABLE_AJA show_ratio exceeds show_rate w argv
    (fun run =>
            Main.csv run = Some lines ->
            ((Main.status run = 1
              \/ (forall c, ~ In (Main.ConsumerObject c) (Main.constructed run))) ->
             lines = nil)
            /\ (Main.status run = 0 ->
                exists opts,
                  Args.ParseArguments ENABLE_AJA argv Options.defaults = Args.Parsed opts
                  /\ last (Main.console run)
                     = Some (Log ("Results written to '" +++ outputFilename opts +++ "'")))));
    try (intros; cbn [Main.csv] in *; discriminate).
  intros opts file_is_open run Hparse Hp Hc _ _ Hrun Hcsv.
  destruct (run_constructed_cases _ _ _ _ _ _ _ _ _ Hrun) as [Hobjects Hstatus].
  destruct Hstatus as [(Hone & Hfile & _)|(Hzero & _ & _ & Hconsumer & Hlast)].
  - rewrite Hcsv in Hfile. destruct file_is_open; [| discriminate Hfile].
    injection Hfile as ->. split; [reflexivity | intros H; congruence].
  - assert (file_is_open = true) as ->.
    { destruct file_is_open; [reflexivity |].
      destruct (Notions.consumer_of opts).
      - destruct Hconsumer as (_ & _ & captured & _ & _ & H). congruence.
      - congruence. }
    split; [| intros _; exists opts; auto].
    intros [Hone|Hnone]; [congruence |].
    rewrite Hobjects in Hnone. unfold Notions.objects_of in Hnone.
    destruct (Notions.consumer_of opts) as [kind|].
    + exfalso. apply (Hnone kind). cbn. auto.
    + congruence.
Qed.

Lemma output_file_left_empty_witness :
  exists run,
    Main.main false (fun _ _ => "") (fun _ _ => false) (fun _ => "")
              (Main.mkWorld true false (fun _ => (0, 0)) "" "" true true
                            false false ∅ nil nil nil)
              ("loopback-latency" :: "-p" :: "gl" :: "-c" :: "none" :: "-o" :: "out.csv" :: nil)
    = Some run
    /\ Main.status run = 0
    /\ Main.csv run = Some nil
    /\ last (Main.console run) = Some (Log "Results written to 'out.csv'").
Proof.
  eexists. split; [vm_compute; reflexivity |].
  split; [reflexivity |]. split; [reflexivity |].
  destruct (output_file_left_empty false (fun _ _ => "") (fun _ _ => false) (fun _ => "")
              (Main.mkWorld true false (fun _ => (0, 0)) "" "" true true
                            false false ∅ nil nil nil)
              ("loopback-latency" :: "-p" :: "gl" :: "-c" :: "none" :: "-o" :: "out.csv" :: nil)
              _ nil ltac:(vm_compute; reflexivity) eq_refl) as [_ Hlast].
  destruct (Hlast eq_refl) as (opts & Hparse & Hmsg).
  injection Hparse as <-. exact Hmsg.
Defined.



(** X9.  Whatever the command line, the options that [ParseArguments]
    returns from the defaults hold one of the six formats of TestFormat.h:
    an RGBA format of 4 bytes per pixel whose byte size is exact, with a
    frame rate of 60 or 24, so that the frame interval of the report and of
    the AJA capture loop, 1000000 / frame rate, is 16666 or 41666
    microseconds and never a division by zero. *)
Theorem parsed_format_and_frame_interval (ENABLE_AJA : bool) (argv : list string)
        (opts : ProgramOptions) :
  Args.ParseArguments ENABLE_AJA argv Options.defaults = Args.Parsed opts ->
  In (format opts) Formats.selectable
  /\ pixelFormat (format opts) = PIXEL_FORMAT_RGBA
  /\ bytesPerPixel (format opts) = 4
  /\ totalBytes (format opts) = width (format opts) * height (format opts) * 4
  /\ ((frameRate (format opts) = 60 /\ u32 (1000000 / frameRate (format opts)) = 16666)
      \/ (frameRate (format opts) = 24 /\ u32 (1000000 / frameRate (format opts)) = 41666)).
Proof.
  intros Hparse. pose proof (ParseArguments_format ENABLE_AJA argv opts Hparse) as Hsel.
  split; [exact Hsel |].
  unfold Formats.selectable in Hsel. cbn [In] in Hsel.
  repeat (destruct Hsel as [<-|Hsel];
          [repeat (split; [reflexivity |]); first [left; split; reflexivity
                                                  | right; split; reflexivity] |]).
  destruct Hsel.
Qed.

Lemma parsed_format_and_frame_interval_witness :
  Args.ParseArguments true ("loopback-latency" :: "-f" :: "uhd-24" :: "-f" :: "4k" :: nil)
                      Options.defaults
  = Args.Parsed (Options.with_format (Options.with_format Options.defaults
                                        Formats.FORMAT_UHD_RGBA_24)
                                     Formats.FORMAT_4K_RGBA_60)
  /\ totalBytes Formats.FORMAT_4K_RGBA_60 = 4096 * 2160 * 4.
Proof.
  assert (Args.ParseArguments true ("loopback-latency" :: "-f" :: "uhd-24" :: "-f" :: "4k" :: nil)
                              Options.defaults
          = Args.Parsed (Options.with_format (Options.with_format Options.defaults
                                                Formats.FORMAT_UHD_RGBA_24)
                                             Formats.FORMAT_4K_RGBA_60)) as Hparse
      by reflexivity.
  split; [exact Hparse |].
  exact (proj1 (proj2 (proj2 (proj2 (parsed_format_and_frame_interval true _ _ Hparse))))).
Defined.

(** ** Duration statistics *)

Lemma sum_between (l : list Z) (lo hi : Z) :
  Forall (fun d => lo <= d <= hi) l ->
  Z.of_nat (List.length l) * lo <= Spec.sum l <= Z.of_nat (List.length l) * hi.
Proof.
  unfold Spec.sum.
  induction 1 as [|x l Hx _ IH]; cbn [fold_right List.length].
  - lia.
  - rewrite Nat2Z.inj_succ. lia.
Qed.

(** X10.  For a non-empty list of non-negative samples whose total is
    below 2^64, the average that [Avg] returns lies between the minimum and
    the maximum that [Min] and [Max] return. *)
Theorem avg_between_min_and_max (l : DurationList.t) :
  l <> nil ->
  Forall (fun d => 0 <= d < 2 ^ 63) l ->
  Spec.sum l < 2 ^ 64 ->
  exists mn mx,
    DurationList.Min l = Some mn /\ DurationList.Max l = Some mx
    /\ mn <= DurationList.Avg l <= mx.
Proof.
  intros Hne Hall Hsum.
  destruct (Min_spec l Hne) as (mn & Hmn & _ & Hlow).
  destruct (Max_spec l Hne) as (mx & Hmx & _ & Hhigh).
  exists mn, mx. split; [exact Hmn |]. split; [exact Hmx |].
  rewrite (Avg_mean l Hne Hall Hsum).
  assert (Forall (fun d => mn <= d <= mx) l) as Hboth.
  { rewrite List.Forall_forall in *. intros d Hd. split; auto. }
  pose proof (sum_between l mn mx Hboth) as Hbounds.
  destruct (sum_bounds l _ Hall) as [H0 _].
  unfold DurationList.t, Microseconds in *.
  assert (0 < Z.of_nat (List.length l)) as Hn by (destruct l; [congruence | simpl; lia]).
  rewrite Z.quot_div_nonneg by lia.
  split.
  - apply Z.div_le_lower_bound; lia.
  - apply Z.div_le_upper_bound; lia.
Qed.

Lemma avg_between_min_and_max_witness :
  DurationList.Min (3 :: 9 :: 4 :: nil) = Some 3
  /\ DurationList.Max (3 :: 9 :: 4 :: nil) = Some 9
  /\ 3 <= DurationList.Avg (3 :: 9 :: 4 :: nil) <= 9.
Proof.
  destruct (avg_between_min_and_max (3 :: 9 :: 4 :: nil))
    as (mn & mx & Hmn & Hmx & Havg).
  - discriminate.
  - repeat constructor; lia.
  - vm_compute. reflexivity.
  - injection Hmn as <-. injection Hmx as <-.
    split; [reflexivity |]. split; [reflexivity | exact Havg].
Defined.

(** ** Skipped frames *)

Lemma exact_gaps_telescope (numbers : list Z) :
  forall expected : Z,
    numbers <> nil ->
    Spec.sum (Spec.exact_gaps expected numbers)
    = List.last numbers 0 - expected - (Z.of_nat (List.length numbers) - 1).
Proof.
  unfold Spec.sum.
  induction numbers as [|n rest IH]; intros expected Hne; [congruence |].
  cbn [Spec.exact_gaps fold_right].
  destruct rest as [|n' rest'].
  - cbn. lia.
  - rewrite (IH (n + 1)) by discriminate.
    change (List.last (n :: n' :: rest') 0) with (List.last (n' :: rest') 0).
    cbn [List.length]. lia.
Qed.

Lemma exact_gaps_zero (numbers : list Z) :
  forall expected : Z,
    expected <= 2 ^ 32 ->
    Spec.ascending expected numbers ->
    Spec.sum (Spec.exact_gaps expected numbers) = 0 ->
    numbers = map (fun i => expected + Z.of_nat i) (seq 0 (List.length numbers)).
Proof.
  induction numbers as [|n rest IH]; intros expected He Hasc Hsum; [reflexivity |].
  cbn [Spec.ascending] in Hasc. destruct Hasc as [Hn Hrest].
  destruct (exact_gaps_sum rest (n + 1) ltac:(lia) Hrest) as [Hlow _].
  unfold Spec.sum in *. cbn [Spec.exact_gaps fold_right] in Hsum.
  assert (n = expected) as -> by lia.
  cbn [List.length seq map]. f_equal; [lia |].
  rewrite (IH (expected + 1)) at 1 by (lia || assumption).
  rewrite <- seq_shift, map_map. apply map_ext. intros i. lia.
Qed.

(** X11.  When the frame numbers of the received list ascend from the
    first one without wrapping, the skipped-frame count of the report and
    the number of frames received add up to the length of the range of
    numbers from the first received frame to the last; the count is 0
    only when the numbers received are consecutive. *)
Theorem skipped_and_received_cover_the_range (first : Frame) (rest : list Frame) :
  0 <= FrameOps.Number first ->
  Spec.ascending (FrameOps.Number first) (map FrameOps.Number (first :: rest)) ->
  let frames := first :: rest in
  let skipped := Report.skippedFrames (Report.tally first frames) in
  skipped + Z.of_nat (List.length frames)
  = List.last (map FrameOps.Number frames) 0 - FrameOps.Number first + 1
  /\ 0 <= skipped
  /\ (skipped = 0 ->
      map FrameOps.Number frames
      = map (fun i => FrameOps.Number first + Z.of_nat i) (seq 0 (List.length frames))).
Proof.
  intros H0 Hasc. cbv zeta.
  destruct (tally_counts first (first :: rest)) as [Hs _]. cbv zeta in Hs.
  rewrite (gaps_exact _ _ (FrameOps.Number first) H0 (fun _ => eq_refl) Hasc) in Hs.
  assert (FrameOps.Number first <= 2 ^ 32) as Hle
      by (cbn [map Spec.ascending] in Hasc; lia).
  destruct (exact_gaps_sum _ _ Hle Hasc) as [Hlow Hhigh].
  rewrite u64_small in Hs by lia.
  rewrite Hs. split; [| split; [exact Hlow |]].
  - rewrite exact_gaps_telescope by discriminate.
    rewrite length_map. lia.
  - intros Hzero.
    rewrite (exact_gaps_zero _ _ Hle Hasc Hzero) at 1.
    rewrite length_map. reflexivity.
Qed.

Lemma skipped_and_received_cover_the_range_witness :
  Report.skippedFrames
    (Report.tally (FrameOps.make 5) (map FrameOps.make (5 :: 6 :: 9 :: nil)))
  + 3 = 9 - 5 + 1.
Proof.
  assert (0 <= FrameOps.Number (FrameOps.make 5)) as H0 by (cbn; lia).
  assert (Spec.ascending (FrameOps.Number (FrameOps.make 5))
            (map FrameOps.Number (FrameOps.make 5 :: map FrameOps.make (6 :: 9 :: nil))))
    as Hasc by (cbn; lia).
  exact (proj1 (skipped_and_received_cover_the_range (FrameOps.make 5)
                  (map FrameOps.make (6 :: 9 :: nil)) H0 Hasc)).
Defined.

(** ** The capture loops: what they keep *)

Lemma store_kept_refl (s : gmap nat Frame) : Notions.store_kept s s.
Proof. intros p. reflexivity. Qed.

Lemma store_kept_trans (a b c : gmap nat Frame) :
  Notions.store_kept a b -> Notions.store_kept b c -> Notions.store_kept a c.
Proof. intros Hab Hbc p. rewrite Hbc, Hab. reflexivity. Qed.

Lemma store_kept_insert (s : gmap nat Frame) (p : nat) (f f' : Frame) :
  s !! p = Some f ->
  Notions.producer_side f' = Notions.producer_side f ->
  Notions.store_kept s (<[p := f']> s).
Proof.
  intros Hp Hside q. destruct (decide (q = p)) as [->|Hne].
  - rewrite lookup_insert_eq, Hp. cbn. rewrite Hside. reflexivity.
  - rewrite lookup_insert_ne by congruence. reflexivity.
Qed.

Lemma store_kept_number (s s' : gmap nat Frame) (p : nat) :
  Notions.store_kept s s' ->
  FrameOps.Number <$> (s' !! p) = FrameOps.Number <$> (s !! p).
Proof.
  intros Hkept. specialize (Hkept p).
  destruct (s' !! p) as [f'|], (s !! p) as [f|]; cbn in *; try congruence.
  unfold Notions.producer_side, FrameOps.Number in *. congruence.
Qed.

Lemma store_kept_resolved (s s' : gmap nat Frame) (l : list nat) :
  Notions.store_kept s s' ->
  Forall (fun p => is_Some (s !! p)) l -> Forall (fun p => is_Some (s' !! p)) l.
Proof.
  intros Hkept. apply List.Forall_impl. intros p [f Hf].
  specialize (Hkept p). rewrite Hf in Hkept.
  destruct (s' !! p); [eauto | discriminate Hkept].
Qed.

(** The frame numbers behind a list of pointers. *)
Lemma numbers_kept (s s' : gmap nat Frame) (l : list nat) :
  Notions.store_kept s s' ->
  map FrameOps.Number (omap (fun p => s' !! p) l)
  = map FrameOps.Number (omap (fun p => s !! p) l).
Proof.
  intros Hkept. induction l as [|p l IH]; [reflexivity |].
  cbn [omap list_omap]. pose proof (store_kept_number s s' p Hkept) as Hp.
  destruct (s' !! p) as [f'|], (s !! p) as [f|]; cbn in Hp; try discriminate Hp.
  - cbn [map]. injection Hp as ->. rewrite IH. reflexivity.
  - exact IH.
Qed.

Lemma numbers_snoc (s : gmap nat Frame) (l : list nat) (p : nat) (f : Frame) :
  s !! p = Some f ->
  map FrameOps.Number (omap (fun q => s !! q) (l ++ p :: nil))
  = map FrameOps.Number (omap (fun q => s !! q) l) ++ FrameOps.Number f :: nil.
Proof.
  intros Hp. rewrite omap_app, map_app. cbn [omap list_omap]. rewrite Hp. reflexivity.
Qed.

Lemma numbers_last (s : gmap nat Frame) (l : list nat) (q : nat) (back : Frame) :
  Forall (fun p => is_Some (s !! p)) l ->
  last l = Some q -> s !! q = Some back ->
  last (map FrameOps.Number (omap (fun p => s !! p) l)) = Some (FrameOps.Number back).
Proof.
  intros Hall Hlast Hq.
  destruct (last_Some l q) as [[l' ->] _]; [exact Hlast |].
  rewrite (numbers_snoc s l' q back Hq). apply last_snoc.
Qed.

Lemma distinct_neighbours_snoc (l : list Z) (x : Z) :
  Notions.distinct_neighbours l ->
  last l <> Some x ->
  Notions.distinct_neighbours (l ++ x :: nil).
Proof.
  induction l as [|a l IH]; intros Hd Hlast; [cbn; auto |].
  cbn [Notions.distinct_neighbours] in Hd. destruct Hd as [Hhead Htail].
  cbn [app Notions.distinct_neighbours]. split.
  - destruct l as [|b l]; [| exact Hhead].
    cbn [app]. intros ->. apply Hlast. reflexivity.
  - apply IH; [exact Htail |].
    destruct l as [|b l]; [discriminate | exact Hlast].
Qed.

Lemma extends_refl (st : Consumer.State) : Notions.extends st st nil.
Proof.
  unfold Notions.extends. cbn [Spec.appended]. rewrite app_nil_r.
  split; [reflexivity |]. split; [apply store_kept_refl | auto].
Qed.

Lemma extends_discarded (st : Consumer.State) :
  Notions.extends st st (Consumer.Discarded :: nil).
Proof. exact (extends_refl st). Qed.

Lemma extends_trans (a b c : Consumer.State) (l1 l2 : list Consumer.Disposition) :
  Notions.extends a b l1 -> Notions.extends b c l2 -> Notions.extends a c (l1 ++ l2).
Proof.
  intros (Hf1 & Hk1 & Hr1 & Hd1) (Hf2 & Hk2 & Hr2 & Hd2).
  unfold Notions.extends. rewrite appended_app, app_assoc, <- Hf1, <- Hf2.
  split; [reflexivity |]. split; [eapply store_kept_trans; eassumption |].
  split; auto.
Qed.

(** What [Receive] keeps. *)
Lemma Receive_extends (st st' : Consumer.State) (p : nat) (t1 t2 t3 : TimePoint)
      (d : Consumer.Disposition) :
  Consumer.Receive st p t1 t2 t3 = Some (st', d) ->
  Notions.extends st st' (d :: nil).
Proof.
  intros H. pose proof (Receive_spec _ _ _ _ _ _ _ H) as (frame & Hp & Hcases).
  assert (Consumer.m_frames st' = Consumer.m_frames st ++ Spec.appended (d :: nil)
          /\ Notions.store_kept (Consumer.store st) (Consumer.store st')) as [Hframes Hkept].
  { destruct Hcases as [(-> & _ & -> & ->)|(-> & -> & ->)].
    - cbn [Spec.appended]. rewrite app_nil_r. split; [reflexivity |].
      apply (store_kept_insert _ _ frame); [exact Hp | reflexivity].
    - split; [reflexivity |].
      apply (store_kept_insert _ _ frame); [exact Hp | reflexivity]. }
  assert (Notions.resolved st -> Notions.resolved st') as Hres.
  { unfold Notions.resolved. intros Hall. rewrite Hframes.
    apply Forall_app. split; [apply (store_kept_resolved _ _ _ Hkept Hall) |].
    assert (is_Some (Consumer.store st' !! p)) as Hsome.
    { specialize (Hkept p). rewrite Hp in Hkept.
      destruct (Consumer.store st' !! p); [eauto | discriminate Hkept]. }
    destruct Hcases as [(-> & _)|(-> & _)]; cbn [Spec.appended]; repeat constructor.
    exact Hsome. }
  split; [exact Hframes |]. split; [exact Hkept |]. split; [exact Hres |].
  intros Hall Hdistinct. unfold Notions.numbers, Main.received in *.
  rewrite Hframes, (numbers_kept _ _ _ Hkept).
  destruct Hcases as [(-> & _)|(-> & _ & _)].
  - cbn [Spec.appended]. rewrite app_nil_r. exact Hdistinct.
  - cbn [Spec.appended]. rewrite (numbers_snoc _ _ _ _ Hp).
    apply distinct_neighbours_snoc; [exact Hdistinct |].
    intros Hlast.
    (* the received list ends with a frame of the same number: the capture
       would have been counted as a duplicate *)
    unfold Consumer.Receive in H. rewrite Hp in H.
    destruct (last (Consumer.m_frames st)) as [q|] eqn:Hq.
    + assert (is_Some (Consumer.store st !! q)) as [back Hback].
      { unfold Notions.resolved in Hall. rewrite List.Forall_forall in Hall.
        apply Hall. destruct (last_Some (Consumer.m_frames st) q) as [[l' Heq] _];
          [exact Hq |]. rewrite Heq. apply in_elt. }
      rewrite Hback in H.
      rewrite (numbers_last _ _ _ _ Hall Hq Hback) in Hlast.
      injection Hlast as Hsame. rewrite Hsame, Z.eqb_refl in H. discriminate H.
    + apply last_None in Hq. rewrite Hq in Hlast. discriminate Hlast.
Qed.

Lemma ReadFrame_extends (st st' : Consumer.State) (warmupFrame : bool)
      (t1 t2 t3 : TimePoint) (found : option nat) (queued result : bool)
      (ds : list Consumer.Disposition) :
  V4L2Consumer.ReadFrame st warmupFrame t1 t2 t3 found queued = Some (result, st', ds) ->
  Notions.extends st st' ds.
Proof.
  unfold V4L2Consumer.ReadFrame. intros H.
  destruct warmupFrame; [injection H as _ <- <-; apply extends_discarded |].
  destruct found as [p|]; [| injection H as _ <- <-; apply extends_refl].
  destruct (Consumer.Receive st p t1 t2 t3) as [[st1 d]|] eqn:Hreceive; [| discriminate H].
  injection H as _ <- <-. eapply Receive_extends. exact Hreceive.
Qed.

Lemma BufferCallback_extends (cnt cnt' : GStreamerConsumer.Counters)
      (st st' : Consumer.State) (sample_ok buffer_ok map_ok : bool)
      (t1 t2 t3 : TimePoint) (found : option nat) (ds : list Consumer.Disposition)
      (flow : GStreamerConsumer.GstFlowReturn) :
  GStreamerConsumer.BufferCallback cnt st sample_ok buffer_ok map_ok t1 t2 t3 found
  = Some (flow, cnt', st', ds) ->
  Notions.extends st st' ds.
Proof.
  unfold GStreamerConsumer.BufferCallback. intros H.
  destruct (negb sample_ok); [injection H as _ _ <- <-; apply extends_refl |].
  destruct (negb buffer_ok); [injection H as _ _ <- <-; apply extends_refl |].
  destruct (negb (GStreamerConsumer.m_warmupFramesRemaining cnt =? 0));
    [injection H as _ _ <- <-; apply extends_discarded |].
  destruct (negb (GStreamerConsumer.m_framesRemaining cnt =? 0));
    [| injection H as _ _ <- <-; apply extends_refl].
  destruct (negb map_ok); [injection H as _ _ <- <-; apply extends_refl |].
  destruct found as [p|]; [| injection H as _ _ <- <-; apply extends_refl].
  destruct (Consumer.Receive st p t1 t2 t3) as [[st1 d]|] eqn:Hreceive; [| discriminate H].
  injection H as _ _ <- <-. eapply Receive_extends. exact Hreceive.
Qed.

Lemma v4l2_loop_extends (numFrames warmupFrames : Z) :
  forall (env : list V4L2Consumer.Step) (frame : Z) (st : Consumer.State)
         (log : list Consumer.Disposition) (out : Consumer.Outcome),
    V4L2Consumer.loop numFrames warmupFrames env frame st log = Some out ->
    exists more,
      Consumer.captures out = log ++ more
      /\ Notions.extends st (Consumer.final out) more.
Proof.
  assert (forall result st log out,
             Some (Consumer.mkOutcome result st log) = Some out ->
             exists more, Consumer.captures out = log ++ more
                          /\ Notions.extends st (Consumer.final out) more) as Hdone.
  { intros result st log out H. injection H as <-. exists nil.
    cbn. rewrite app_nil_r. split; [reflexivity | apply extends_refl]. }
  induction env as [|e env IH]; intros frame st log out Hloop;
    cbn [V4L2Consumer.loop] in Hloop;
    destruct (u64 frame <? u64 (numFrames + warmupFrames));
    try (eapply Hdone; exact Hloop).
  - discriminate Hloop.
  - destruct e as [| | | |t1 t2 t3 found queued]; try (eapply Hdone; exact Hloop).
    + eapply IH. exact Hloop.
    + destruct (V4L2Consumer.ReadFrame st (u64 frame <? warmupFrames) t1 t2 t3 found queued)
        as [[[result st'] ds]|] eqn:Hread; [| discriminate Hloop].
      pose proof (ReadFrame_extends _ _ _ _ _ _ _ _ _ _ Hread) as Hext.
      destruct result.
      * destruct (IH _ _ _ _ Hloop) as (more & Hlog & Hrest).
        exists (ds ++ more). rewrite Hlog, <- app_assoc.
        split; [reflexivity | eapply extends_trans; eassumption].
      * injection Hloop as <-. exists ds. cbn. split; [reflexivity | exact Hext].
Qed.

Lemma gst_loop_extends :
  forall (env : list GStreamerConsumer.Step) (cnt : GStreamerConsumer.Counters)
         (st : Consumer.State) (log : list Consumer.Disposition) (out : Consumer.Outcome),
    GStreamerConsumer.loop env cnt st log = Some out ->
    exists more,
      Consumer.captures out = log ++ more
      /\ Notions.extends st (Consumer.final out) more.
Proof.
  induction env as [|e env IH]; intros cnt st log out Hloop;
    cbn [GStreamerConsumer.loop] in Hloop; [discriminate Hloop |].
  destruct e as [sample_ok buffer_ok map_ok t1 t2 t3 found|messages].
  - destruct (GStreamerConsumer.BufferCallback cnt st sample_ok buffer_ok map_ok t1 t2 t3 found)
      as [[[[flow cnt'] st'] ds]|] eqn:Hcall; [| discriminate Hloop].
    pose proof (BufferCallback_extends _ _ _ _ _ _ _ _ _ _ _ _ _ Hcall) as Hext.
    destruct (IH _ _ _ _ Hloop) as (more & Hlog & Hrest).
    exists (ds ++ more). rewrite Hlog, <- app_assoc.
    split; [reflexivity | eapply extends_trans; eassumption].
  - cbv zeta in Hloop.
    destruct (fold_left GStreamerConsumer.BusCallbackStatic messages false);
      [injection Hloop as <-; exists nil; cbn; rewrite app_nil_r;
       split; [reflexivity | apply extends_refl] |].
    destruct ((GStreamerConsumer.m_framesRemaining cnt =? 0)
              && (GStreamerConsumer.m_warmupFramesRemaining cnt =? 0));
      [injection Hloop as <-; exists nil; cbn; rewrite app_nil_r;
       split; [reflexivity | apply extends_refl] |].
    eapply IH. exact Hloop.
Qed.

Lemma aja_loop_extends (numFrames maxFrameTime : Z) :
  forall (env : list AJAConsumer.Capture) (frameNumber hw : Z) (st : Consumer.State)
         (log : list Consumer.Disposition) (calls : list AJAConsumer.DeviceCall)
         (out : Consumer.Outcome) (calls' : list AJAConsumer.DeviceCall),
    AJAConsumer.loop numFrames maxFrameTime env frameNumber hw st log calls
    = Some (out, calls') ->
    exists more,
      Consumer.captures out = log ++ more
      /\ Notions.extends st (Consumer.final out) more.
Proof.
  induction env as [|c env IH]; intros frameNumber hw st log calls out calls' Hloop;
    cbn [AJAConsumer.loop] in Hloop;
    destruct (u64 frameNumber <? numFrames);
    try (injection Hloop as <- <-; exists nil; cbn; rewrite app_nil_r;
         split; [reflexivity | apply extends_refl]).
  - discriminate Hloop.
  - destruct (AJAConsumer.frame c) as [p|];
      [| injection Hloop as <- <-; exists nil; cbn; rewrite app_nil_r;
         split; [reflexivity | apply extends_refl]].
    destruct (Consumer.Receive st p (AJAConsumer.receiveTime c) (AJAConsumer.readEnd c)
                               (AJAConsumer.copiedToGPU c)) as [[st' d]|] eqn:Hreceive;
      [| discriminate Hloop].
    pose proof (Receive_extends _ _ _ _ _ _ _ Hreceive) as Hext.
    destruct (IH _ _ _ _ _ _ _ Hloop) as (more & Hlog & Hrest).
    exists ((d :: nil) ++ more). rewrite Hlog, <- app_assoc.
    split; [reflexivity | eapply extends_trans; eassumption].
Qed.

(** X12.  Whatever a capture call returns, true or false, it only adds to
    the received list: the list afterwards is the list before followed by
    the frames it appended, in order; and the store holds the same frame
    objects as before, each with its number, its colour and its six
    producer checkpoints unchanged. *)
Theorem capture_only_adds_frames (numFrames warmupFrames : Z) (st : Consumer.State) :
  (forall env out,
      V4L2Consumer.CaptureFrames numFrames warmupFrames env st = Some out ->
      Consumer.m_frames (Consumer.final out)
      = Consumer.m_frames st ++ Spec.appended (Consumer.captures out)
      /\ Notions.store_kept (Consumer.store st) (Consumer.store (Consumer.final out)))
  /\ (forall env out,
         GStreamerConsumer.CaptureFrames numFrames warmupFrames env st = Some out ->
         Consumer.m_frames (Consumer.final out)
         = Consumer.m_frames st ++ Spec.appended (Consumer.captures out)
         /\ Notions.store_kept (Consumer.store st) (Consumer.store (Consumer.final out)))
  /\ (forall fmt env out calls,
         AJAConsumer.CaptureFrames fmt numFrames warmupFrames env st = Some (out, calls) ->
         Consumer.m_frames (Consumer.final out)
         = Consumer.m_frames st ++ Spec.appended (Consumer.captures out)
         /\ Notions.store_kept (Consumer.store st) (Consumer.store (Consumer.final out))).
Proof.
  split; [| split].
  - intros env out Hrun.
    destruct (v4l2_loop_extends _ _ _ _ _ _ _ Hrun) as (more & Hlog & Hf & Hk & _).
    cbn [app] in Hlog. rewrite Hlog. auto.
  - intros env out Hrun.
    destruct (gst_loop_extends _ _ _ _ _ Hrun) as (more & Hlog & Hf & Hk & _).
    cbn [app] in Hlog. rewrite Hlog. auto.
  - intros fmt env out calls Hrun.
    destruct (aja_loop_extends _ _ _ _ _ _ _ _ _ _ Hrun) as (more & Hlog & Hf & Hk & _).
    cbn [app] in Hlog. rewrite Hlog. auto.
Qed.

(** X13.  No capture call leaves the received list with two neighbours of
    the same frame number, when it starts from a list without such
    neighbours whose pointers are resolved, as the empty list from which
    [main] starts is; the pointers of the list stay resolved. *)
Theorem received_neighbours_differ (numFrames warmupFrames : Z) (st : Consumer.State) :
  Notions.resolved st ->
  Notions.distinct_neighbours (Notions.numbers st) ->
  (forall env out,
      V4L2Consumer.CaptureFrames numFrames warmupFrames env st = Some out ->
      Notions.resolved (Consumer.final out)
      /\ Notions.distinct_neighbours (Notions.numbers (Consumer.final out)))
  /\ (forall env out,
         GStreamerConsumer.CaptureFrames numFrames warmupFrames env st = Some out ->
         Notions.resolved (Consumer.final out)
         /\ Notions.distinct_neighbours (Notions.numbers (Consumer.final out)))
  /\ (forall fmt env out calls,
         AJAConsumer.CaptureFrames fmt numFrames warmupFrames env st = Some (out, calls) ->
         Notions.resolved (Consumer.final out)
         /\ Notions.distinct_neighbours (Notions.numbers (Consumer.final out))).
Proof.
  intros Hres Hdistinct. split; [| split].
  - intros env out Hrun.
    destruct (v4l2_loop_extends _ _ _ _ _ _ _ Hrun) as (more & _ & _ & _ & Hr & Hd). auto.
  - intros env out Hrun.
    destruct (gst_loop_extends _ _ _ _ _ Hrun) as (more & _ & _ & _ & Hr & Hd). auto.
  - intros fmt env out calls Hrun.
    destruct (aja_loop_extends _ _ _ _ _ _ _ _ _ _ Hrun) as (more & _ & _ & _ & Hr & Hd). auto.
Qed.

Lemma received_neighbours_differ_witness :
  let st := Consumer.mkState (<[0%nat := FrameOps.make 7]> ∅) nil in
  let env := V4L2Consumer.Dequeued 10 11 12 (Some 0%nat) true
             :: V4L2Consumer.Dequeued 20 21 22 (Some 0%nat) true :: nil in
  exists out,
    V4L2Consumer.CaptureFrames 2 0 env st = Some out
    /\ Consumer.m_frames (Consumer.final out) = 0%nat :: nil
    /\ Notions.distinct_neighbours (Notions.numbers (Consumer.final out)).
Proof.
  cbv zeta.
  set (st := Consumer.mkState _ _).
  set (env := V4L2Consumer.Dequeued 10 11 12 (Some 0%nat) true :: _).
  assert (exists out,
             V4L2Consumer.CaptureFrames 2 0 env st = Some out
             /\ Consumer.m_frames (Consumer.final out) = 0%nat :: nil)
    as (out & Hrun & Hframes).
  { eexists. split; [vm_compute; reflexivity | reflexivity]. }
  exists out. split; [exact Hrun |]. split; [exact Hframes |].
  assert (Notions.resolved st) as Hres by constructor.
  assert (Notions.distinct_neighbours (Notions.numbers st)) as Hdistinct by exact I.
  exact (proj2 (proj1 (received_neighbours_differ 2 0 st Hres Hdistinct) env out Hrun)).
Defined.

(** ** The capture loops: retries and failures *)

Lemma v4l2_loop_retry (numFrames warmupFrames : Z) (after : list V4L2Consumer.Step) :
  forall (before : list V4L2Consumer.Step) (frame : Z) (st : Consumer.State)
         (log : list Consumer.Disposition),
    V4L2Consumer.loop numFrames warmupFrames
      (before ++ V4L2Consumer.DequeueAgain :: after) frame st log
    = V4L2Consumer.loop numFrames warmupFrames (before ++ after) frame st log.
Proof.
  induction before as [|e before IH]; intros frame st log; cbn [app V4L2Consumer.loop].
  - destruct (u64 frame <? u64 (numFrames + warmupFrames)) eqn:Hlt; [reflexivity |].
    destruct after; cbn [V4L2Consumer.loop]; rewrite Hlt; reflexivity.
  - destruct (u64 frame <? u64 (numFrames + warmupFrames)); [| reflexivity].
    destruct e as [| | | |t1 t2 t3 found queued]; try reflexivity.
    + apply IH.
    + destruct (V4L2Consumer.ReadFrame st (u64 frame <? warmupFrames) t1 t2 t3 found queued)
        as [[[[|] st'] ds]|]; try reflexivity.
      apply IH.
Qed.

(** X14.  A dequeue that fails with [EAGAIN] is retried and leaves no
    trace: wherever such a step stands in what the driver delivers, the V4L2
    capture call does what it does without it. *)
Theorem v4l2_retry_is_transparent (numFrames warmupFrames : Z)
        (before after : list V4L2Consumer.Step) (st : Consumer.State) :
  V4L2Consumer.CaptureFrames numFrames warmupFrames
    (before ++ V4L2Consumer.DequeueAgain :: after) st
  = V4L2Consumer.CaptureFrames numFrames warmupFrames (before ++ after) st.
Proof. unfold V4L2Consumer.CaptureFrames. apply v4l2_loop_retry. Qed.






(** ** The AJA capture loop: the two hardware frames *)

Lemma dma_reads_app (a b : list AJAConsumer.DeviceCall) :
  Notions.dma_reads (a ++ b) = Notions.dma_reads a ++ Notions.dma_reads b.
Proof. unfold Notions.dma_reads. apply omap_app. Qed.

Lemma input_frames_app (a b : list AJAConsumer.DeviceCall) :
  Notions.input_frames (a ++ b) = Notions.input_frames a ++ Notions.input_frames b.
Proof. unfold Notions.input_frames. apply omap_app. Qed.

Lemma aja_loop_frames (numFrames maxFrameTime : Z) :
  forall (env : list AJAConsumer.Capture) (frameNumber hw : Z) (st : Consumer.State)
         (log : list Consumer.Disposition) (calls : list AJAConsumer.DeviceCall)
         (out : Consumer.Outcome) (calls' : list AJAConsumer.DeviceCall),
    AJAConsumer.loop numFrames maxFrameTime env frameNumber hw st log calls
    = Some (out, calls') ->
    exists (k : nat) (more : list AJAConsumer.DeviceCall),
      calls' = calls ++ more
      /\ Notions.dma_reads more = Notions.alternate hw k
      /\ Notions.input_frames more = Notions.alternate (Z.lxor hw 1) k
      /\ (Consumer.result out = true -> 0 <= frameNumber <= numFrames -> numFrames < 2 ^ 31 ->
          Z.of_nat k = numFrames - frameNumber).
Proof.
  induction env as [|c env IH]; intros frameNumber hw st log calls out calls' Hloop;
    cbn [AJAConsumer.loop] in Hloop;
    destruct (Z.ltb_spec (u64 frameNumber) numFrames) as [Hlt|Hge];
    try (injection Hloop as <- <-; exists O, nil; rewrite app_nil_r;
         repeat (split; [reflexivity |]);
         intros _ Hrange Hbound; rewrite u64_counter in Hge by lia; cbn; lia).
  - discriminate Hloop.
  - set (base := calls ++ AJAConsumer.SetInputFrame (Z.lxor hw 1)
                        :: AJAConsumer.WaitForInputVerticalInterrupt 1
                        :: AJAConsumer.DMAReadFrame hw :: nil) in Hloop.
    set (waited := if maxFrameTime <? _ then _ else _) in Hloop.
    assert (exists extra,
               waited = (calls ++ AJAConsumer.SetInputFrame (Z.lxor hw 1)
                               :: AJAConsumer.WaitForInputVerticalInterrupt 1
                               :: AJAConsumer.DMAReadFrame hw :: nil) ++ extra
               /\ Notions.dma_reads extra = nil /\ Notions.input_frames extra = nil)
      as (extra & Hwaited & Hdma & Hinput).
    { subst waited base. destruct (maxFrameTime <? _).
      - eexists. split; [reflexivity |]. split; reflexivity.
      - exists nil. rewrite app_nil_r. split; [reflexivity |]. split; reflexivity. }
    clearbody waited. subst waited. clear base.
    destruct (AJAConsumer.frame c) as [p|].
    2: { injection Hloop as <- <-. exists 1%nat. eexists.
         split; [rewrite <- app_assoc; reflexivity |].
         rewrite dma_reads_app, input_frames_app, Hdma, Hinput.
         split; [reflexivity |]. split; [reflexivity |]. discriminate. }
    destruct (Consumer.Receive st p (AJAConsumer.receiveTime c) (AJAConsumer.readEnd c)
                               (AJAConsumer.copiedToGPU c)) as [[st' d]|];
      [| discriminate Hloop].
    destruct (IH _ _ _ _ _ _ _ Hloop) as (k & more & Hcalls & Hd & Hi & Hk).
    exists (S k). eexists.
    split; [rewrite Hcalls, <- !app_assoc; reflexivity |].
    rewrite !dma_reads_app, !input_frames_app, Hdma, Hinput, Hd, Hi.
    split; [reflexivity |]. split; [reflexivity |].
    intros Hok Hrange Hbound. rewrite u64_counter in Hlt by lia.
    rewrite s32_small in Hk by lia.
    specialize (Hk Hok ltac:(lia) Hbound). lia.
Qed.

Lemma alternate_frames (k : nat) :
  forall h, (h = 2 \/ h = 3) -> Forall (fun x => x = 2 \/ x = 3) (Notions.alternate h k).
Proof.
  induction k as [|k IH]; intros h Hh; cbn [Notions.alternate]; constructor; [exact Hh |].
  apply IH. destruct Hh as [->| ->]; [now right | now left].
Qed.

(** X16.  The AJA capture call works on the hardware frames 2 and 3 only.
    It first selects frame 2 for input; each iteration then selects the
    other frame for input and reads by DMA the frame that was selected
    before, so that the frames read are 2, 3, 2, 3, ... while the frames
    selected meanwhile are 3, 2, 3, 2, ...: a frame is never read while it
    is the one selected for input.  A call that returns true has read
    exactly [numFrames] frames. *)
Theorem aja_frames_alternate (fmt : TestFormat) (numFrames warmupFrames : Z)
        (env : list AJAConsumer.Capture) (st : Consumer.State)
        (out : Consumer.Outcome) (calls : list AJAConsumer.DeviceCall) :
  AJAConsumer.CaptureFrames fmt numFrames warmupFrames env st = Some (out, calls) ->
  exists k : nat,
    Notions.dma_reads calls = Notions.alternate 2 k
    /\ Notions.input_frames calls = 2 :: Notions.alternate 3 k
    /\ Forall (fun h => h = 2 \/ h = 3) (Notions.dma_reads calls ++ Notions.input_frames calls)
    /\ (Consumer.result out = true -> 0 <= numFrames < 2 ^ 31 -> Z.of_nat k = numFrames).
Proof.
  unfold AJAConsumer.CaptureFrames. intros Hrun.
  destruct (aja_loop_frames _ _ _ _ _ _ _ _ _ _ Hrun) as (k & more & -> & Hd & Hi & Hk).
  exists k.
  change (AJAConsumer.SetInputFrame 2 :: AJAConsumer.WaitForInputVerticalInterrupt warmupFrames
          :: more)
    with ((AJAConsumer.SetInputFrame 2
           :: AJAConsumer.WaitForInputVerticalInterrupt warmupFrames :: nil) ++ more).
  rewrite dma_reads_app, input_frames_app, Hd, Hi.
  change (Z.lxor 2 1) with 3.
  split; [reflexivity |]. split; [reflexivity |]. split.
  - cbn [Notions.dma_reads Notions.input_frames omap list_omap app].
    apply Forall_app. split; [apply alternate_frames; now left |].
    constructor; [now left | apply alternate_frames; now right].
  - intros Hok Hrange. rewrite (Hk Hok) by lia. lia.
Qed.

Lemma aja_frames_alternate_witness :
  let st := Consumer.mkState (<[0%nat := FrameOps.make 7]> (<[1%nat := FrameOps.make 8]> ∅)) nil in
  let env := AJAConsumer.mkCapture 20 21 22 (Some 0%nat)
             :: AJAConsumer.mkCapture 30 31 32 (Some 1%nat)
             :: AJAConsumer.mkCapture 40 41 42 (Some 1%nat) :: nil in
  exists out calls,
    AJAConsumer.CaptureFrames Formats.FORMAT_1080_RGBA_60 3 60 env st = Some (out, calls)
    /\ Consumer.result out = true
    /\ Notions.dma_reads calls = 2 :: 3 :: 2 :: nil
    /\ Notions.input_frames calls = 2 :: 3 :: 2 :: 3 :: nil.
Proof.
  cbv zeta.
  set (st := Consumer.mkState _ _).
  set (env := AJAConsumer.mkCapture 20 21 22 (Some 0%nat) :: _).
  assert (exists out calls,
             AJAConsumer.CaptureFrames Formats.FORMAT_1080_RGBA_60 3 60 env st = Some (out, calls)
             /\ Consumer.result out = true)
    as (out & calls & Hrun & Hok).
  { eexists _, _. split; [vm_compute; reflexivity | reflexivity]. }
  exists out, calls. split; [exact Hrun |]. split; [exact Hok |].
  destruct (aja_frames_alternate _ _ _ _ _ _ _ Hrun) as (k & Hd & Hi & _ & Hk).
  specialize (Hk Hok ltac:(lia)).
  assert (k = 3%nat) as -> by lia.
  split; [exact Hd | exact Hi].
Defined.

(** ** The GStreamer buffer callback: the two countdowns *)

(** X17.  One call of the GStreamer buffer callback, on countdowns that
    are [size_t] values, does one of three things: it changes nothing and
    logs nothing; or, while the warm-up countdown is positive, it lowers
    that countdown by exactly one, logs one discarded capture and touches
    neither the other countdown nor the frames; or, once the warm-up
    countdown is zero and frames remain, it lowers the frames-remaining
    countdown by exactly one and logs the one frame it measured, appended
    or counted as a duplicate.  So it leaves [m_numFrames] alone, lowers at
    most one countdown, by one and never below zero, and once both
    countdowns are zero it changes nothing at all. *)
Theorem gstreamer_countdown (cnt cnt' : GStreamerConsumer.Counters)
        (st st' : Consumer.State) (sample_ok buffer_ok map_ok : bool)
        (t1 t2 t3 : TimePoint) (found : option nat) (ds : list Consumer.Disposition)
        (flow : GStreamerConsumer.GstFlowReturn) :
  0 <= GStreamerConsumer.m_warmupFramesRemaining cnt < 2 ^ 64 ->
  0 <= GStreamerConsumer.m_framesRemaining cnt < 2 ^ 64 ->
  GStreamerConsumer.BufferCallback cnt st sample_ok buffer_ok map_ok t1 t2 t3 found
  = Some (flow, cnt', st', ds) ->
  GStreamerConsumer.m_numFrames cnt' = GStreamerConsumer.m_numFrames cnt
  /\ 0 <= GStreamerConsumer.m_warmupFramesRemaining cnt'
     <= GStreamerConsumer.m_warmupFramesRemaining cnt
  /\ 0 <= GStreamerConsumer.m_framesRemaining cnt'
     <= GStreamerConsumer.m_framesRemaining cnt
  /\ GStreamerConsumer.m_warmupFramesRemaining cnt' + GStreamerConsumer.m_framesRemaining cnt'
     + Z.of_nat (List.length ds)
     = GStreamerConsumer.m_warmupFramesRemaining cnt + GStreamerConsumer.m_framesRemaining cnt
  /\ (0 < GStreamerConsumer.m_warmupFramesRemaining cnt ->
      st' = st /\ GStreamerConsumer.m_framesRemaining cnt' = GStreamerConsumer.m_framesRemaining cnt)
  /\ (GStreamerConsumer.m_warmupFramesRemaining cnt = 0 ->
      GStreamerConsumer.m_framesRemaining cnt = 0 ->
      cnt' = cnt /\ st' = st /\ ds = nil)
  /\ ((ds = nil /\ cnt' = cnt /\ st' = st)
      \/ (ds = Consumer.Discarded :: nil
          /\ flow = GStreamerConsumer.GST_FLOW_OK
          /\ 0 < GStreamerConsumer.m_warmupFramesRemaining cnt
          /\ GStreamerConsumer.m_warmupFramesRemaining cnt'
             = GStreamerConsumer.m_warmupFramesRemaining cnt - 1
          /\ GStreamerConsumer.m_framesRemaining cnt' = GStreamerConsumer.m_framesRemaining cnt
          /\ st' = st)
      \/ (exists p,
             found = Some p
             /\ (ds = Consumer.Appended p :: nil \/ ds = Consumer.Duplicate p :: nil)
             /\ flow = GStreamerConsumer.GST_FLOW_OK
             /\ GStreamerConsumer.m_warmupFramesRemaining cnt = 0
             /\ GStreamerConsumer.m_warmupFramesRemaining cnt' = 0
             /\ 0 < GStreamerConsumer.m_framesRemaining cnt
             /\ GStreamerConsumer.m_framesRemaining cnt'
                = GStreamerConsumer.m_framesRemaining cnt - 1)).
Proof.
  intros Hw Hr. unfold GStreamerConsumer.BufferCallback. intros H.
  assert (forall f c s, Some (f, cnt, st, @nil Consumer.Disposition) = Some (flow, c, s, ds) ->
                      c = cnt' -> s = st' ->
                      GStreamerConsumer.m_numFrames cnt' = GStreamerConsumer.m_numFrames cnt
                      /\ 0 <= GStreamerConsumer.m_warmupFramesRemaining cnt'
                         <= GStreamerConsumer.m_warmupFramesRemaining cnt
                      /\ 0 <= GStreamerConsumer.m_framesRemaining cnt'
                         <= GStreamerConsumer.m_framesRemaining cnt
                      /\ GStreamerConsumer.m_warmupFramesRemaining cnt'
                         + GStreamerConsumer.m_framesRemaining cnt'
                         + Z.of_nat (List.length ds)
                         = GStreamerConsumer.m_warmupFramesRemaining cnt
                           + GStreamerConsumer.m_framesRemaining cnt
                      /\ (0 < GStreamerConsumer.m_warmupFramesRemaining cnt ->
                          st' = st
                          /\ GStreamerConsumer.m_framesRemaining cnt'
                             = GStreamerConsumer.m_framesRemaining cnt)
                      /\ (GStreamerConsumer.m_warmupFramesRemaining cnt = 0 ->
                          GStreamerConsumer.m_framesRemaining cnt = 0 ->
                          cnt' = cnt /\ st' = st /\ ds = nil)
                      /\ ((ds = nil /\ cnt' = cnt /\ st' = st)
                          \/ (ds = Consumer.Discarded :: nil
                              /\ flow = GStreamerConsumer.GST_FLOW_OK
                              /\ 0 < GStreamerConsumer.m_warmupFramesRemaining cnt
                              /\ GStreamerConsumer.m_warmupFramesRemaining cnt'
                                 = GStreamerConsumer.m_warmupFramesRemaining cnt - 1
                              /\ GStreamerConsumer.m_framesRemaining cnt'
                                 = GStreamerConsumer.m_framesRemaining cnt
                              /\ st' = st)
                          \/ (exists p,
                                 found = Some p
                                 /\ (ds = Consumer.Appended p :: nil
                                     \/ ds = Consumer.Duplicate p :: nil)
                                 /\ flow = GStreamerConsumer.GST_FLOW_OK
                                 /\ GStreamerConsumer.m_warmupFramesRemaining cnt = 0
                                 /\ GStreamerConsumer.m_warmupFramesRemaining cnt' = 0
                                 /\ 0 < GStreamerConsumer.m_framesRemaining cnt
                                 /\ GStreamerConsumer.m_framesRemaining cnt'
                                    = GStreamerConsumer.m_framesRemaining cnt - 1))) as Hsame.
  { intros f c s Heq <- <-. injection Heq as _ <- <- <-. cbn [List.length].
    do 6 (split; [first [lia | auto] |]). left. auto. }
  destruct (negb sample_ok); [eapply Hsame; [exact H | reflexivity ..] |].
  destruct (negb buffer_ok); [eapply Hsame; [exact H | reflexivity ..] |].
  destruct (Z.eqb_spec (GStreamerConsumer.m_warmupFramesRemaining cnt) 0) as [Hw0|Hwpos];
    cbn [negb] in H.
  2: { injection H as <- <- <- <-.
       cbn [GStreamerConsumer.m_numFrames GStreamerConsumer.m_warmupFramesRemaining
            GStreamerConsumer.m_framesRemaining List.length].
       rewrite u64_small by lia.
       do 6 (split; [first [lia | auto | intros; lia] |]).
       right. left. repeat split; lia. }
  destruct (Z.eqb_spec (GStreamerConsumer.m_framesRemaining cnt) 0) as [Hr0|Hrpos];
    cbn [negb] in H; [eapply Hsame; [exact H | reflexivity ..] |].
  destruct (negb map_ok); [eapply Hsame; [exact H | reflexivity ..] |].
  destruct found as [p|]; [| eapply Hsame; [exact H | reflexivity ..]].
  destruct (Consumer.Receive st p t1 t2 t3) as [[st1 d]|] eqn:Hreceive; [| discriminate H].
  injection H as <- <- <- <-.
  cbn [GStreamerConsumer.m_numFrames GStreamerConsumer.m_warmupFramesRemaining
       GStreamerConsumer.m_framesRemaining List.length].
  rewrite u64_small by lia.
  do 6 (split; [first [lia | auto | intros; lia] |]).
  right. right. exists p. split; [reflexivity |].
  split; [| repeat split; lia].
  destruct (Receive_spec _ _ _ _ _ _ _ Hreceive) as (frame & _ & [(-> & _)|(-> & _)]); auto.
Qed.

Lemma gstreamer_countdown_witness :
  let st := Consumer.mkState (<[0%nat := FrameOps.make 7]> ∅) nil in
  exists st',
    GStreamerConsumer.BufferCallback (GStreamerConsumer.mkCounters 5 0 3)
      st true true true 1 2 3 (Some 0%nat)
    = Some (GStreamerConsumer.GST_FLOW_OK, GStreamerConsumer.mkCounters 5 0 2, st',
            Consumer.Appended 0%nat :: nil)
    /\ 0 + 2 + Z.of_nat (List.length (Consumer.Appended 0%nat :: nil)) = 0 + 3.
Proof.
  cbv zeta.
  set (st := Consumer.mkState _ _).
  assert (exists st',
             GStreamerConsumer.BufferCallback (GStreamerConsumer.mkCounters 5 0 3)
               st true true true 1 2 3 (Some 0%nat)
             = Some (GStreamerConsumer.GST_FLOW_OK, GStreamerConsumer.mkCounters 5 0 2, st',
                     Consumer.Appended 0%nat :: nil)) as [st' Hcall]
      by (eexists; vm_compute; reflexivity).
  exists st'. split; [exact Hcall |].
  assert (0 <= 0 < 2 ^ 64) as Hw by lia.
  assert (0 <= 3 < 2 ^ 64) as Hr by lia.
  exact (proj1 (proj2 (proj2 (proj2
           (gstreamer_countdown (GStreamerConsumer.mkCounters 5 0 3) _ st st'
                                true true true 1 2 3 (Some 0%nat) _ _ Hw Hr Hcall))))).
Defined.

(** ** The packed pixel and the order of the threads *)

Lemma lor_disjoint (hi lo n : Z) :
  0 <= n -> 0 <= lo < 2 ^ n -> Z.lor (hi * 2 ^ n) lo = hi * 2 ^ n + lo.
Proof.
  intros Hn Hlo.
  assert (Z.land (hi * 2 ^ n) lo = 0) as Hland.
  { apply Z.bits_inj'. intros i Hi. rewrite Z.land_spec, Z.bits_0.
    destruct (Z.lt_ge_cases i n) as [Hlt|Hge].
    - rewrite Z.mul_pow2_bits_low by lia. reflexivity.
    - rewrite <- (Z.mod_small lo (2 ^ n)) by lia.
      rewrite Z.mod_pow2_bits_high by lia. apply andb_false_r. }
  rewrite <- Z.lxor_lor by exact Hland.
  symmetry. apply Z.add_nocarry_lxor. exact Hland.
Qed.

Lemma abgr_value (r g b : Z) :
  0 <= r < 256 -> 0 <= g < 256 -> 0 <= b < 256 ->
  Cuda.abgr r g b = 255 * 2 ^ 24 + b * 2 ^ 16 + g * 2 ^ 8 + r.
Proof.
  intros Hr Hg Hb. rewrite abgr_packed by assumption.
  rewrite !Z.shiftl_mul_pow2 by lia.
  change (2 ^ 0) with 1. rewrite Z.mul_1_r.
  rewrite (lor_disjoint 255 (b * 2 ^ 16) 24) by lia.
  replace (255 * 2 ^ 24 + b * 2 ^ 16) with ((255 * 2 ^ 8 + b) * 2 ^ 16) by lia.
  rewrite (lor_disjoint (255 * 2 ^ 8 + b) (g * 2 ^ 8) 16) by lia.
  replace ((255 * 2 ^ 8 + b) * 2 ^ 16 + g * 2 ^ 8)
    with (((255 * 2 ^ 8 + b) * 2 ^ 8 + g) * 2 ^ 8) by lia.
  rewrite (lor_disjoint ((255 * 2 ^ 8 + b) * 2 ^ 8 + g) r 8) by lia.
  lia.
Qed.

(** X18.  The value that [CudaWriteRGBA] packs from three byte channels
    is a 32-bit value whose four bytes are, from the least significant one,
    r, g, b and 255: in the little-endian memory of the buffer a pixel is
    the bytes r, g, b, 255, and each channel can be read back from it. *)
Theorem packed_pixel_channels (r g b : Z) :
  0 <= r < 256 -> 0 <= g < 256 -> 0 <= b < 256 ->
  let v := Cuda.abgr r g b in
  0 <= v < 2 ^ 32
  /\ Z.land v 0xFF = r
  /\ Z.land (Z.shiftr v 8) 0xFF = g
  /\ Z.land (Z.shiftr v 16) 0xFF = b
  /\ Z.land (Z.shiftr v 24) 0xFF = 255.
Proof.
  intros Hr Hg Hb. cbv zeta. rewrite (abgr_value r g b Hr Hg Hb).
  change 0xFF with (Z.ones 8).
  rewrite !Z.land_ones, !Z.shiftr_div_pow2 by lia.
  change (Z.ones 8) with 255.
  change (2 ^ 8) with 256. change (2 ^ 16) with 65536.
  change (2 ^ 24) with 16777216. change (2 ^ 32) with 4294967296.
  repeat split; try lia; Z.div_mod_to_equations; lia.
Qed.

Lemma packed_pixel_channels_witness :
  let v := Cuda.abgr 8 24 40 in
  v = 0xFF281808 /\ Z.land (Z.shiftr v 8) 0xFF = 24.
Proof.
  cbv zeta. split; [reflexivity |].
  exact (proj1 (proj2 (proj2 (packed_pixel_channels 8 24 40
                                ltac:(lia) ltac:(lia) ltac:(lia))))).
Defined.

(** X19.  The outcome of the launch does not depend on the order in which
    the threads run: for at most 2^31 elements, running the threads of the
    grid in any order of any list that holds each of them gives, element by
    element, the memory that running them block by block gives. *)
Theorem launch_order_is_irrelevant (fuel : nat) (mem : Cuda.Memory) (elementCount value : Z)
        (order : list (Z * Z)) :
  (0 < fuel)%nat ->
  0 <= elementCount <= 2 ^ 31 ->
  Permutation order
    (Cuda.threads (Z.to_nat (Cuda.numBlocks elementCount)) (Z.to_nat Cuda.blockSize)) ->
  exists shuffled ordered,
    Cuda.launch fuel (Cuda.numBlocks elementCount) Cuda.blockSize order
                mem elementCount value = Some shuffled
    /\ Cuda.launch fuel (Cuda.numBlocks elementCount) Cuda.blockSize
                   (Cuda.threads (Z.to_nat (Cuda.numBlocks elementCount))
                                 (Z.to_nat Cuda.blockSize))
                   mem elementCount value = Some ordered
    /\ forall i, shuffled i = ordered i.
Proof.
  intros Hfuel HN Hperm. change Cuda.blockSize with 1024 in *.
  destruct (numBlocks_ceiling elementCount HN) as [Hnb Hceil].
  assert (0 <= Cuda.numBlocks elementCount) as Hnb0 by lia.
  assert (Forall (fun bt : Z * Z => 0 <= fst bt < Cuda.numBlocks elementCount
                                    /\ 0 <= snd bt < 1024)
                 (Cuda.threads (Z.to_nat (Cuda.numBlocks elementCount)) (Z.to_nat 1024)))
    as Hgrid.
  { eapply List.Forall_impl; [| apply threads_in_range].
    intros [b' t'] H. cbn in *. rewrite Z2Nat.id in H by lia.
    change (Z.of_nat (Z.to_nat 1024)) with 1024 in H. exact H. }
  assert (Forall (fun bt : Z * Z => 0 <= fst bt < Cuda.numBlocks elementCount
                                    /\ 0 <= snd bt < 1024) order) as Horder.
  { rewrite List.Forall_forall in *. intros bt Hin. apply Hgrid.
    eapply Permutation_in; eassumption. }
  assert (forall i, 0 <= i < elementCount ->
                    In (i / 1024, i mod 1024)
                       (Cuda.threads (Z.to_nat (Cuda.numBlocks elementCount)) (Z.to_nat 1024))
                    /\ i / 1024 * 1024 + i mod 1024 = i
                    /\ i / 1024 * 1024 + i mod 1024 < elementCount) as Hthread.
  { intros i Hi. split; [| Z.div_mod_to_equations; lia].
    apply threads_cover.
    - rewrite Z2Nat.id by lia. Z.div_mod_to_equations. lia.
    - change (Z.of_nat (Z.to_nat 1024)) with 1024. apply Z.mod_pos_bound. lia. }
  destruct (launch_writes fuel elementCount value Hfuel HN order mem Horder)
    as (shuffled & Hrun1 & _ & Hwritten1 & Hout1).
  destruct (launch_writes fuel elementCount value Hfuel HN _ mem Hgrid)
    as (ordered & Hrun2 & _ & Hwritten2 & Hout2).
  exists shuffled, ordered. split; [exact Hrun1 |]. split; [exact Hrun2 |].
  intros i. destruct (Z.le_gt_cases 0 i) as [H0|Hneg].
  - destruct (Z.lt_ge_cases i elementCount) as [Hlt|Hge].
    + destruct (Hthread i ltac:(lia)) as (Hin & Heq & Hbound).
      rewrite <- Heq. rewrite Hwritten2 by assumption.
      apply Hwritten1; [| exact Hbound].
      eapply Permutation_in; [symmetry; exact Hperm | exact Hin].
    + rewrite Hout1, Hout2 by lia. reflexivity.
  - rewrite Hout1, Hout2 by lia. reflexivity.
Qed.

Lemma launch_order_is_irrelevant_witness :
  exists shuffled ordered,
    Cuda.launch 1 (Cuda.numBlocks 3) Cuda.blockSize
                (rev (Cuda.threads (Z.to_nat (Cuda.numBlocks 3)) (Z.to_nat Cuda.blockSize)))
                (fun _ => 0) 3 9 = Some shuffled
    /\ Cuda.launch 1 (Cuda.numBlocks 3) Cuda.blockSize
                   (Cuda.threads (Z.to_nat (Cuda.numBlocks 3)) (Z.to_nat Cuda.blockSize))
                   (fun _ => 0) 3 9 = Some ordered
    /\ forall i, shuffled i = ordered i.
Proof.
  apply (launch_order_is_irrelevant 1 (fun _ => 0) 3 9).
  - lia.
  - lia.
  - symmetry. apply Permutation_rev.
Defined.

(** ** The AJA devices *)

Lemma clamp_long_in_range (k : Z) : LONG_MIN <= k <= LONG_MAX -> Notions.clamp_long k = k.
Proof. unfold Notions.clamp_long. lia. Qed.

(** X20.  The channel of an AJA device is read from the text of the
    [-p.channel] or [-c.channel] option with [strtol]: the decimal text of
    a number from 1 to [NTV2_MAX_NUM_CHANNELS] selects the channel of that
    number, which [Dump] prints back as NTV2_CHANNEL followed by the same
    number; any other number, and so the text "0", selects the value
    [NTV2_MAX_NUM_CHANNELS], which is no channel.  Without the option the
    producer uses channel 1 and the consumer channel 2, and without a
    device option both use the device "0". *)
Theorem aja_channel_of_text (NTV2_MAX_NUM_CHANNELS : Z)
        (constant_padding : TestFormat -> Z * Z) (format : TestFormatOps.Object)
        (device : string) (useRDMA : bool) (idx : Z) (rest : string) :
  2 <= NTV2_MAX_NUM_CHANNELS < LONG_MAX ->
  Notions.ends_number rest ->
  AJABase.GetNTV2Channel 0 NTV2_MAX_NUM_CHANNELS (show idx +++ rest)
  = (if (1 <=? idx) && (idx <=? NTV2_MAX_NUM_CHANNELS) then idx - 1
     else NTV2_MAX_NUM_CHANNELS)
  /\ (1 <= idx <= NTV2_MAX_NUM_CHANNELS ->
      AJABase.Dump (AJABase.make 0 NTV2_MAX_NUM_CHANNELS constant_padding format device
                                 (show idx) useRDMA)
      = "AJA" +++ endl
        +++ "    Device: " +++ (if Nat.eqb (String.length device) 0 then "0" else device) +++ endl
        +++ "    Channel: NTV2_CHANNEL" +++ show idx +++ endl
        +++ "    RDMA: " +++ (if useRDMA then "1" else "0") +++ endl)
  /\ AJABase.m_channel
       (AJABase.AJAProducer_make 0 NTV2_MAX_NUM_CHANNELS constant_padding format device ""
                                 useRDMA) = 0
  /\ AJABase.m_channel
       (AJABase.AJAConsumer_make 0 NTV2_MAX_NUM_CHANNELS constant_padding format device ""
                                 useRDMA) = 1
  /\ AJABase.m_deviceSpecifier
       (AJABase.make 0 NTV2_MAX_NUM_CHANNELS constant_padding format ""
                     (show idx +++ rest) useRDMA) = "0".
Proof.
  intros Hmax Hrest.
  assert (forall k tail, Notions.ends_number tail ->
                         AJABase.GetNTV2Channel 0 NTV2_MAX_NUM_CHANNELS (show k +++ tail)
                         = (if (1 <=? k) && (k <=? NTV2_MAX_NUM_CHANNELS) then k - 1
                            else NTV2_MAX_NUM_CHANNELS)) as Hchannel.
  { intros k tail Htail. unfold AJABase.GetNTV2Channel. rewrite (strtol_show k tail Htail).
    unfold Notions.clamp_long, LONG_MAX, LONG_MIN in *.
    change (2 ^ 63) with 9223372036854775808 in *.
    set (clamped := Z.max _ _).
    assert (clamped = k \/ (k < clamped /\ clamped < 0)
            \/ (clamped < k /\ NTV2_MAX_NUM_CHANNELS < clamped)) as Hclamped
        by (subst clamped; lia).
    clearbody clamped.
    destruct (Z.leb_spec 1 k), (Z.leb_spec k NTV2_MAX_NUM_CHANNELS),
      (Z.ltb_spec clamped 1), (Z.ltb_spec NTV2_MAX_NUM_CHANNELS clamped);
      cbn [andb orb]; lia. }
  split; [apply Hchannel; exact Hrest |].
  split; [| split; [| split]].
  - intros Hidx. unfold AJABase.Dump, AJABase.make.
    cbn [AJABase.m_deviceSpecifier AJABase.m_channel AJABase.m_useRDMA].
    rewrite <- (append_empty (show idx)) at 1.
    rewrite (Hchannel idx "" I).
    destruct (Z.leb_spec 1 idx); [| lia].
    destruct (Z.leb_spec idx NTV2_MAX_NUM_CHANNELS); [| lia].
    cbn [andb]. replace (idx - 1 + 1) with idx by lia. reflexivity.
  - unfold AJABase.AJAProducer_make, AJABase.make. cbn [String.length Nat.eqb AJABase.m_channel].
    change "1" with (show 1 +++ ""). rewrite (Hchannel 1 "" I).
    destruct (Z.leb_spec 1 NTV2_MAX_NUM_CHANNELS); [reflexivity | lia].
  - unfold AJABase.AJAConsumer_make, AJABase.make. cbn [String.length Nat.eqb AJABase.m_channel].
    change "2" with (show 2 +++ ""). rewrite (Hchannel 2 "" I).
    destruct (Z.leb_spec 2 NTV2_MAX_NUM_CHANNELS); [reflexivity | lia].
  - reflexivity.
Qed.

Lemma aja_channel_of_text_witness :
  AJABase.GetNTV2Channel 0 8 "3" = 2
  /\ AJABase.GetNTV2Channel 0 8 "9" = 8
  /\ AJABase.Dump
       (AJABase.make 0 8 (fun _ => (0, 0))
                     (TestFormatOps.mkObject Formats.FORMAT_1080_RGBA_60 0 0) "" "3" true)
     = "AJA" +++ endl +++ "    Device: 0" +++ endl
       +++ "    Channel: NTV2_CHANNEL3" +++ endl +++ "    RDMA: 1" +++ endl.
Proof.
  destruct (aja_channel_of_text 8 (fun _ => (0, 0))
              (TestFormatOps.mkObject Formats.FORMAT_1080_RGBA_60 0 0) "" true 3 "")
    as (Hthree & Hdump & _); [unfold LONG_MAX; lia | exact I |].
  destruct (aja_channel_of_text 8 (fun _ => (0, 0))
              (TestFormatOps.mkObject Formats.FORMAT_1080_RGBA_60 0 0) "" true 9 "")
    as (Hnine & _); [unfold LONG_MAX; lia | exact I |].
  split; [exact Hthree |]. split; [exact Hnine |].
  exact (Hdump ltac:(lia)).
Defined.

Lemma le_bytes_length (n : nat) : forall z, List.length (TestFormatOps.le_bytes n z) = n.
Proof. induction n as [|n IH]; intros z; cbn; [reflexivity | rewrite IH; reflexivity]. Qed.

Lemma le_bytes_inj (n : nat) :
  forall a b,
    0 <= a < 256 ^ Z.of_nat n -> 0 <= b < 256 ^ Z.of_nat n ->
    TestFormatOps.le_bytes n a = TestFormatOps.le_bytes n b -> a = b.
Proof.
  induction n as [|n IH]; intros a b Ha Hb H.
  - change (256 ^ Z.of_nat 0) with 1 in *. lia.
  - cbn [TestFormatOps.le_bytes] in H. injection H as Hlow Hrest.
    rewrite Nat2Z.inj_succ, Z.pow_succ_r in Ha, Hb by lia.
    assert (a / 256 = b / 256) as Hhigh.
    { apply IH; [| | exact Hrest]; split;
        first [apply Z.div_pos; lia | apply Z.div_lt_upper_bound; lia]. }
    pose proof (Z.div_mod a 256 ltac:(lia)) as Hda.
    pose proof (Z.div_mod b 256 ltac:(lia)) as Hdb.
    rewrite Hda, Hdb, Hhigh, Hlow. reflexivity.
Qed.

Lemma memcmp_zero (a : list Z) :
  forall b, List.length a = List.length b -> (TestFormatOps.memcmp a b = 0 <-> a = b).
Proof.
  induction a as [|x a IH]; intros [|y b] Hlen; cbn [List.length] in Hlen; try discriminate Hlen;
    cbn [TestFormatOps.memcmp].
  - split; reflexivity.
  - destruct (Z.eqb_spec x y) as [->|Hxy].
    + rewrite IH by lia. split; [intros ->; reflexivity | intros H; injection H; auto].
    + split; [lia | intros H; injection H; intros; contradiction].
Qed.

Lemma bytes_length (o : TestFormatOps.Object) : List.length (TestFormatOps.bytes o) = 48%nat.
Proof. unfold TestFormatOps.bytes. rewrite !length_app, !le_bytes_length. reflexivity. Qed.

(** On values of their types, [operator==] holds of two objects exactly
    when their members and their padding bytes agree. *)
Lemma TestFormat_equal_eq (a b : TestFormatOps.Object) :
  TestFormatOps.well_formed a -> TestFormatOps.well_formed b ->
  (TestFormatOps.equal a b = true <-> a = b).
Proof.
  intros (Hw & Hh & Hbpp & Htb & Hfr & Hp1 & Hp2) (Hw' & Hh' & Hbpp' & Htb' & Hfr' & Hp1' & Hp2').
  unfold TestFormatOps.equal. rewrite Z.eqb_eq, memcmp_zero by (rewrite !bytes_length; reflexivity).
  split; [| intros ->; reflexivity].
  unfold TestFormatOps.bytes. intros H.
  repeat match type of H with
         | _ ++ _ = _ ++ _ =>
             apply app_inj_1 in H; [| rewrite !le_bytes_length; reflexivity];
             let Hpart := fresh "Hpart" in destruct H as [Hpart H]
         end.
  assert (forall pf, 0 <= TestFormatOps.PixelFormat_value pf < 256 ^ Z.of_nat 4) as Hpf
      by (intros []; cbn; lia).
  change (2 ^ 64) with (256 ^ Z.of_nat 8) in *. change (2 ^ 32) with (256 ^ Z.of_nat 4) in *.
  apply le_bytes_inj in Hpart, Hpart0, Hpart1, Hpart2, Hpart3, Hpart4, Hpart5, H;
    try assumption; try apply Hpf.
  destruct a as [[w h pf bpp tb fr] p1 p2], b as [[w' h' pf' bpp' tb' fr'] p1' p2'].
  cbn [TestFormatOps.members TestFormatOps.padding1 TestFormatOps.padding2
       width height pixelFormat bytesPerPixel totalBytes frameRate] in *.
  subst. f_equal. f_equal. destruct pf, pf'; first [reflexivity | discriminate Hpart1].
Qed.

Lemma constant_inj (constant_padding : TestFormat -> Z * Z) (f g : TestFormat) :
  TestFormatOps.constant constant_padding f = TestFormatOps.constant constant_padding g ->
  f = g.
Proof. intros H. exact (f_equal TestFormatOps.members H). Qed.

(** The seven ways in which [GetNTV2VideoFormat] ends. *)
Lemma GetNTV2VideoFormat_cases (constant_padding : TestFormat -> Z * Z)
      (format : TestFormatOps.Object) :
  TestFormatOps.well_formed format ->
  (forall f, In f Formats.selectable ->
             TestFormatOps.well_formed (TestFormatOps.constant constant_padding f)) ->
  let FORMAT := TestFormatOps.constant constant_padding in
  let video := AJABase.GetNTV2VideoFormat constant_padding format in
  (format = FORMAT Formats.FORMAT_720_RGBA_60 /\ video = AJABase.NTV2_FORMAT_720p_6000)
  \/ (format = FORMAT Formats.FORMAT_1080_RGBA_60 /\ video = AJABase.NTV2_FORMAT_1080p_6000_A)
  \/ (format = FORMAT Formats.FORMAT_UHD_RGBA_24
      /\ video = AJABase.NTV2_FORMAT_3840x2160p_2400)
  \/ (format = FORMAT Formats.FORMAT_UHD_RGBA_60
      /\ video = AJABase.NTV2_FORMAT_3840x2160p_6000)
  \/ (format = FORMAT Formats.FORMAT_4K_RGBA_24
      /\ video = AJABase.NTV2_FORMAT_4096x2160p_2400)
  \/ (format = FORMAT Formats.FORMAT_4K_RGBA_60
      /\ video = AJABase.NTV2_FORMAT_4096x2160p_6000)
  \/ ((forall f, In f Formats.selectable -> format <> FORMAT f)
      /\ video = AJABase.NTV2_FORMAT_UNKNOWN).
Proof.
  intros Hformat Hconstants. cbv zeta. unfold AJABase.GetNTV2VideoFormat. cbv zeta.
  assert (forall f, In f Formats.selectable ->
                    TestFormatOps.equal format (TestFormatOps.constant constant_padding f)
                    = true
                    <-> format = TestFormatOps.constant constant_padding f) as Heq.
  { intros f Hf. apply TestFormat_equal_eq; [exact Hformat | apply Hconstants; exact Hf]. }
  unfold Formats.selectable in Heq. cbn [In] in Heq.
  destruct (TestFormatOps.equal format
              (TestFormatOps.constant constant_padding Formats.FORMAT_720_RGBA_60)) eqn:H1;
    [apply Heq in H1; [tauto | tauto] |].
  destruct (TestFormatOps.equal format
              (TestFormatOps.constant constant_padding Formats.FORMAT_1080_RGBA_60)) eqn:H2;
    [apply Heq in H2; [tauto | tauto] |].
  destruct (TestFormatOps.equal format
              (TestFormatOps.constant constant_padding Formats.FORMAT_UHD_RGBA_24)) eqn:H3;
    [apply Heq in H3; [tauto | tauto] |].
  destruct (TestFormatOps.equal format
              (TestFormatOps.constant constant_padding Formats.FORMAT_UHD_RGBA_60)) eqn:H4;
    [apply Heq in H4; [tauto | tauto] |].
  destruct (TestFormatOps.equal format
              (TestFormatOps.constant constant_padding Formats.FORMAT_4K_RGBA_24)) eqn:H5;
    [apply Heq in H5; [tauto | tauto] |].
  destruct (TestFormatOps.equal format
              (TestFormatOps.constant constant_padding Formats.FORMAT_4K_RGBA_60)) eqn:H6;
    [apply Heq in H6; [tauto | tauto] |].
  do 6 right. split; [| reflexivity].
  unfold Formats.selectable. cbn [In]. intros f Hf Hsame.
  assert (TestFormatOps.equal format (TestFormatOps.constant constant_padding f) = true) as Htrue
      by (apply Heq; assumption).
  repeat (destruct Hf as [<-|Hf]; [congruence |]).
  exact Hf.
Qed.

(** X21.  The AJA devices translate a test format to an NTV2 video format
    by comparing the object with the six format constants of TestFormat.h,
    byte for byte and so with the padding bytes of the structure: an
    object has a video format other than [NTV2_FORMAT_UNKNOWN] exactly
    when its members and its padding bytes are those of one of the six
    constants, and an object that has the members of a constant but other
    padding bytes is unknown to them.  Two objects with the same known
    video format are the same object; the square-division (TSI) variant is
    chosen for exactly the known formats that are 3840 or 4096 pixels
    wide; and the pixel format of the six is ABGR. *)
Theorem aja_video_format_table (constant_padding : TestFormat -> Z * Z)
        (format : TestFormatOps.Object) :
  TestFormatOps.well_formed format ->
  (forall f, In f Formats.selectable ->
             TestFormatOps.well_formed (TestFormatOps.constant constant_padding f)) ->
  let video := AJABase.GetNTV2VideoFormat constant_padding in
  (video format <> AJABase.NTV2_FORMAT_UNKNOWN
   <-> exists f, In f Formats.selectable
                 /\ format = TestFormatOps.constant constant_padding f)
  /\ (In (TestFormatOps.members format) Formats.selectable ->
      (TestFormatOps.padding1 format, TestFormatOps.padding2 format)
      <> constant_padding (TestFormatOps.members format) ->
      video format = AJABase.NTV2_FORMAT_UNKNOWN)
  /\ (snd (AJABase.GetNTV2VideoFormatTSI (video format)) = true
      <-> video format <> AJABase.NTV2_FORMAT_UNKNOWN
          /\ 3840 <= width (TestFormatOps.members format))
  /\ (forall other,
         TestFormatOps.well_formed other ->
         video format <> AJABase.NTV2_FORMAT_UNKNOWN ->
         video other = video format ->
         other = format)
  /\ (In (TestFormatOps.members format) Formats.selectable ->
      AJABase.GetNTV2PixelFormat (TestFormatOps.members format) = AJABase.NTV2_FBF_ABGR).
Proof.
  intros Hformat Hconstants. cbv zeta.
  pose proof (GetNTV2VideoFormat_cases constant_padding format Hformat Hconstants) as Hcases.
  cbv zeta in Hcases.
  assert (forall f, In f Formats.selectable ->
                    format = TestFormatOps.constant constant_padding f ->
                    (TestFormatOps.padding1 format, TestFormatOps.padding2 format)
                    = constant_padding (TestFormatOps.members format)) as Hpadding.
  { intros f _ ->. cbn. destruct (constant_padding f); reflexivity. }
  split; [| split; [| split; [| split]]].
  - split.
    + intros Hknown.
      destruct Hcases as [[H _]|[[H _]|[[H _]|[[H _]|[[H _]|[[H _]|[_ H]]]]]]];
        first [contradiction
              | eexists; split; [| exact H]; unfold Formats.selectable; cbn [In]; tauto].
    + intros (f & Hf & Hsame).
      destruct Hcases as [[_ ->]|[[_ ->]|[[_ ->]|[[_ ->]|[[_ ->]|[[_ ->]|[H _]]]]]]];
        first [discriminate | exfalso; exact (H f Hf Hsame)].
  - intros _ Hother.
    destruct Hcases as [[H _]|[[H _]|[[H _]|[[H _]|[[H _]|[[H _]|[_ H]]]]]]];
      first [exact H
            | exfalso; apply Hother; eapply Hpadding; [| exact H];
              unfold Formats.selectable; cbn [In]; tauto].
  - destruct Hcases as [[H ->]|[[H ->]|[[H ->]|[[H ->]|[[H ->]|[[H ->]|[_ ->]]]]]]];
      try rewrite H; cbn; split;
      first [intros [Hu _]; exfalso; apply Hu; reflexivity
            | intros [_ Hwide]; first [reflexivity | lia]
            | intros Htsi; first [discriminate Htsi | split; [discriminate | lia]]].
  - intros other Hother Hknown Hsame.
    pose proof (GetNTV2VideoFormat_cases constant_padding other Hother Hconstants) as Hcases'.
    cbv zeta in Hcases'. rewrite Hsame in Hcases'.
    destruct Hcases as [[H Hv]|[[H Hv]|[[H Hv]|[[H Hv]|[[H Hv]|[[H Hv]|[_ Hv]]]]]]];
      try contradiction; rewrite Hv in Hcases';
      destruct Hcases' as [[H' Hv']|[[H' Hv']|[[H' Hv']|[[H' Hv']|[[H' Hv']|[[H' Hv']|[_ Hv']]]]]]];
      try discriminate Hv'; congruence.
  - unfold Formats.selectable. cbn [In]. intros Hin.
    repeat (destruct Hin as [<-|Hin]; [reflexivity |]). destruct Hin.
Qed.

Lemma aja_video_format_table_witness :
  let constant_padding := fun _ : TestFormat => (0, 0) in
  AJABase.GetNTV2VideoFormat constant_padding
    (TestFormatOps.mkObject Formats.FORMAT_UHD_RGBA_24 0 0)
  = AJABase.NTV2_FORMAT_3840x2160p_2400
  /\ AJABase.GetNTV2VideoFormat constant_padding
       (TestFormatOps.mkObject Formats.FORMAT_UHD_RGBA_24 0 1)
     = AJABase.NTV2_FORMAT_UNKNOWN.
Proof.
  cbv zeta. split; [vm_compute; reflexivity |].
  assert (TestFormatOps.well_formed (TestFormatOps.mkObject Formats.FORMAT_UHD_RGBA_24 0 1))
    as Hformat by (vm_compute; intuition discriminate).
  assert (forall f, In f Formats.selectable ->
                    TestFormatOps.well_formed (TestFormatOps.constant (fun _ => (0, 0)) f))
    as Hconstants.
  { unfold Formats.selectable. cbn [In]. intros f Hf.
    repeat (destruct Hf as [<-|Hf]; [vm_compute; intuition discriminate |]). destruct Hf. }
  refine (proj1 (proj2 (aja_video_format_table (fun _ => (0, 0)) _ Hformat Hconstants)) _ _).
  - unfold Formats.selectable. cbn. tauto.
  - cbn. discriminate.
Defined.

(** X22.  [AJAProducer::Initialize] and [AJAConsumer::Initialize] are
    functions of type [bool] that return the status [AJA_STATUS_FEATURE]
    when the device cannot play, or capture, video: after the device was
    opened they report that as an error, do not set up the video, and, as
    the value of that status is not zero, return true.  They return true
    only in that case and when both [OpenDevice] and [SetupVideo]
    succeeded. *)
Theorem aja_initialize_result (AJA_FAILURE : AJABase.AJAStatus -> bool)
        (status_value : AJABase.AJAStatus -> Z) (m_deviceSpecifier : string)
        (opened setup : AJABase.AJAStatus * list Output) (capable : bool) :
  status_value AJABase.AJA_STATUS_FEATURE <> 0 ->
  (AJA_FAILURE (fst opened) = false ->
   AJABase.AJAProducer_Initialize AJA_FAILURE status_value m_deviceSpecifier opened false setup
   = (true,
      snd opened ++ Error ("Device '" +++ m_deviceSpecifier +++ "' cannot play video.") :: nil,
      false)
   /\ AJABase.AJAConsumer_Initialize AJA_FAILURE status_value m_deviceSpecifier opened false setup
      = (true,
         snd opened
         ++ Error ("Device '" +++ m_deviceSpecifier +++ "' cannot capture video.") :: nil,
         false))
  /\ (fst (fst (AJABase.AJAProducer_Initialize AJA_FAILURE status_value m_deviceSpecifier
                  opened capable setup)) = true
      <-> AJA_FAILURE (fst opened) = false
          /\ (capable = false \/ AJA_FAILURE (fst setup) = false))
  /\ (fst (fst (AJABase.AJAConsumer_Initialize AJA_FAILURE status_value m_deviceSpecifier
                  opened capable setup)) = true
      <-> AJA_FAILURE (fst opened) = false
          /\ (capable = false \/ AJA_FAILURE (fst setup) = false)).
Proof.
  intros Hvalue.
  assert (AJABase.status_as_bool status_value AJABase.AJA_STATUS_FEATURE = true) as Hfeature.
  { unfold AJABase.status_as_bool. apply negb_true_iff, Z.eqb_neq. exact Hvalue. }
  unfold AJABase.AJAProducer_Initialize, AJABase.AJAConsumer_Initialize.
  rewrite Hfeature.
  split; [intros ->; cbn [negb]; split; reflexivity |].
  destruct (AJA_FAILURE (fst opened)), capable, (AJA_FAILURE (fst setup));
    cbn [negb fst]; split; split; intuition congruence.
Qed.

Lemma aja_initialize_result_witness :
  let status_value (status : AJABase.AJAStatus) :=
    match status with
    | AJABase.AJA_STATUS_SUCCESS => 0
    | AJABase.AJA_STATUS_OPEN => -6
    | AJABase.AJA_STATUS_INITIALIZE => -4
    | AJABase.AJA_STATUS_UNSUPPORTED => -12
    | AJABase.AJA_STATUS_FEATURE => -11
    end in
  AJABase.AJAProducer_Initialize (fun status => status_value status <? 0) status_value "0"
    (AJABase.AJA_STATUS_SUCCESS, nil) false (AJABase.AJA_STATUS_SUCCESS, nil)
  = (true, Error "Device '0' cannot play video." :: nil, false).
Proof.
  cbv zeta.
  refine (proj1 (proj1 (aja_initialize_result _ _ "0" (AJABase.AJA_STATUS_SUCCESS, nil)
                          (AJABase.AJA_STATUS_SUCCESS, nil) false _) _)).
  - discriminate.
  - reflexivity.
Defined.

(** X23.  [AJABase::OpenDevice] prints nothing when it succeeds.  When
    it fails it prints exactly one error, but for one case: with RDMA, when
    the attribute cannot be set on the CUDA pointer, [CudaAlloc] prints
    its own error and returns null, and [OpenDevice] adds that it failed to
    allocate CUDA memory.  When it succeeds it has locked exactly one
    buffer for DMA, the host buffer before the CUDA allocation without RDMA
    and the CUDA buffer after it with RDMA; the video format that the
    device was asked to support, and for which the buffers are sized, is the
    square-division variant, with [m_useTSI] set accordingly, exactly when
    the device has more than one HDMI input; the device specifier, the
    pixel format, the channel and the RDMA flag are never changed. *)
Theorem aja_open_device (board : AJABase.Board) (st st' : AJABase.State)
        (status : AJABase.AJAStatus) (out : list Output)
        (calls : list AJABase.BufferCall) :
  AJABase.OpenDevice board st = (status, st', out, calls) ->
  (status = AJABase.AJA_STATUS_SUCCESS /\ out = nil
   \/ status <> AJABase.AJA_STATUS_SUCCESS /\ status <> AJABase.AJA_STATUS_FEATURE
      /\ ((exists x, out = Error x :: nil)
          \/ (AJABase.m_useRDMA st = true
              /\ AJABase.sync_memops_fails board = true
              /\ status = AJABase.AJA_STATUS_INITIALIZE
              /\ out = Error "Failed to set CU_POINTER_ATTRIBUTE_SYNC_MEMOPS"
                       :: Error "Failed to allocate CUDA memory." :: nil)))
  /\ AJABase.m_deviceSpecifier st' = AJABase.m_deviceSpecifier st
  /\ AJABase.m_pixelFormat st' = AJABase.m_pixelFormat st
  /\ AJABase.m_channel st' = AJABase.m_channel st
  /\ AJABase.m_useRDMA st' = AJABase.m_useRDMA st
  /\ (status = AJABase.AJA_STATUS_SUCCESS ->
      let bytes :=
        AJABase.total_bytes board (AJABase.m_videoFormat st') (AJABase.m_pixelFormat st') in
      calls = (if AJABase.m_useRDMA st
               then AJABase.CudaAlloc bytes true :: AJABase.DMABufferLock true bytes :: nil
               else AJABase.DMABufferLock false bytes :: AJABase.CudaAlloc bytes false :: nil)
      /\ AJABase.can_do_video_format board (AJABase.m_videoFormat st') = true
      /\ AJABase.can_do_frame_buffer_format board (AJABase.m_pixelFormat st') = true
      /\ AJABase.m_cudaBuffer st' = true
      /\ AJABase.cuda_pointer board = true
      /\ (AJABase.m_useRDMA st = true -> AJABase.sync_memops_fails board = false)
      /\ AJABase.m_konaHDMI st' = (1 <? AJABase.hdmi_video_inputs board)
      /\ (AJABase.m_videoFormat st', AJABase.m_useTSI st')
         = (if 1 <? AJABase.hdmi_video_inputs board
            then AJABase.GetNTV2VideoFormatTSI (AJABase.m_videoFormat st)
            else (AJABase.m_videoFormat st, AJABase.m_useTSI st))).
Proof.
  unfold AJABase.OpenDevice. intros H.
  destruct (AJABase.device_found board); cbn [negb] in H.
  2: { injection H as <- <- <- <-. split; [right; repeat split; try discriminate; eauto |].
       do 4 (split; [reflexivity |]). discriminate. }
  destruct (AJABase.device_ready board); cbn [negb] in H.
  2: { injection H as <- <- <- <-. split; [right; repeat split; try discriminate; eauto |].
       do 4 (split; [reflexivity |]). discriminate. }
  destruct (if 1 <? AJABase.hdmi_video_inputs board
            then AJABase.GetNTV2VideoFormatTSI (AJABase.m_videoFormat st)
            else (AJABase.m_videoFormat st, AJABase.m_useTSI st))
    as [videoFormat useTSI] eqn:Hformat.
  cbn [AJABase.m_pixelFormat AJABase.m_useRDMA AJABase.m_deviceSpecifier
       AJABase.m_channel AJABase.m_cudaBuffer] in H.
  destruct (AJABase.can_do_video_format board videoFormat) eqn:Hvideo; cbn [negb] in H.
  2: { injection H as <- <- <- <-. split; [right; repeat split; try discriminate; eauto |].
       do 4 (split; [reflexivity |]). discriminate. }
  destruct (AJABase.can_do_frame_buffer_format board (AJABase.m_pixelFormat st)) eqn:Hpixel;
    cbn [negb] in H.
  2: { injection H as <- <- <- <-. split; [right; repeat split; try discriminate; eauto |].
       do 4 (split; [reflexivity |]). discriminate. }
  rewrite Z.eqb_refl in H. cbn [negb] in H. unfold CudaUtils.CudaAlloc in H.
  destruct (AJABase.m_useRDMA st) eqn:Hrdma; cbn [negb andb app] in H.
  - destruct (AJABase.sync_memops_fails board) eqn:Hsync; cbn [negb app] in H.
    { injection H as <- <- <- <-.
      split; [right; split; [discriminate |]; split; [discriminate |]; right; auto |].
      do 4 (split; [first [reflexivity | assumption | symmetry; assumption] |]).
      discriminate. }
    destruct (AJABase.cuda_pointer board) eqn:Hcuda; cbn [negb app] in H.
    2: { injection H as <- <- <- <-. split; [right; repeat split; try discriminate; eauto |].
         do 4 (split; [first [reflexivity | assumption | symmetry; assumption] |]).
         discriminate. }
    destruct (AJABase.locks_buffer board true); cbn [negb] in H.
    2: { injection H as <- <- <- <-. split; [right; repeat split; try discriminate; eauto |].
         do 4 (split; [first [reflexivity | assumption | symmetry; assumption] |]).
         discriminate. }
    injection H as <- <- <- <-. split; [left; split; reflexivity |].
    do 4 (split; [first [reflexivity | assumption | symmetry; assumption] |]).
    intros _. cbv zeta.
    cbn [AJABase.m_videoFormat AJABase.m_pixelFormat AJABase.m_cudaBuffer
         AJABase.m_konaHDMI AJABase.m_useTSI].
    repeat (split; [first [reflexivity | assumption | intros _; reflexivity] |]). reflexivity.
  - destruct (AJABase.locks_buffer board false); cbn [negb] in H.
    2: { injection H as <- <- <- <-. split; [right; repeat split; try discriminate; eauto |].
         do 4 (split; [first [reflexivity | assumption | symmetry; assumption] |]).
         discriminate. }
    destruct (AJABase.cuda_pointer board) eqn:Hcuda; cbn [negb app] in H.
    2: { injection H as <- <- <- <-. split; [right; repeat split; try discriminate; eauto |].
         do 4 (split; [first [reflexivity | assumption | symmetry; assumption] |]).
         discriminate. }
    injection H as <- <- <- <-. split; [left; split; reflexivity |].
    do 4 (split; [first [reflexivity | assumption | symmetry; assumption] |]).
    intros _. cbv zeta.
    cbn [AJABase.m_videoFormat AJABase.m_pixelFormat AJABase.m_cudaBuffer
         AJABase.m_konaHDMI AJABase.m_useTSI].
    repeat (split; [first [reflexivity | assumption | intros H; discriminate H] |]).
    reflexivity.
Qed.

Lemma aja_open_device_witness :
  let board := AJABase.mkBoard true true 4 (fun _ => true) (fun _ => true)
                               (fun _ _ => 33177600) (fun _ => true) true false in
  let st := AJABase.AJAConsumer_make
              0 8 (fun _ => (0, 0))
              (TestFormatOps.mkObject Formats.FORMAT_UHD_RGBA_60 0 0) "" "" true in
  (exists st',
      AJABase.OpenDevice board st
      = (AJABase.AJA_STATUS_SUCCESS, st', nil,
         AJABase.CudaAlloc 33177600 true :: AJABase.DMABufferLock true 33177600 :: nil)
      /\ AJABase.m_videoFormat st' = AJABase.NTV2_FORMAT_4x1920x1080p_6000
      /\ AJABase.m_useTSI st' = true)
  /\ snd (fst (AJABase.OpenDevice
                 (AJABase.mkBoard true true 4 (fun _ => true) (fun _ => true)
                                  (fun _ _ => 33177600) (fun _ => true) true true) st))
     = Error "Failed to set CU_POINTER_ATTRIBUTE_SYNC_MEMOPS"
       :: Error "Failed to allocate CUDA memory." :: nil.
Proof.
  cbv zeta. split; [| vm_compute; reflexivity].
  eexists. split; [vm_compute; reflexivity |].
  destruct (aja_open_device _ _ _ _ _ _
              (eq_refl : AJABase.OpenDevice
                           (AJABase.mkBoard true true 4 (fun _ => true) (fun _ => true)
                                            (fun _ _ => 33177600) (fun _ => true) true false)
                           (AJABase.mkState "0" AJABase.NTV2_FORMAT_3840x2160p_6000
                                            AJABase.NTV2_FBF_ABGR 1 false false true false)
                         = (AJABase.AJA_STATUS_SUCCESS, _, nil, _)))
    as (_ & _ & _ & _ & _ & Hsuccess).
  destruct (Hsuccess eq_refl) as (_ & _ & _ & _ & _ & _ & _ & Hformat).
  split; [exact (f_equal fst Hformat) | exact (f_equal snd Hformat)].
Defined.

(** ** Releasing the resources *)

(** X24.  [V4L2Consumer::Close] unmaps every buffer once, in order,
    closes the descriptor once when it is open, and leaves no buffer and
    the descriptor -1, whatever fails; it reports one error for each buffer
    whose [munmap] fails, in order, and then one when the descriptor is
    open and [close] fails.  [GStreamerConsumer::Close] makes, in this
    order, the calls [CudaFree] on the CUDA buffer, [g_source_remove] on the
    bus watch, [g_main_loop_unref] on the loop, [gst_caps_unref] on the
    caps and [gst_object_unref] on the pipeline, each exactly when that
    member is set, and leaves them all unset.  A second [Close], such as
    the one of the destructor after the one of [main], makes no call and
    reports nothing. *)
Theorem close_can_be_repeated (m_device : string)
        (munmap_fails munmap_fails' : V4L2Device.Buffer -> bool) (close_fails close_fails' : bool)
        (device : V4L2Device.State) (pipeline : GStreamerPipeline.State) :
  let errors :=
    map (fun _ => Error ("Failed to unmap buffer from " +++ m_device))
        (List.filter munmap_fails (V4L2Device.m_buffers device))
    ++ (if negb (V4L2Device.m_fd device =? -1) && close_fails
        then Error ("Failed to close " +++ m_device) :: nil
        else nil) in
  V4L2Device.Close m_device munmap_fails close_fails device
  = (V4L2Device.mkState (-1) nil,
     map (fun buffer => V4L2Device.munmap (V4L2Device.ptr buffer) (V4L2Device.length buffer))
         (V4L2Device.m_buffers device)
     ++ (if V4L2Device.m_fd device =? -1 then nil
         else V4L2Device.close (V4L2Device.m_fd device) :: nil),
     errors)
  /\ (errors = nil
      <-> Forall (fun buffer => munmap_fails buffer = false) (V4L2Device.m_buffers device)
          /\ (V4L2Device.m_fd device = -1 \/ close_fails = false))
  /\ V4L2Device.Close m_device munmap_fails' close_fails'
       (fst (fst (V4L2Device.Close m_device munmap_fails close_fails device)))
     = (V4L2Device.mkState (-1) nil, nil, nil)
  /\ GStreamerPipeline.Close pipeline
     = (GStreamerPipeline.mkState 0 0 0 0 0,
        List.filter (fun r => negb (Notions.released_handle r =? 0))
          (GStreamerPipeline.CudaFree (GStreamerPipeline.m_cudaBuffer pipeline)
           :: GStreamerPipeline.g_source_remove (GStreamerPipeline.m_busWatchID pipeline)
           :: GStreamerPipeline.g_main_loop_unref (GStreamerPipeline.m_loop pipeline)
           :: GStreamerPipeline.gst_caps_unref (GStreamerPipeline.m_caps pipeline)
           :: GStreamerPipeline.gst_object_unref (GStreamerPipeline.m_pipeline pipeline)
           :: nil))
  /\ GStreamerPipeline.Close (fst (GStreamerPipeline.Close pipeline))
     = (GStreamerPipeline.mkState 0 0 0 0 0, nil)
  /\ List.length (snd (GStreamerPipeline.Close pipeline))
     = List.length
         (List.filter (fun handle => negb (handle =? 0))
                 (GStreamerPipeline.m_cudaBuffer pipeline
                  :: GStreamerPipeline.m_busWatchID pipeline
                  :: GStreamerPipeline.m_loop pipeline
                  :: GStreamerPipeline.m_caps pipeline
                  :: GStreamerPipeline.m_pipeline pipeline :: nil)).
Proof.
  cbv zeta.
  assert (forall l,
             flat_map (fun buffer =>
                         if munmap_fails buffer
                         then Error ("Failed to unmap buffer from " +++ m_device) :: nil
                         else nil) l
             = map (fun _ => Error ("Failed to unmap buffer from " +++ m_device))
                   (List.filter munmap_fails l)) as Hunmap.
  { induction l as [|b l IH]; [reflexivity |].
    cbn [flat_map List.filter]. rewrite IH. destruct (munmap_fails b); reflexivity. }
  split; [| split; [| split; [reflexivity | split; [| split; [reflexivity |]]]]].
  - unfold V4L2Device.Close. rewrite Hunmap. f_equal. f_equal. f_equal.
    destruct (V4L2Device.m_fd device =? -1); reflexivity.
  - split.
    + intros Hnil. apply app_eq_nil in Hnil. destruct Hnil as [Hnone Hclose]. split.
      * induction (V4L2Device.m_buffers device) as [|b l IH]; [constructor |].
        cbn [List.filter] in Hnone.
        destruct (munmap_fails b) eqn:Hb; [discriminate Hnone |].
        constructor; [exact Hb | apply IH; exact Hnone].
      * destruct (Z.eqb_spec (V4L2Device.m_fd device) (-1)); [now left |].
        cbn [negb andb] in Hclose. destruct close_fails; [discriminate Hclose | now right].
    + intros [Hall Hclose].
      assert (List.filter munmap_fails (V4L2Device.m_buffers device) = nil) as ->.
      { induction Hall as [|b l Hb _ IH]; [reflexivity |].
        cbn [List.filter]. rewrite Hb, IH. reflexivity. }
      cbn [map app]. destruct Hclose as [->| ->]; [reflexivity |].
      rewrite andb_false_r. reflexivity.
  - unfold GStreamerPipeline.Close, GStreamerPipeline.release_if_set.
    cbn [List.filter Notions.released_handle].
    destruct (GStreamerPipeline.m_cudaBuffer pipeline =? 0),
      (GStreamerPipeline.m_busWatchID pipeline =? 0),
      (GStreamerPipeline.m_loop pipeline =? 0),
      (GStreamerPipeline.m_caps pipeline =? 0),
      (GStreamerPipeline.m_pipeline pipeline =? 0); reflexivity.
  - unfold GStreamerPipeline.Close, GStreamerPipeline.release_if_set. cbn [snd List.filter].
    destruct (GStreamerPipeline.m_cudaBuffer pipeline =? 0),
      (GStreamerPipeline.m_busWatchID pipeline =? 0),
      (GStreamerPipeline.m_loop pipeline =? 0),
      (GStreamerPipeline.m_caps pipeline =? 0),
      (GStreamerPipeline.m_pipeline pipeline =? 0); reflexivity.
Qed.

(** ** Setting up the display *)

(** X25.  [GStreamerProducer::Initialize] returns true exactly when the
    elements were created and linked, RDMA is off or the build has
    DeepStream and the buffer pool was set up, the CUDA buffer was
    allocated, there is a display with at most one monitor, the primary
    monitor has a model, and the mode of the monitor is the format: its
    geometry times its scale factor is the width and the height, and its
    refresh rate in millihertz, divided by 1000 and truncated, is the frame
    rate.  It then shows the overlay window and still returns true when
    [RealizeCallback] could not make that window native: its only output
    is one error for each such failure.  Otherwise it returns false after
    exactly one error.  In a build without DeepStream it fails whenever
    RDMA is requested. *)
Theorem gstreamer_producer_initialize (ENABLE_DEEPSTREAM : bool) (m_format : TestFormat)
        (m_useRDMA : bool) (d : GStreamerProducer.Desktop) :
  let run := GStreamerProducer.Initialize ENABLE_DEEPSTREAM m_format m_useRDMA d in
  (fst run = true
   <-> GStreamerProducer.elements_created d = true
       /\ (m_useRDMA = true ->
           ENABLE_DEEPSTREAM = true
           /\ GStreamerProducer.pool_created d = true
           /\ GStreamerProducer.pool_configured d = true)
       /\ GStreamerProducer.elements_linked d = true
       /\ GStreamerProducer.cuda_allocates d = true
       /\ GStreamerProducer.display_found d = true
       /\ GStreamerProducer.n_monitors d <= 1
       /\ GStreamerProducer.monitor_model d <> None
       /\ u64 (s32 (GStreamerProducer.geometry_width d * GStreamerProducer.scaleFactor d))
          = width m_format
       /\ u64 (s32 (GStreamerProducer.geometry_height d * GStreamerProducer.scaleFactor d))
          = height m_format
       /\ u32 (Z.quot (GStreamerProducer.refresh_rate d) 1000) = frameRate m_format)
  /\ (fst run = true ->
      snd run
      = map (fun _ => Error "Could not create native window for GStreamer overlay.")
            (List.filter negb (GStreamerProducer.realized d)))
  /\ (fst run = false -> exists x, snd run = Error x :: nil)
  /\ (m_useRDMA = true -> ENABLE_DEEPSTREAM = false ->
      GStreamerProducer.elements_created d = true ->
      run = (false,
             Error "RDMA support in the GStreamer Producer requires DeepStream." :: nil))
  /\ (0 <= GStreamerProducer.refresh_rate d < 2 ^ 31 -> 0 <= frameRate m_format ->
      (u32 (Z.quot (GStreamerProducer.refresh_rate d) 1000) = frameRate m_format
       <-> frameRate m_format * 1000 <= GStreamerProducer.refresh_rate d
           < frameRate m_format * 1000 + 1000)).
Proof.
  cbv zeta. unfold GStreamerProducer.Initialize, GStreamerProducer.mode_differs,
              GStreamerProducer.refreshRate.
  assert (flat_map (fun native => fst (GStreamerProducer.RealizeCallback native))
                   (GStreamerProducer.realized d)
          = map (fun _ => Error "Could not create native window for GStreamer overlay.")
                (List.filter negb (GStreamerProducer.realized d))) as Hrealized.
  { induction (GStreamerProducer.realized d) as [|native l IH]; [reflexivity |].
    cbn [flat_map List.filter]. rewrite IH. destruct native; reflexivity. }
  split; [| split; [| split; [| split]]].
  - destruct (GStreamerProducer.elements_created d), m_useRDMA, ENABLE_DEEPSTREAM,
      (GStreamerProducer.elements_linked d), (GStreamerProducer.pool_created d),
      (GStreamerProducer.pool_configured d), (GStreamerProducer.cuda_allocates d),
      (GStreamerProducer.display_found d);
      cbn [negb andb orb fst];
      try (split; [discriminate | intros H; decompose [and] H;
                                   try discriminate;
                                   match goal with
                                   | Hr : true = true -> _ |- _ =>
                                       destruct (Hr eq_refl) as (? & ? & ?); discriminate
                                   end]).
    all: destruct (Z.ltb_spec 1 (GStreamerProducer.n_monitors d)) as [Hmany|Hone];
      [cbn [fst]; split; [discriminate | intros H; decompose [and] H; lia] |];
      destruct (GStreamerProducer.monitor_model d) as [model|];
      [| cbn [fst]; split; [discriminate | intros H; decompose [and] H; congruence]];
      destruct (Z.eqb_spec
                  (u64 (s32 (GStreamerProducer.geometry_width d * GStreamerProducer.scaleFactor d)))
                  (width m_format)) as [Hw|Hw];
      destruct (Z.eqb_spec
                  (u64 (s32 (GStreamerProducer.geometry_height d * GStreamerProducer.scaleFactor d)))
                  (height m_format)) as [Hh|Hh];
      destruct (Z.eqb_spec (u32 (Z.quot (GStreamerProducer.refresh_rate d) 1000))
                           (frameRate m_format)) as [Hr|Hr];
      cbn [negb orb fst];
      (split; [first [discriminate
                     | intros _; repeat split; first [assumption | discriminate
                                                     | intros H; discriminate H
                                                     | congruence] ]
              | first [reflexivity | intros H; decompose [and] H; congruence]]).
  - destruct (negb (GStreamerProducer.elements_created d)); [discriminate |].
    destruct (m_useRDMA && negb ENABLE_DEEPSTREAM); [discriminate |].
    destruct (negb (GStreamerProducer.elements_linked d)); [discriminate |].
    destruct (ENABLE_DEEPSTREAM && m_useRDMA && negb (GStreamerProducer.pool_created d));
      [discriminate |].
    destruct (ENABLE_DEEPSTREAM && m_useRDMA && negb (GStreamerProducer.pool_configured d));
      [discriminate |].
    destruct (negb (GStreamerProducer.cuda_allocates d)); [discriminate |].
    destruct (negb (GStreamerProducer.display_found d)); [discriminate |].
    destruct (1 <? GStreamerProducer.n_monitors d); [discriminate |].
    destruct (GStreamerProducer.monitor_model d); [| discriminate].
    destruct (_ || _ || _); [discriminate | intros _; exact Hrealized].
  - destruct (negb (GStreamerProducer.elements_created d)); [eauto |].
    destruct (m_useRDMA && negb ENABLE_DEEPSTREAM); [eauto |].
    destruct (negb (GStreamerProducer.elements_linked d)); [eauto |].
    destruct (ENABLE_DEEPSTREAM && m_useRDMA && negb (GStreamerProducer.pool_created d));
      [eauto |].
    destruct (ENABLE_DEEPSTREAM && m_useRDMA && negb (GStreamerProducer.pool_configured d));
      [eauto |].
    destruct (negb (GStreamerProducer.cuda_allocates d)); [eauto |].
    destruct (negb (GStreamerProducer.display_found d)); [eauto |].
    destruct (1 <? GStreamerProducer.n_monitors d); [eauto |].
    destruct (GStreamerProducer.monitor_model d); [| eauto].
    destruct (_ || _ || _); [eauto | discriminate].
  - intros -> -> ->. reflexivity.
  - intros Hrate Hframe.
    rewrite Z.quot_div_nonneg by lia.
    rewrite u32_small.
    + split; intros H.
      * rewrite <- H. Z.div_mod_to_equations. lia.
      * symmetry.
        apply Z.div_unique with (r := GStreamerProducer.refresh_rate d
                                      - frameRate m_format * 1000); lia.
    + change (2 ^ 31) with 2147483648 in Hrate. change (2 ^ 32) with 4294967296.
      Z.div_mod_to_equations. lia.
Qed.

(** X26.  [GLProducer::Initialize] asks GLFW for the size of the window
    before it tests whether the window was created; it returns unless that
    call does not.  When it returns, it returns true, without any output,
    exactly when at most one monitor is connected, there is a primary
    monitor, the window was created, the video mode of the monitor and the
    size of the window are the width, the height and the frame rate of the
    format, and the CUDA buffer was allocated.  Otherwise it returns false
    and its output starts with an error, which is all of its output unless
    it goes on to list the supported modes. *)
Theorem gl_producer_initialize (m_format : TestFormat) (d : GLProducer.Display) :
  (GLProducer.Initialize m_format d = None
   <-> GLProducer.monitorCount d <= 1
       /\ GLProducer.primary_monitor d = true
       /\ GLProducer.window_size d = None)
  /\ forall run,
      GLProducer.Initialize m_format d = Some run ->
      (fst run = true
       <-> GLProducer.monitorCount d <= 1
           /\ GLProducer.primary_monitor d = true
           /\ GLProducer.window_created d = true
           /\ (exists mode,
                  GLProducer.video_mode d = Some mode
                  /\ u64 (GLProducer.mode_width mode) = width m_format
                  /\ u64 (GLProducer.mode_height mode) = height m_format
                  /\ u32 (GLProducer.refreshRate mode) = frameRate m_format)
           /\ (exists windowWidth windowHeight,
                  GLProducer.window_size d = Some (windowWidth, windowHeight)
                  /\ u64 windowWidth = width m_format
                  /\ u64 windowHeight = height m_format)
           /\ GLProducer.cuda_allocates d = true)
      /\ (fst run = true -> snd run = nil)
      /\ (fst run = false ->
          exists x,
            snd run = Error x :: nil
            \/ exists y, snd run = Error x :: GLProducer.ShowSupportedVideoModes d
                                           ++ Warning y :: nil).
Proof.
  unfold GLProducer.Initialize, GLProducer.mode_differs.
  destruct (Z.ltb_spec 1 (GLProducer.monitorCount d)) as [Hmany|Hone].
  { split; [split; [discriminate | intros [H _]; lia] |].
    intros run Hrun. injection Hrun as <-. cbn [fst snd].
    split; [split; [discriminate | intros H; decompose [and] H; lia] |].
    split; [discriminate | eauto]. }
  destruct (GLProducer.primary_monitor d); cbn [negb].
  2: { split; [split; [discriminate | intros (_ & H & _); discriminate H] |].
       intros run Hrun. injection Hrun as <-. cbn [fst snd].
       split; [split; [discriminate | intros H; decompose [and] H; discriminate] |].
       split; [discriminate | eauto]. }
  destruct (GLProducer.window_size d) as [[windowWidth windowHeight]|].
  2: { split; [split; [auto | reflexivity] | discriminate]. }
  split.
  { split; [| intros (_ & _ & H); discriminate H].
    destruct (_ || _); [discriminate |].
    destruct (negb (GLProducer.cuda_allocates d)); discriminate. }
  intros run Hrun.
  destruct (GLProducer.window_created d); cbn [negb orb] in Hrun.
  2: { injection Hrun as <-. cbn [fst snd].
       split; [split; [discriminate | intros H; decompose [and] H; discriminate] |].
       split; [discriminate |]. intros _.
       destruct (match GLProducer.video_mode d with
                 | Some mode => GLProducer.refreshRate mode =? 0
                 | None => false
                 end); eauto. }
  destruct (GLProducer.video_mode d) as [mode|].
  2: { injection Hrun as <-. cbn [fst snd].
       split; [split; [discriminate
                      | intros (_ & _ & _ & (mode & Hmode & _) & _); discriminate Hmode] |].
       split; [discriminate | eauto]. }
  destruct (Z.eqb_spec (u64 (GLProducer.mode_width mode)) (width m_format)) as [Hw|Hw];
    destruct (Z.eqb_spec (u64 (GLProducer.mode_height mode)) (height m_format)) as [Hh|Hh];
    destruct (Z.eqb_spec (u32 (GLProducer.refreshRate mode)) (frameRate m_format)) as [Hr|Hr];
    destruct (Z.eqb_spec (u64 windowWidth) (width m_format)) as [Hww|Hww];
    destruct (Z.eqb_spec (u64 windowHeight) (height m_format)) as [Hwh|Hwh];
    cbn [negb orb] in Hrun;
    try (injection Hrun as <-; cbn [fst snd];
         split;
         [split;
          [discriminate
          | intros (_ & _ & _ & (mode' & Hmode & ? & ? & ?) & (w' & h' & Hsize & ? & ?) & _);
            injection Hmode as <-; injection Hsize as <- <-; congruence] |];
         split; [discriminate |]; intros _;
         destruct (GLProducer.refreshRate mode =? 0); eauto).
  destruct (GLProducer.cuda_allocates d); cbn [negb] in Hrun; injection Hrun as <-;
    cbn [fst snd].
  - split; [| split; [reflexivity | discriminate]].
    split; [| reflexivity]. intros _.
    repeat (split; [first [assumption | reflexivity] |]).
    split; [exists mode; auto |]. split; [exists windowWidth, windowHeight; auto | reflexivity].
  - split; [split; [discriminate | intros H; decompose [and] H; discriminate] |].
    split; [discriminate | eauto].
Qed.

Lemma gl_producer_initialize_witness :
  let d := GLProducer.mkDisplay 1 true "DP-0" true
                                (Some (GLProducer.mkVideoMode 1920 1080 60))
                                (Some (1920, 1080)) nil true in
  GLProducer.Initialize Formats.FORMAT_1080_RGBA_60 d = Some (true, nil)
  /\ GLProducer.Initialize Formats.FORMAT_1080_RGBA_60
       (GLProducer.mkDisplay 1 true "DP-0" false None None nil true) = None
  /\ (exists windowWidth windowHeight,
         GLProducer.window_size d = Some (windowWidth, windowHeight)
         /\ u64 windowWidth = 1920 /\ u64 windowHeight = 1080).
Proof.
  cbv zeta.
  set (d := GLProducer.mkDisplay 1 true "DP-0" true _ _ _ _).
  assert (GLProducer.Initialize Formats.FORMAT_1080_RGBA_60 d = Some (true, nil)) as Hrun
      by (vm_compute; reflexivity).
  split; [exact Hrun |]. split; [vm_compute; reflexivity |].
  destruct (proj2 (gl_producer_initialize Formats.FORMAT_1080_RGBA_60 d) _ Hrun)
    as (Htrue & _).
  destruct (proj1 Htrue eq_refl) as (_ & _ & _ & _ & Hsize & _).
  exact Hsize.
Defined.
